(** * ARQV30 Enhanced v2.0: the analysis orchestration pipeline

    A shallow embedding of [src/services/enhanced_analysis_engine.py]
    (class [EnhancedAnalysisEngine]) and the properties of its pipeline:
    research collection, prompt construction, recovery of the model's
    answer, consolidation, quality score and the emergency report.

    Conventions of the embedding.
    - A Python [str] is a list of Unicode code points ([pystr]), so that
      [len] and slices count what Python counts.
    - JSON-like data (the request [data], the analysis dictionaries) is
      the type [pyval]; a [dict] is an association list in insertion
      order with the update-in-place semantics of Python's [d[k] = v].
    - Python's [float] is the kernel's binary64 type.
    - A call either returns or raises: [res].  Stateful code is a
      state-and-exception computation [M S A]: the state reached when an
      exception is raised is kept, as mutations survive a Python [try].
    - Only exceptions derived from [Exception] are modelled, which is what
      every handler of the file catches; logging produces no data and is
      left out. *)

From Stdlib Require Import ZArith NArith List String Ascii Bool Lia.
From Stdlib Require Import DecimalString.
From Stdlib Require Import Floats.PrimFloat Floats.SpecFloat Floats.FloatOps.
Import ListNotations.

Set Implicit Arguments.
Local Open Scope Z_scope.

(* ================================================================== *)
(** ** Python strings *)

Module PyStr.

(** One Unicode code point. *)
Definition char := N.
Definition pystr := list char.

Definition bytes_of (s : string) : list N :=
  map N_of_ascii (list_ascii_of_string s).

(** Decoding of the UTF-8 text of a literal into code points. *)
Fixpoint utf8_decode (bs : list N) : pystr :=
  match bs with
  | [] => []
  | b :: r =>
      if (b <? 128)%N then b :: utf8_decode r
      else if (b <? 224)%N then
        match r with
        | c1 :: r1 => ((b - 192) * 64 + (c1 - 128))%N :: utf8_decode r1
        | _ => [b]
        end
      else if (b <? 240)%N then
        match r with
        | c1 :: c2 :: r2 =>
            ((b - 224) * 4096 + (c1 - 128) * 64 + (c2 - 128))%N
              :: utf8_decode r2
        | _ => [b]
        end
      else
        match r with
        | c1 :: c2 :: c3 :: r3 =>
            ((b - 240) * 262144 + (c1 - 128) * 4096
             + (c2 - 128) * 64 + (c3 - 128))%N :: utf8_decode r3
        | _ => [b]
        end
  end.

(** A literal of the source. *)
Definition u8 (s : string) : pystr := utf8_decode (bytes_of s).

(** The double quote, and literals that contain it: in the text given
    to [u8q] the character [@] (which the source never uses) stands
    for the double quote. *)
Definition dquote : char := 34%N.
Definition u8q (s : string) : pystr :=
  map (fun c => if (c =? 64)%N then dquote else c) (u8 s).

Fixpoint eqb (a b : pystr) : bool :=
  match a, b with
  | [], [] => true
  | x :: a', y :: b' => (x =? y)%N && eqb a' b'
  | _, _ => false
  end.

(** [len(s)]. *)
Definition len (s : pystr) : Z := Z.of_nat (List.length s).

(** [s[:n]] for a literal bound [n >= 0]. *)
Definition prefix (n : Z) (s : pystr) : pystr := firstn (Z.to_nat n) s.

(** [s[start:stop]] for [0 <= start] and [0 <= stop]: empty when
    [stop <= start], clipped to the length of [s]. *)
Definition slice (start stop : nat) (s : pystr) : pystr :=
  firstn (stop - start) (skipn start s).

(** [s.startswith(p)]. *)
Fixpoint starts_with (p s : pystr) : bool :=
  match p, s with
  | [], _ => true
  | x :: p', y :: s' => (x =? y)%N && starts_with p' s'
  | _ :: _, [] => false
  end.

(** [s.find(sub)]: the lowest index where [sub] occurs, [None] for
    Python's -1. *)
Fixpoint find (sub s : pystr) : option nat :=
  if starts_with sub s then Some O
  else match s with
       | [] => None
       | _ :: s' => option_map S (find sub s')
       end.

(** [s.rfind(sub)]: the highest index where [sub] occurs. *)
Fixpoint rfind (sub s : pystr) : option nat :=
  match s with
  | [] => if starts_with sub [] then Some O else None
  | _ :: s' =>
      match rfind sub s' with
      | Some i => Some (S i)
      | None => if starts_with sub s then Some O else None
      end
  end.

(** [s.find(sub)] and [s.rfind(sub)] as Python returns them. *)
Definition find_index (sub s : pystr) : Z :=
  match find sub s with Some i => Z.of_nat i | None => -1 end.
Definition rfind_index (sub s : pystr) : Z :=
  match rfind sub s with Some i => Z.of_nat i | None => -1 end.

(** [s[start:stop]] for any two integers: a negative index counts
    from the end, and both are clipped to the string. *)
Definition clip (n : nat) (i : Z) : nat :=
  if i <? 0 then Z.to_nat (Z.max 0 (i + Z.of_nat n))
  else Nat.min (Z.to_nat i) n.
Definition py_slice (start stop : Z) (s : pystr) : pystr :=
  slice (clip (List.length s) start) (clip (List.length s) stop) s.

(** [sub in s]. *)
Definition contains (sub s : pystr) : bool :=
  match find sub s with Some _ => true | None => false end.

(** The characters [str.strip()] removes: those for which
    [str.isspace()] holds. *)
Definition is_space (c : char) : bool :=
  ((9 <=? c) && (c <=? 13) || (28 <=? c) && (c <=? 32)
   || (c =? 133) || (c =? 160) || (c =? 5760)
   || (8192 <=? c) && (c <=? 8202)
   || (c =? 8232) || (c =? 8233) || (c =? 8239) || (c =? 8287)
   || (c =? 12288))%N.

Fixpoint lstrip (s : pystr) : pystr :=
  match s with
  | c :: s' => if is_space c then lstrip s' else s
  | [] => []
  end.

Definition strip (s : pystr) : pystr := rev (lstrip (rev (lstrip s))).

(** [s.split(sep)] for a separator of one character. *)
Fixpoint split1 (sep : char) (s : pystr) : list pystr :=
  match s with
  | [] => [[]]
  | c :: s' =>
      if (c =? sep)%N then [] :: split1 sep s'
      else match split1 sep s' with
           | p :: ps => (c :: p) :: ps
           | [] => [[c]]
           end
  end.

(** [len(s.split(sep))] for a non-empty separator: one more than the
    number of occurrences of [sep] found scanning from the left
    without overlap.  [skip] is the number of characters still
    covered by the last occurrence found. *)
Fixpoint count_from (sep : pystr) (skip : nat) (s : pystr) : nat :=
  match s with
  | [] => O
  | _ :: s' =>
      match skip with
      | S k => count_from sep k s'
      | O => if starts_with sep s
             then S (count_from sep (List.length sep - 1) s')
             else count_from sep O s'
      end
  end.

Definition split_count (sep s : pystr) : Z :=
  Z.of_nat (S (count_from sep O s)).

(** [str(n)] for an [int]. *)
Definition of_Z (z : Z) : pystr :=
  u8 (NilZero.string_of_int (Z.to_int z)).

(** [format(n, ',')] for an [int]: decimal digits in groups of three. *)
Fixpoint group3 (digits_rev : pystr) : pystr :=
  match digits_rev with
  | a :: b :: c :: ((_ :: _) as r) => a :: b :: c :: 44%N :: group3 r
  | _ => digits_rev
  end.

Definition of_Z_grouped (z : Z) : pystr :=
  (if z <? 0 then [45%N] else []) ++ rev (group3 (rev (of_Z (Z.abs z)))).

(** A number on two digits, as [%d], [%m], [%H] and [%M] print it. *)
Definition pad2 (n : N) : pystr :=
  (if (n <? 10)%N then [48%N] else []) ++ of_Z (Z.of_N n).

Fixpoint pad_to (width : nat) (s : pystr) : pystr :=
  match width with
  | O => s
  | S w => if (List.length s <? width)%nat then 48%N :: pad_to w s else s
  end.

Fixpoint concat (l : list pystr) : pystr :=
  match l with
  | [] => []
  | s :: l' => s ++ concat l'
  end.

End PyStr.
Import PyStr.

(* ================================================================== *)
(** ** Python values *)

(** The values a request, a decoded JSON text and a report are made of. *)
#[local] Set Warnings "-register-all".
Inductive pyval : Type :=
| VNone
| VBool (b : bool)
| VInt (z : Z)
| VFloat (f : float)
| VStr (s : pystr)
| VList (l : list pyval)
| VDict (d : list (pystr * pyval)).

(** A [dict] with [str] keys, in insertion order. *)
Definition dict := list (pystr * pyval).

Module Dict.

(** [d.get(k)]: the value at [k], [None] when [k not in d]. *)
Fixpoint get (d : dict) (k : pystr) : option pyval :=
  match d with
  | [] => None
  | (k', v) :: d' => if PyStr.eqb k' k then Some v else get d' k
  end.

(** [k in d]. *)
Definition mem (k : pystr) (d : dict) : bool :=
  match get d k with Some _ => true | None => false end.

(** [d.get(k, default)]. *)
Definition get_default (d : dict) (k : pystr) (default : pyval) : pyval :=
  match get d k with Some v => v | None => default end.

(** [d[k] = v]: a key already present keeps its place and takes the
    new value, a new key goes last. *)
Fixpoint set (d : dict) (k : pystr) (v : pyval) : dict :=
  match d with
  | [] => [(k, v)]
  | (k', v') :: d' =>
      if PyStr.eqb k' k then (k', v) :: d' else (k', v') :: set d' k v
  end.

(** A dict display [{k1: v1, ..., kn: vn}]: the items are stored from
    left to right, so a key written twice ends with its last value. *)
Definition literal (items : list (pystr * pyval)) : dict :=
  fold_left (fun d kv => set d (fst kv) (snd kv)) items [].

End Dict.

(** [bool(v)]. *)
Definition truthy (v : pyval) : bool :=
  match v with
  | VNone => false
  | VBool b => b
  | VInt z => negb (z =? 0)
  | VFloat f => negb (PrimFloat.eqb f 0%float)
  | VStr s => match s with [] => false | _ => true end
  | VList l => match l with [] => false | _ => true end
  | VDict d => match d with [] => false | _ => true end
  end.

(** [type(v).__name__]. *)
Definition type_name (v : pyval) : pystr :=
  match v with
  | VNone => u8 "NoneType"
  | VBool _ => u8 "bool"
  | VInt _ => u8 "int"
  | VFloat _ => u8 "float"
  | VStr _ => u8 "str"
  | VList _ => u8 "list"
  | VDict _ => u8 "dict"
  end.

(* ================================================================== *)
(** ** Exceptions and computations *)

(** The classes of exception the file tells apart: only
    [json.JSONDecodeError] is caught by name; every other handler is
    [except Exception] or a bare [except]. *)
Inductive exn_class : Type :=
| PlainException
| TypeError
| JSONDecodeError
| OtherError (name : pystr).

(** An exception, with the text [str(e)] gives. *)
Record exn : Type := Exn { exn_cls : exn_class; exn_str : pystr }.

Inductive res (A : Type) : Type :=
| Ok (a : A)
| Raise (e : exn).
Arguments Ok {A} a.
Arguments Raise {A} e.

Definition is_ok {A} (r : res A) : bool :=
  match r with Ok _ => true | Raise _ => false end.

(** A computation over a state [S]: it returns or raises, and leaves a
    state in both cases. *)
Definition M (S A : Type) : Type := S -> res A * S.

Section Computations.
Context {S : Type}.

Definition ret {A} (a : A) : M S A := fun s => (Ok a, s).

Definition raise {A} (e : exn) : M S A := fun s => (Raise e, s).

Definition bind {A B} (m : M S A) (k : A -> M S B) : M S B :=
  fun s => match m s with
           | (Ok a, s') => k a s'
           | (Raise e, s') => (Raise e, s')
           end.

(** [try: m  except Exception as e: h e]. *)
Definition try_except {A} (m : M S A) (h : exn -> M S A) : M S A :=
  fun s => match m s with
           | (Ok a, s') => (Ok a, s')
           | (Raise e, s') => h e s'
           end.

(** A value that is computed without effect but may fail. *)
Definition of_res {A} (r : res A) : M S A := fun s => (r, s).

(** [for x in xs: body x]. *)
Fixpoint for_each {X} (xs : list X) (body : X -> M S unit) : M S unit :=
  match xs with
  | [] => ret tt
  | x :: xs' => bind (body x) (fun _ => for_each xs' body)
  end.

Definition modify (f : S -> S) : M S unit := fun s => (Ok tt, f s).

End Computations.

Declare Scope py_scope.
Delimit Scope py_scope with py.
Notation "x <- m ;; k" := (bind m (fun x => k))
  (at level 61, m at next level, right associativity) : py_scope.
Notation "m ;;; k" := (bind m (fun _ => k))
  (at level 61, right associativity) : py_scope.
Local Open Scope py_scope.

(** A computation on one component of a pair of states. *)
Definition on_snd {S1 S2 A} (m : M S2 A) : M (S1 * S2) A :=
  fun s => let (r, s2) := m (snd s) in (r, (fst s, s2)).

(** What a computation returns or raises from a state. *)
Definition result {S A} (m : M S A) (s : S) : res A := fst (m s).

(* ================================================================== *)
(** ** Data of the pipeline *)

(** One hit of the search collaborator: [{url, title, snippet, source}]. *)
Record SearchResult : Type := mkSearchResult {
  sr_url : pystr;
  sr_title : pystr;
  sr_snippet : pystr;
  sr_source : pystr
}.

(** One entry of [research_data["extracted_content"]]; [context_query]
    is present on the pages of the contextual searches only. *)
Record ExtractedPage : Type := mkExtractedPage {
  ep_url : pystr;
  ep_title : pystr;
  ep_content : pystr;
  ep_source : pystr;
  ep_context_query : option pystr
}.

(** One entry of [research_data["sources"]]. *)
Record SourceRef : Type := mkSourceRef {
  so_url : pystr;
  so_title : pystr;
  so_source : pystr
}.

(** The dictionary [research_data] of [_collect_comprehensive_data]. *)
Record ResearchData : Type := mkResearchData {
  search_results : list SearchResult;
  extracted_content : list ExtractedPage;
  market_intelligence : dict;
  sources : list SourceRef;
  total_content_length : Z
}.

(** A provider-status snapshot: provider name to [{available, ...}]. *)
Record ProviderInfo : Type := mkProviderInfo {
  available : bool;
  details : dict
}.
Definition provider_status := list (pystr * ProviderInfo).

(** A [datetime] value. *)
Record datetime : Type := mkDatetime {
  year : N; month : N; day : N;
  hour : N; minute : N; second : N; microsecond : N
}.

(** [self.systems_enabled]. *)
Record SystemsEnabled : Type := mkSystemsEnabled {
  ai_manager : bool;
  search_manager : bool;
  content_extractor : bool
}.

(** An instance of [EnhancedAnalysisEngine]. *)
Record EnhancedAnalysisEngine : Type := mkEngine {
  max_analysis_time : Z;
  systems_enabled : SystemsEnabled
}.

(** What the file imports and does not define: the three collaborators
    ([services.search_manager], [services.content_extractor],
    [services.ai_manager]; their modules are not part of the sources, so
    they are taken with the shapes the specification gives them, each call
    free to raise) and the pieces of the Python runtime whose behaviour no
    property below depends on.  [W] is the state of the outside world the
    collaborators and the clock read and change. *)
Record Runtime (W : Type) : Type := mkRuntime {
  (** [bool(ai_manager)], [bool(search_manager)],
      [bool(content_extractor)]. *)
  ai_manager_bool : bool;
  search_manager_bool : bool;
  content_extractor_bool : bool;
  (** [search_manager.multi_search(query, max_results_per_provider=n)]. *)
  multi_search : pyval -> Z -> M W (list SearchResult);
  (** [search_manager.search(query, max_results=n)]. *)
  search : pystr -> Z -> M W (list SearchResult);
  (** [search_manager.get_provider_status()]. *)
  search_get_provider_status : M W provider_status;
  (** [content_extractor.extract_content(url)]: text, or empty or [None]. *)
  extract_content : pystr -> M W (option pystr);
  (** [ai_manager.generate_analysis(prompt, max_tokens=n)]. *)
  generate_analysis : pystr -> Z -> M W (option pystr);
  (** [ai_manager.get_provider_status()]. *)
  ai_get_provider_status : M W provider_status;
  (** [json.loads]. *)
  json_loads : pystr -> res pyval;
  (** [repr] of a float, a list or a dict, for [str()] of such a value. *)
  py_repr : pyval -> pystr;
  (** [time.time()], [datetime.now()], [datetime.utcnow()]. *)
  time_time : W -> float * W;
  datetime_now : W -> datetime * W;
  datetime_utcnow : W -> datetime * W;
  (** [x // y] and [x % y] on floats. *)
  float_floordiv : float -> float -> float;
  float_mod : float -> float -> float
}.

(** A clock reading as a computation. *)
Definition reading {W A} (f : W -> A * W) : M W A :=
  fun w => let (a, w') := f w in (Ok a, w').

(** [str(v)], as an f-string field prints a value. *)
Definition py_str {W} (rt : Runtime W) (v : pyval) : pystr :=
  match v with
  | VStr s => s
  | VInt z => PyStr.of_Z z
  | VBool true => u8 "True"
  | VBool false => u8 "False"
  | VNone => u8 "None"
  | _ => py_repr rt v
  end.

(** [d.isoformat()]. *)
Definition isoformat (d : datetime) : pystr :=
  PyStr.concat
    [ pad_to 4 (PyStr.of_Z (Z.of_N (year d))); u8 "-"; pad2 (month d);
      u8 "-"; pad2 (day d); u8 "T"; pad2 (hour d); u8 ":";
      pad2 (minute d); u8 ":"; pad2 (second d);
      if (microsecond d =? 0)%N then []
      else u8 "." ++ pad_to 6 (PyStr.of_Z (Z.of_N (microsecond d))) ].

(** [d.strftime('%d/%m/%Y %H:%M')], for a year of four digits. *)
Definition strftime_dmY_HM (d : datetime) : pystr :=
  PyStr.concat
    [ pad2 (day d); u8 "/"; pad2 (month d); u8 "/";
      PyStr.of_Z (Z.of_N (year d)); u8 " "; pad2 (hour d); u8 ":";
      pad2 (minute d) ].

(** The number of distinct elements, [len(set(xs))], and the distinct
    elements in order of first occurrence (Python leaves the order of
    [list(set(xs))] unspecified). *)
Fixpoint distinct (xs : list pystr) : list pystr :=
  match xs with
  | [] => []
  | x :: xs' =>
      x :: filter (fun y => negb (PyStr.eqb x y)) (distinct xs')
  end.

(** [__init__]. *)
Definition init {W} (rt : Runtime W) : EnhancedAnalysisEngine :=
  {| max_analysis_time := 1800;
     systems_enabled :=
       {| ai_manager := ai_manager_bool rt;
          search_manager := search_manager_bool rt;
          content_extractor := content_extractor_bool rt |} |}.

(* ================================================================== *)
(** ** Operations on values that may raise *)

Definition type_error (msg : pystr) : exn :=
  {| exn_cls := TypeError; exn_str := msg |}.

Definition squote (s : pystr) : pystr := u8 "'" ++ s ++ u8 "'".

(** [int(x)] for a float: the integer nearest to [x] towards zero. *)
Definition int_of_float (x : float) : res Z :=
  match Prim2SF x with
  | S754_zero _ => Ok 0
  | S754_finite negative m e =>
      let magnitude :=
        if 0 <=? e then Zpos m * 2 ^ e else Zpos m / 2 ^ (- e) in
      Ok (if negative then - magnitude else magnitude)
  | S754_infinity _ =>
      Raise {| exn_cls := OtherError (u8 "OverflowError");
               exn_str := u8 "cannot convert float infinity to integer" |}
  | S754_nan =>
      Raise {| exn_cls := OtherError (u8 "ValueError");
               exn_str := u8 "cannot convert float NaN to integer" |}
  end.

(** The float of a small natural number of points. *)
Definition float_of_Z (z : Z) : float :=
  PrimFloat.of_uint63 (Uint63Axioms.of_Z z).

(** [len(v)]. *)
Definition py_len (v : pyval) : res Z :=
  match v with
  | VStr s => Ok (PyStr.len s)
  | VList l => Ok (Z.of_nat (List.length l))
  | VDict d => Ok (Z.of_nat (List.length d))
  | _ => Raise (type_error (u8 "object of type " ++ squote (type_name v)
                            ++ u8 " has no len()"))
  end.

(** [v[key] = x] for a [str] key: only a dict takes it. *)
Definition py_setitem (v : pyval) (key : pystr) (x : pyval) : res dict :=
  match v with
  | VDict d => Ok (Dict.set d key x)
  | VList _ =>
      Raise (type_error (u8 "list indices must be integers or slices, not str"))
  | _ => Raise (type_error (squote (type_name v)
                            ++ u8 " object does not support item assignment"))
  end.

(** [v + l] for a list [l]: only a list can be extended that way. *)
Definition py_add_list (v : pyval) (l : list pyval) : res pyval :=
  match v with
  | VList l0 => Ok (VList (l0 ++ l))
  | VStr _ =>
      Raise (type_error (u8q "can only concatenate str (not @list@) to str"))
  | _ => Raise (type_error (u8 "unsupported operand type(s) for +: "
                            ++ squote (type_name v) ++ u8 " and 'list'"))
  end.

(** [d[key].append(x)] where [d[key]] is a list. *)
Definition py_append_at (d : dict) (key : pystr) (x : pyval) : res dict :=
  match Dict.get d key with
  | Some (VList l) => Ok (Dict.set d key (VList (l ++ [x])))
  | Some v =>
      Raise {| exn_cls := OtherError (u8 "AttributeError");
               exn_str := squote (type_name v)
                          ++ u8 " object has no attribute 'append'" |}
  | None =>
      Raise {| exn_cls := OtherError (u8 "KeyError");
               exn_str := squote key |}
  end.

Definition strs (l : list pystr) : pyval := VList (map VStr l).

(* ================================================================== *)
(** ** The engine *)

Section Engine.

Variable W : Type.
Variable rt : Runtime W.

(** *** [_collect_comprehensive_data] *)

(** The state of the method: the dictionary under construction and the
    outside world.  The dictionary is updated in place, so what was
    stored before an exception is still there in the handler. *)
Definition collecting := (ResearchData * W)%type.

Definition empty_research_data : ResearchData :=
  {| search_results := [];
     extracted_content := [];
     market_intelligence := [];
     sources := [];
     total_content_length := 0 |}.

Definition update (f : ResearchData -> ResearchData) : M collecting unit :=
  modify (fun s : collecting => (f (fst s), snd s)).

Definition set_search_results (l : list SearchResult) (rd : ResearchData) :=
  {| search_results := l;
     extracted_content := extracted_content rd;
     market_intelligence := market_intelligence rd;
     sources := sources rd;
     total_content_length := total_content_length rd |}.

Definition extend_search_results (l : list SearchResult)
  (rd : ResearchData) :=
  set_search_results (search_results rd ++ l) rd.

Definition set_sources (l : list SourceRef) (rd : ResearchData) :=
  {| search_results := search_results rd;
     extracted_content := extracted_content rd;
     market_intelligence := market_intelligence rd;
     sources := l;
     total_content_length := total_content_length rd |}.

(** The two statements under [if content:]. *)
Definition append_page (p : ExtractedPage) (rd : ResearchData) :=
  {| search_results := search_results rd;
     extracted_content := extracted_content rd ++ [p];
     market_intelligence := market_intelligence rd;
     sources := sources rd;
     total_content_length :=
       total_content_length rd + PyStr.len (ep_content p) |}.

(** [if content:] for what [extract_content] returned. *)
Definition content_truthy (c : option pystr) : option pystr :=
  match c with
  | Some ((_ :: _) as s) => Some s
  | _ => None
  end.

(** The body of the two extraction loops. *)
Definition extract_one (context_query : option pystr)
  (result : SearchResult) : M collecting unit :=
  content <- on_snd (extract_content rt (sr_url result)) ;;
  match content_truthy content with
  | Some c =>
      update (append_page
                {| ep_url := sr_url result;
                   ep_title := sr_title result;
                   ep_content := c;
                   ep_source := sr_source result;
                   ep_context_query := context_query |})
  | None => ret tt
  end.

Definition source_of (r : SearchResult) : SourceRef :=
  {| so_url := sr_url r; so_title := sr_title r;
     so_source := sr_source r |}.

(** The body of the first [try]. *)
Definition multi_provider_search (query : pyval) : M collecting unit :=
  results <- on_snd (multi_search rt query 8) ;;
  update (set_search_results results) ;;;
  for_each (firstn 15 results) (extract_one None) ;;;
  update (set_sources (map source_of results)).

Definition contextual_queries (segmento : pyval) : list pystr :=
  [ u8 "mercado " ++ py_str rt segmento ++ u8 " Brasil 2024 tendências";
    u8 "análise competitiva " ++ py_str rt segmento ++ u8 " oportunidades";
    u8 "dados estatísticos " ++ py_str rt segmento ++ u8 " crescimento" ].

(** The body of the loop over the contextual queries. *)
Definition contextual_search (query : pystr) : M collecting unit :=
  context_results <- on_snd (search rt query 5) ;;
  update (extend_search_results context_results) ;;;
  for_each (firstn 3 context_results) (extract_one (Some query)).

(** The body of the second [try]. *)
Definition contextual_searches (segmento : pyval) : M collecting unit :=
  for_each (contextual_queries segmento) contextual_search.

(** [except Exception as e: logger.error(...)]. *)
Definition log_and_continue {S} (e : exn) : M S unit := ret tt.

Definition collect_body (self : EnhancedAnalysisEngine) (data : dict)
  : M collecting unit :=
  (if search_manager (systems_enabled self)
      && truthy (Dict.get_default data (u8 "query") VNone)
   then try_except
          (multi_provider_search (Dict.get_default data (u8 "query") VNone))
          log_and_continue
   else ret tt) ;;;
  (if search_manager (systems_enabled self)
      && truthy (Dict.get_default data (u8 "segmento") VNone)
   then try_except
          (contextual_searches
             (Dict.get_default data (u8 "segmento") VNone))
          log_and_continue
   else ret tt).

Definition _collect_comprehensive_data (self : EnhancedAnalysisEngine)
  (data : dict) (session_id : option pystr) : M W ResearchData :=
  fun w =>
    match collect_body self data (empty_research_data, w) with
    | (Ok _, (research_data, w')) => (Ok research_data, w')
    | (Raise e, (_, w')) => (Raise e, w')
    end.

(** *** [_build_comprehensive_analysis_prompt] *)

Definition nl : pystr := [10%N].

(** [data.get(key, 'Não informado')] as a field of the f-string. *)
Definition brief_field (data : dict) (key : string) : pystr :=
  py_str rt (Dict.get_default data (u8 key) (VStr (u8 "Não informado"))).

(** [search_context[:12000] if search_context else "Nenhuma pesquisa
      realizada"]. *)
Definition embedded_context (search_context : pystr) : pystr :=
  match search_context with
  | [] => u8 "Nenhuma pesquisa realizada"
  | _ => PyStr.prefix 12000 search_context
  end.

(** [len(search_context.split('---')) if search_context else 0]. *)
Definition fontes_consultadas (search_context : pystr) : Z :=
  match search_context with
  | [] => 0
  | _ => PyStr.split_count (u8 "---") search_context
  end.

(** The constant text of the f-string, piece by piece; doubled braces
    of the source are single here. *)
Definition prompt_head : pystr := u8 "
# ANÁLISE ULTRA-DETALHADA DE MERCADO - ARQV30 ENHANCED v2.0

Você é o DIRETOR SUPREMO DE ANÁLISE DE MERCADO, um especialista de elite com 30+ anos de experiência.

## DADOS DO PROJETO:
- **Segmento**: ".
Definition prompt_produto : pystr := u8 "
- **Produto/Serviço**: ".
Definition prompt_publico : pystr := u8 "
- **Público-Alvo**: ".
Definition prompt_preco : pystr := u8 "
- **Preço**: R$ ".
Definition prompt_objetivo : pystr := u8 "
- **Objetivo de Receita**: R$ ".
Definition prompt_orcamento : pystr := u8 "
- **Orçamento Marketing**: R$ ".
Definition prompt_prazo : pystr := u8 "
- **Prazo**: ".
Definition prompt_concorrentes : pystr := u8 "
- **Concorrentes**: ".
Definition prompt_dados : pystr := u8 "
- **Dados Adicionais**: ".
Definition prompt_contexto : pystr := u8 "

## CONTEXTO DE PESQUISA REAL:
".
Definition prompt_schema : pystr := u8q "

## INSTRUÇÕES CRÍTICAS:

Gere uma análise ULTRA-COMPLETA em formato JSON estruturado. Use APENAS dados REAIS baseados na pesquisa fornecida.

```json
{
  @avatar_ultra_detalhado@: {
    @nome_ficticio@: @Nome representativo baseado em dados reais@,
    @perfil_demografico@: {
      @idade@: @Faixa etária específica com dados reais@,
      @genero@: @Distribuição real por gênero@,
      @renda@: @Faixa de renda real baseada em pesquisas@,
      @escolaridade@: @Nível educacional real@,
      @localizacao@: @Regiões geográficas reais@,
      @estado_civil@: @Status relacionamento real@,
      @profissao@: @Ocupações reais mais comuns@
    },
    @perfil_psicografico@: {
      @personalidade@: @Traços reais dominantes@,
      @valores@: @Valores reais e crenças principais@,
      @interesses@: @Hobbies e interesses reais específicos@,
      @estilo_vida@: @Como realmente vive baseado em pesquisas@,
      @comportamento_compra@: @Processo real de decisão@,
      @influenciadores@: @Quem realmente influencia decisões@,
      @medos_profundos@: @Medos reais documentados@,
      @aspiracoes_secretas@: @Aspirações reais baseadas em estudos@
    },
    @dores_viscerais@: [
      @Lista de 10-15 dores específicas e REAIS baseadas em pesquisas@
    ],
    @desejos_secretos@: [
      @Lista de 10-15 desejos profundos REAIS baseados em estudos@
    ],
    @objecoes_reais@: [
      @Lista de 8-12 objeções REAIS específicas baseadas em dados@
    ],
    @jornada_emocional@: {
      @consciencia@: @Como realmente toma consciência@,
      @consideracao@: @Processo real de avaliação@,
      @decisao@: @Fatores reais decisivos@,
      @pos_compra@: @Experiência real pós-compra@
    },
    @linguagem_interna@: {
      @frases_dor@: [@Frases reais que usa@],
      @frases_desejo@: [@Frases reais de desejo@],
      @metaforas_comuns@: [@Metáforas reais usadas@],
      @vocabulario_especifico@: [@Palavras específicas do nicho@],
      @tom_comunicacao@: @Tom real de comunicação@
    }
  },
  
  @escopo_posicionamento@: {
    @posicionamento_mercado@: @Posicionamento único REAL baseado em análise@,
    @proposta_valor_unica@: @Proposta REAL irresistível@,
    @diferenciais_competitivos@: [
      @Lista de diferenciais REAIS únicos e defensáveis@
    ],
    @mensagem_central@: @Mensagem principal REAL@,
    @tom_comunicacao@: @Tom de voz REAL ideal@,
    @nicho_especifico@: @Nicho mais específico REAL@,
    @estrategia_oceano_azul@: @Como criar mercado REAL sem concorrência@,
    @ancoragem_preco@: @Como ancorar o preço REAL@
  },
  
  @analise_concorrencia_profunda@: [
    {
      @nome@: @Nome REAL do concorrente principal@,
      @analise_swot@: {
        @forcas@: [@Principais forças REAIS específicas@],
        @fraquezas@: [@Principais fraquezas REAIS exploráveis@],
        @oportunidades@: [@Oportunidades REAIS que eles não veem@],
        @ameacas@: [@Ameaças REAIS que representam@]
      },
      @estrategia_marketing@: @Estratégia REAL principal detalhada@,
      @posicionamento@: @Como se posicionam REALMENTE@,
      @vulnerabilidades@: [@Pontos fracos REAIS exploráveis@],
      @share_mercado_estimado@: @Participação REAL estimada@
    }
  ],
  
  @estrategia_palavras_chave@: {
    @palavras_primarias@: [
      @10-15 palavras-chave REAIS principais com alto volume@
    ],
    @palavras_secundarias@: [
      @20-30 palavras-chave REAIS secundárias@
    ],
    @palavras_cauda_longa@: [
      @25-40 palavras-chave REAIS de cauda longa específicas@
    ],
    @intencao_busca@: {
      @informacional@: [@Palavras REAIS para conteúdo educativo@],
      @navegacional@: [@Palavras REAIS para encontrar a marca@],
      @transacional@: [@Palavras REAIS para conversão direta@]
    },
    @estrategia_conteudo@: @Como usar as palavras-chave REALMENTE@,
    @sazonalidade@: @Variações REAIS sazonais das buscas@,
    @oportunidades_seo@: @Oportunidades REAIS específicas identificadas@
  },
  
  @metricas_performance_detalhadas@: {
    @kpis_principais@: [
      {
        @metrica@: @Nome da métrica REAL@,
        @objetivo@: @Valor objetivo REAL@,
        @frequencia@: @Frequência de medição@,
        @responsavel@: @Quem acompanha@
      }
    ],
    @projecoes_financeiras@: {
      @cenario_conservador@: {
        @receita_mensal@: @Valor REAL baseado em dados@,
        @clientes_mes@: @Número REAL de clientes@,
        @ticket_medio@: @Ticket médio REAL@,
        @margem_lucro@: @Margem REAL esperada@
      },
      @cenario_realista@: {
        @receita_mensal@: @Valor REAL baseado em dados@,
        @clientes_mes@: @Número REAL de clientes@,
        @ticket_medio@: @Ticket médio REAL@,
        @margem_lucro@: @Margem REAL esperada@
      },
      @cenario_otimista@: {
        @receita_mensal@: @Valor REAL baseado em dados@,
        @clientes_mes@: @Número REAL de clientes@,
        @ticket_medio@: @Ticket médio REAL@,
        @margem_lucro@: @Margem REAL esperada@
      }
    },
    @roi_esperado@: @ROI REAL baseado em dados do mercado@,
    @payback_investimento@: @Tempo REAL de retorno@,
    @lifetime_value@: @LTV REAL do cliente@
  },
  
  @plano_acao_detalhado@: {
    @fase_1_preparacao@: {
      @duracao@: @Tempo REAL necessário@,
      @atividades@: [@Lista de atividades REAIS específicas@],
      @investimento@: @Investimento REAL necessário@,
      @entregas@: [@Entregas REAIS esperadas@],
      @responsaveis@: [@Perfis REAIS necessários@]
    },
    @fase_2_lancamento@: {
      @duracao@: @Tempo REAL necessário@,
      @atividades@: [@Lista de atividades REAIS específicas@],
      @investimento@: @Investimento REAL necessário@,
      @entregas@: [@Entregas REAIS esperadas@],
      @responsaveis@: [@Perfis REAIS necessários@]
    },
    @fase_3_crescimento@: {
      @duracao@: @Tempo REAL necessário@,
      @atividades@: [@Lista de atividades REAIS específicas@],
      @investimento@: @Investimento REAL necessário@,
      @entregas@: [@Entregas REAIS esperadas@],
      @responsaveis@: [@Perfis REAIS necessários@]
    }
  },
  
  @insights_exclusivos_ultra@: [
    @Lista de 25-30 insights únicos, específicos e ULTRA-VALIOSOS baseados na análise REAL profunda@
  ],
  
  @inteligencia_mercado@: {
    @tendencias_emergentes@: [@Tendências REAIS identificadas na pesquisa@],
    @oportunidades_ocultas@: [@Oportunidades REAIS não exploradas@],
    @ameacas_potenciais@: [@Ameaças REAIS identificadas@],
    @gaps_mercado@: [@Lacunas REAIS no mercado@],
    @inovacoes_disruptivas@: [@Inovações REAIS que podem impactar@]
  },
  
  @dados_pesquisa@: {
    @fontes_consultadas@: ".
Definition prompt_qualidade : pystr := u8q ",
    @qualidade_dados@: @Alta - baseado em pesquisa real@,
    @confiabilidade@: @100% - dados verificados@,
    @atualizacao@: @".
Definition prompt_tail : pystr := u8q "@
  }
}
```

CRÍTICO: Use APENAS dados REAIS da pesquisa fornecida. NUNCA invente ou simule informações.
".

(** The prompt for a given reading [now] of [datetime.now()]. *)
Definition prompt_text (data : dict) (search_context : pystr)
  (now : datetime) : pystr :=
  PyStr.concat
    [ prompt_head; brief_field data "segmento";
      prompt_produto; brief_field data "produto";
      prompt_publico; brief_field data "publico";
      prompt_preco; brief_field data "preco";
      prompt_objetivo; brief_field data "objetivo_receita";
      prompt_orcamento; brief_field data "orcamento_marketing";
      prompt_prazo; brief_field data "prazo_lancamento";
      prompt_concorrentes; brief_field data "concorrentes";
      prompt_dados; brief_field data "dados_adicionais";
      prompt_contexto; embedded_context search_context;
      prompt_schema; PyStr.of_Z (fontes_consultadas search_context);
      prompt_qualidade; strftime_dmY_HM now;
      prompt_tail ].

Definition _build_comprehensive_analysis_prompt (data : dict)
  (search_context : pystr) : M W pystr :=
  now <- reading (datetime_now rt) ;;
  ret (prompt_text data search_context now).

(** *** [_generate_basic_analysis] *)

Definition _generate_basic_analysis (data : dict) : dict :=
  Dict.literal
    [ (u8 "avatar_ultra_detalhado",
       VDict (Dict.literal
         [ (u8 "perfil_demografico",
            VDict (Dict.literal
              [ (u8 "idade", VStr (u8 "25-45 anos"));
                (u8 "renda", VStr (u8 "R$ 3.000 - R$ 15.000"));
                (u8 "escolaridade", VStr (u8 "Superior"));
                (u8 "localizacao", VStr (u8 "Centros urbanos")) ]));
           (u8 "dores_especificas",
            strs [ u8 "Falta de conhecimento especializado";
                   u8 "Dificuldade para implementar estratégias";
                   u8 "Resultados inconsistentes";
                   u8 "Falta de direcionamento claro" ]);
           (u8 "desejos_profundos",
            strs [ u8 "Alcançar liberdade financeira";
                   u8 "Ter mais tempo para família";
                   u8 "Ser reconhecido como especialista";
                   u8 "Fazer diferença no mundo" ]) ]));
      (u8 "escopo",
       VDict (Dict.literal
         [ (u8 "posicionamento_mercado",
            VStr (u8 "Solução premium para resultados rápidos"));
           (u8 "proposta_valor",
            VStr (u8 "Transforme seu negócio com estratégias comprovadas"));
           (u8 "diferenciais_competitivos",
            strs [ u8 "Metodologia exclusiva";
                   u8 "Suporte personalizado" ]) ]));
      (u8 "estrategia_palavras_chave",
       VDict (Dict.literal
         [ (u8 "palavras_primarias",
            VList [ Dict.get_default data (u8 "segmento")
                      (VStr (u8 "negócio"));
                    VStr (u8 "estratégia"); VStr (u8 "marketing") ]);
           (u8 "palavras_secundarias",
            strs [ u8 "crescimento"; u8 "vendas"; u8 "digital";
                   u8 "online" ]);
           (u8 "palavras_cauda_longa",
            strs [ u8 "como crescer no "
                     ++ py_str rt (Dict.get_default data (u8 "segmento")
                                     (VStr (u8 "mercado")));
                   u8 "estratégias de marketing digital" ]) ]));
      (u8 "insights_exclusivos",
       strs [ u8 "O mercado de "
                ++ py_str rt (Dict.get_default data (u8 "segmento")
                                (VStr (u8 "negócios")))
                ++ u8 " apresenta oportunidades de crescimento";
              u8 "A digitalização é uma tendência irreversível no setor";
              u8 "Investimento em marketing digital é essencial para competitividade";
              u8 "Personalização da experiência do cliente é um diferencial competitivo";
              u8 "⚠️ Análise gerada em modo básico - sistemas de IA indisponíveis" ]) ].

(** *** [_extract_structured_analysis] *)

Definition _extract_structured_analysis (text : pystr)
  (original_data : dict) : dict :=
  let segmento :=
    py_str rt (Dict.get_default original_data (u8 "segmento")
                 (VStr (u8 "Negócios"))) in
  Dict.literal
    [ (u8 "avatar_ultra_detalhado",
       VDict (Dict.literal
         [ (u8 "nome_ficticio",
            VStr (u8 "Profissional " ++ segmento ++ u8 " Brasileiro"));
           (u8 "perfil_demografico",
            VDict (Dict.literal
              [ (u8 "idade",
                 VStr (u8 "30-45 anos - faixa de maior poder aquisitivo"));
                (u8 "genero",
                 VStr (u8 "Distribuição equilibrada com leve predominância masculina"));
                (u8 "renda",
                 VStr (u8 "R$ 8.000 - R$ 35.000 - classe média alta brasileira"));
                (u8 "escolaridade",
                 VStr (u8 "Superior completo - 78% têm graduação"));
                (u8 "localizacao",
                 VStr (u8 "Concentrados em grandes centros urbanos"));
                (u8 "estado_civil",
                 VStr (u8 "68% casados ou união estável"));
                (u8 "profissao",
                 VStr (u8 "Profissionais de " ++ segmento
                       ++ u8 " e áreas correlatas")) ]));
           (u8 "dores_viscerais",
            strs [ u8 "Trabalhar excessivamente em " ++ segmento
                     ++ u8 " sem ver crescimento proporcional";
                   u8 "Sentir-se sempre correndo atrás da concorrência";
                   u8 "Ver competidores menores crescendo mais rapidamente";
                   u8 "Não conseguir se desconectar do trabalho";
                   u8 "Viver com medo constante de que tudo pode desmoronar" ]);
           (u8 "desejos_secretos",
            strs [ u8 "Ser reconhecido como autoridade no mercado de "
                     ++ segmento;
                   u8 "Ter um negócio que funcione sem presença constante";
                   u8 "Ganhar dinheiro de forma passiva";
                   u8 "Ter liberdade total de horários e decisões";
                   u8 "Deixar um legado significativo" ]) ]));
      (u8 "insights_exclusivos_ultra",
       strs [ u8 "O mercado brasileiro de " ++ segmento
                ++ u8 " está em transformação digital acelerada";
              u8 "Existe lacuna entre ferramentas disponíveis e conhecimento para implementá-las";
              u8 "A maior dor não é falta de informação, mas excesso sem direcionamento";
              u8 "Profissionais de " ++ segmento
                ++ u8 " pagam premium por simplicidade";
              u8 "Fator decisivo é combinação de confiança + urgência + prova social" ]);
      (u8 "raw_ai_response", VStr (PyStr.prefix 1000 text)) ].

(** *** [_process_ai_response] *)

Definition fence_json : pystr := u8 "```json".
Definition fence : pystr := u8 "```".

(** The text handed to [json.loads]: the stripped answer, cut to what
    lies between the first opening fence and the last fence if there
    is one. *)
Definition clean_text (ai_response : pystr) : pystr :=
  let stripped := PyStr.strip ai_response in
  if PyStr.contains fence_json stripped then
    let start := PyStr.find_index fence_json stripped + 7 in
    let stop := PyStr.rfind_index fence stripped in
    PyStr.strip (PyStr.py_slice start stop stripped)
  else if PyStr.contains fence stripped then
    let start := PyStr.find_index fence stripped + 3 in
    let stop := PyStr.rfind_index fence stripped in
    PyStr.strip (PyStr.py_slice start stop stripped)
  else stripped.

(** The dictionary stored under ['metadata_ai']. *)
Definition metadata_ai (now : datetime) : pyval :=
  VDict (Dict.literal
    [ (u8 "generated_at", VStr (isoformat now));
      (u8 "provider_used", VStr (u8 "ai_manager_fallback"));
      (u8 "version", VStr (u8 "2.0.0"));
      (u8 "analysis_type", VStr (u8 "comprehensive_real"));
      (u8 "data_source", VStr (u8 "real_search_data"));
      (u8 "quality_guarantee", VStr (u8 "premium")) ]).

(** [try: ... except json.JSONDecodeError as e: h]: any other
    exception goes through. *)
Definition try_except_json {S A} (m : M S A) (h : exn -> M S A) : M S A :=
  fun s => match m s with
           | (Ok a, s') => (Ok a, s')
           | (Raise e, s') =>
               match exn_cls e with
               | JSONDecodeError => h e s'
               | _ => (Raise e, s')
               end
           end.

Definition _process_ai_response (ai_response : pystr)
  (original_data : dict) : M W dict :=
  try_except_json
    (analysis <- of_res (json_loads rt (clean_text ai_response)) ;;
     now <- reading (datetime_now rt) ;;
     of_res (py_setitem analysis (u8 "metadata_ai") (metadata_ai now)))
    (fun e => ret (_extract_structured_analysis ai_response original_data)).

(** *** [_perform_comprehensive_ai_analysis] *)

(** The loop over [enumerate(extracted_content[:10], 1)]. *)
Fixpoint render_pages (i : Z) (pages : list ExtractedPage) : pystr :=
  match pages with
  | [] => []
  | content_item :: pages' =>
      u8 "--- FONTE " ++ PyStr.of_Z i ++ u8 ": "
        ++ ep_title content_item ++ u8 " ---" ++ nl
        ++ u8 "URL: " ++ ep_url content_item ++ nl
        ++ u8 "Conteúdo: " ++ PyStr.prefix 1500 (ep_content content_item)
        ++ nl ++ nl
        ++ render_pages (i + 1) pages'
  end.

(** The loop over [search_results[:15]]. *)
Fixpoint render_results (results : list SearchResult) : pystr :=
  match results with
  | [] => []
  | result :: results' =>
      u8 "• " ++ sr_title result ++ u8 " - "
        ++ PyStr.prefix 200 (sr_snippet result) ++ nl
        ++ render_results results'
  end.

Definition search_context_of (research_data : ResearchData) : pystr :=
  (match extracted_content research_data with
   | [] => []
   | pages =>
       u8 "PESQUISA PROFUNDA REALIZADA:" ++ nl ++ nl
         ++ render_pages 1 (firstn 10 pages)
   end)
  ++
  (match search_results research_data with
   | [] => []
   | results =>
       u8 "RESULTADOS DE BUSCA ("
         ++ PyStr.of_Z (Z.of_nat (List.length results)) ++ u8 " fontes):"
         ++ nl ++ render_results (firstn 15 results) ++ nl
   end).

Definition exception (msg : pystr) : exn :=
  {| exn_cls := PlainException; exn_str := msg |}.

Definition ai_manager_unavailable : exn :=
  exception (u8 "AI Manager não disponível - configure pelo menos uma API de IA").

Definition no_valid_response : exn :=
  exception (u8 "IA não retornou resposta válida").

(** [if ai_response:] for what [generate_analysis] returned. *)
Definition response_truthy (r : option pystr) : option pystr :=
  match r with
  | Some ((_ :: _) as s) => Some s
  | _ => None
  end.

Definition _perform_comprehensive_ai_analysis
  (self : EnhancedAnalysisEngine) (data : dict)
  (research_data : ResearchData) : M W dict :=
  if negb (ai_manager (systems_enabled self)) then
    raise ai_manager_unavailable
  else
    try_except
      (let search_context := search_context_of research_data in
       prompt <- _build_comprehensive_analysis_prompt data search_context ;;
       ai_response <- generate_analysis rt prompt 8192 ;;
       match response_truthy ai_response with
       | Some text => _process_ai_response text data
       | None => raise no_valid_response
       end)
      (fun e => ret (_generate_basic_analysis data)).

(** *** [_calculate_quality_score] *)

Definition main_sections : list pystr :=
  [ u8 "avatar_ultra_detalhado"; u8 "escopo";
    u8 "estrategia_palavras_chave"; u8 "insights_exclusivos" ].

(** [section in analysis and analysis[section]]. *)
Definition section_filled (analysis : dict) (section : pystr) : bool :=
  match Dict.get analysis section with
  | Some v => truthy v
  | None => false
  end.

(** [min(score, max_score)]. *)
Definition float_min (a b : float) : float :=
  if PrimFloat.ltb b a then b else a.

Definition sections_score (analysis : dict) : float :=
  fold_left
    (fun score section =>
       if section_filled analysis section then (score + 15)%float
       else score)
    main_sections 0%float.

Definition research_score (analysis : dict) (score : float) : float :=
  let score :=
    if Dict.mem (u8 "pesquisa_web_detalhada") analysis
    then (score + 10)%float else score in
  if Dict.mem (u8 "pesquisa_profunda") analysis
  then (score + 10)%float else score.

(** The [if]/[elif] chain on [len(insights)]. *)
Definition insights_score (n : Z) (score : float) : float :=
  if 5 <=? n then (score + 20)%float
  else if 3 <=? n then (score + 15)%float
  else if 1 <=? n then (score + 10)%float
  else score.

Definition _calculate_quality_score (analysis : dict) : res float :=
  let score := research_score analysis (sections_score analysis) in
  let insights :=
    Dict.get_default analysis (u8 "insights_exclusivos") (VList []) in
  match py_len insights with
  | Ok n => Ok (float_min (insights_score n score) 100%float)
  | Raise e => Raise e
  end.

(** *** [_generate_real_exclusive_insights] *)

(** [result['url'].split('/')[2]], [None] when the index is out of
    range (the bare [except] passes). *)
Definition domain_of (result : SearchResult) : option pystr :=
  nth_error (PyStr.split1 47%N (sr_url result)) 2.

Fixpoint domains_of (results : list SearchResult) : list pystr :=
  match results with
  | [] => []
  | r :: results' =>
      match domain_of r with
      | Some d => d :: domains_of results'
      | None => domains_of results'
      end
  end.

(** [len([p for p in status.values() if p['available']])]. *)
Definition count_available (status : provider_status) : Z :=
  Z.of_nat (List.length (filter (fun p => available (snd p)) status)).

Definition count_distinct (xs : list pystr) : Z :=
  Z.of_nat (List.length (distinct xs)).

Definition insight_search (rd : ResearchData) : pystr :=
  u8 "🔍 Pesquisa Real: Análise baseada em "
    ++ PyStr.of_Z (Z.of_nat (List.length (search_results rd)))
    ++ u8 " resultados de "
    ++ PyStr.of_Z (count_distinct (map sr_source (search_results rd)))
    ++ u8 " provedores diferentes".

Definition insight_content (rd : ResearchData) : pystr :=
  u8 "📄 Conteúdo Real: "
    ++ PyStr.of_Z (Z.of_nat (List.length (extracted_content rd)))
    ++ u8 " páginas analisadas com "
    ++ PyStr.of_Z_grouped (total_content_length rd)
    ++ u8 " caracteres de conteúdo real".

Definition insight_domains (n : Z) : pystr :=
  u8 "🌐 Diversidade de Fontes: Informações coletadas de "
    ++ PyStr.of_Z n ++ u8 " domínios únicos para máxima confiabilidade".

Definition insight_systems (ai_status search_status : provider_status)
  : pystr :=
  u8 "🤖 Sistema Robusto: " ++ PyStr.of_Z (count_available ai_status)
    ++ u8 " provedores de IA e "
    ++ PyStr.of_Z (count_available search_status)
    ++ u8 " provedores de busca disponíveis com fallback automático".

Definition insight_quality : pystr :=
  u8 "✅ Garantia de Qualidade: 100% dos dados baseados em pesquisa real, sem simulações ou dados fictícios".

(** The list [insights] before the two status reads. *)
Definition research_insights (rd : ResearchData) : list pystr :=
  (match search_results rd with
   | [] => []
   | _ => [insight_search rd]
   end)
  ++ (match extracted_content rd with
      | [] => []
      | _ => [insight_content rd]
      end)
  ++ (match search_results rd with
      | [] => []
      | results =>
          let n := count_distinct (domains_of results) in
          if 5 <? n then [insight_domains n] else []
      end).

Definition _generate_real_exclusive_insights (data : dict)
  (research_data : ResearchData) (ai_analysis : dict)
  : M W (list pystr) :=
  let insights := research_insights research_data in
  ai_status <- ai_get_provider_status rt ;;
  search_status <- search_get_provider_status rt ;;
  let insights := insights ++ [insight_systems ai_status search_status] in
  let insights := insights ++ [insight_quality] in
  ret (firstn 5 insights).

(** *** [_consolidate_comprehensive_analysis] *)

Definition search_result_val (r : SearchResult) : pyval :=
  VDict (Dict.literal
    [ (u8 "url", VStr (sr_url r)); (u8 "title", VStr (sr_title r));
      (u8 "snippet", VStr (sr_snippet r));
      (u8 "source", VStr (sr_source r)) ]).

Definition provider_status_val (status : provider_status) : pyval :=
  VDict (Dict.literal
    (map (fun p => (fst p,
                    VDict (Dict.set (details (snd p)) (u8 "available")
                             (VBool (available (snd p))))))
         status)).

Definition dados_pesquisa_real (rd : ResearchData) : pyval :=
  VDict (Dict.literal
    [ (u8 "total_resultados",
       VInt (Z.of_nat (List.length (search_results rd))));
      (u8 "fontes_unicas",
       VInt (count_distinct (map sr_url (search_results rd))));
      (u8 "provedores_utilizados",
       strs (distinct (map sr_source (search_results rd))));
      (u8 "resultados_detalhados",
       VList (map search_result_val (search_results rd))) ]).

Definition pagina_processada (item : ExtractedPage) : pyval :=
  VDict (Dict.literal
    [ (u8 "url", VStr (ep_url item)); (u8 "titulo", VStr (ep_title item));
      (u8 "tamanho_conteudo", VInt (PyStr.len (ep_content item)));
      (u8 "fonte", VStr (ep_source item)) ]).

Definition conteudo_extraido_real (rd : ResearchData) : pyval :=
  VDict (Dict.literal
    [ (u8 "total_paginas",
       VInt (Z.of_nat (List.length (extracted_content rd))));
      (u8 "total_caracteres", VInt (total_content_length rd));
      (u8 "paginas_processadas",
       VList (map pagina_processada (extracted_content rd))) ]).

(** The enrichment with the research data: the two [if] statements
    after the copy. *)
Definition with_research (rd : ResearchData) (consolidated : dict) : dict :=
  let consolidated :=
    match search_results rd with
    | [] => consolidated
    | _ => Dict.set consolidated (u8 "dados_pesquisa_real")
             (dados_pesquisa_real rd)
    end in
  match extracted_content rd with
  | [] => consolidated
  | _ => Dict.set consolidated (u8 "conteudo_extraido_real")
           (conteudo_extraido_real rd)
  end.

(** The statements under [if exclusive_insights:]. *)
Definition with_insights (exclusive_insights : list pystr)
  (consolidated : dict) : res dict :=
  match exclusive_insights with
  | [] => Ok consolidated
  | _ =>
      let existing_insights :=
        Dict.get_default consolidated (u8 "insights_exclusivos")
          (VList []) in
      let existing_insights :=
        if negb (truthy existing_insights)
        then Dict.get_default consolidated (u8 "insights_exclusivos_ultra")
               (VList [])
        else existing_insights in
      match py_add_list existing_insights (map VStr exclusive_insights) with
      | Ok v => Ok (Dict.set consolidated (u8 "insights_exclusivos") v)
      | Raise e => Raise e
      end
  end.

Definition sistemas_utilizados (rd : ResearchData)
  (ai_status search_status : provider_status) : pyval :=
  VDict (Dict.literal
    [ (u8 "ai_providers", provider_status_val ai_status);
      (u8 "search_providers", provider_status_val search_status);
      (u8 "content_extraction",
       VBool (match extracted_content rd with [] => false | _ => true end));
      (u8 "total_sources", VInt (Z.of_nat (List.length (sources rd))));
      (u8 "analysis_quality", VStr (u8 "premium_real_data")) ]).

Definition _consolidate_comprehensive_analysis (data : dict)
  (research_data : ResearchData) (ai_analysis : dict) : M W dict :=
  let consolidated := with_research research_data ai_analysis in
  exclusive_insights <-
    _generate_real_exclusive_insights data research_data ai_analysis ;;
  consolidated <- of_res (with_insights exclusive_insights consolidated) ;;
  ai_status <- ai_get_provider_status rt ;;
  search_status <- search_get_provider_status rt ;;
  ret (Dict.set consolidated (u8 "sistemas_utilizados")
         (sistemas_utilizados research_data ai_status search_status)).

(** *** [_generate_fallback_analysis] *)

Definition emergency_metadata (now : datetime)
  (ai_status search_status : provider_status) : pyval :=
  VDict (Dict.literal
    [ (u8 "processing_time_seconds", VInt 0);
      (u8 "analysis_engine", VStr (u8 "Emergency Fallback"));
      (u8 "generated_at", VStr (isoformat now));
      (u8 "quality_score", VFloat 25%float);
      (u8 "recommendation",
       VStr (u8 "Configure pelo menos uma API de IA para análise completa"));
      (u8 "available_systems",
       VDict (Dict.literal
         [ (u8 "ai_providers", provider_status_val ai_status);
           (u8 "search_providers", provider_status_val search_status) ]));
      (u8 "recommendation",
       VStr (u8 "Execute nova análise com configuração completa")) ]).

Definition _generate_fallback_analysis (data : dict) (error : pystr)
  : M W dict :=
  let basic_analysis := _generate_basic_analysis data in
  basic_analysis <-
    of_res (py_append_at basic_analysis (u8 "insights_exclusivos")
              (VStr (u8 "⚠️ Erro no processamento: " ++ error))) ;;
  basic_analysis <-
    of_res (py_append_at basic_analysis (u8 "insights_exclusivos")
              (VStr (u8 "🔄 Recomenda-se executar nova análise"))) ;;
  now <- reading (datetime_utcnow rt) ;;
  ai_status <- ai_get_provider_status rt ;;
  search_status <- search_get_provider_status rt ;;
  ret (Dict.set basic_analysis (u8 "metadata")
         (emergency_metadata now ai_status search_status)).

(** *** [generate_comprehensive_analysis] *)

(** [f"{int(processing_time // 60)}m {int(processing_time % 60)}s"]. *)
Definition processing_time_formatted (processing_time : float)
  : res pystr :=
  match int_of_float (float_floordiv rt processing_time 60%float) with
  | Raise e => Raise e
  | Ok m =>
      match int_of_float (float_mod rt processing_time 60%float) with
      | Raise e => Raise e
      | Ok s => Ok (PyStr.of_Z m ++ u8 "m " ++ PyStr.of_Z s ++ u8 "s")
      end
  end.

(** The items of the dict display stored under ["metadata"], in the
    order of the source: it names ["analysis_engine"] twice. *)
Definition metadata_items (self : EnhancedAnalysisEngine)
  (processing_time : float) (formatted : pystr) (now : datetime)
  (quality_score : float) (research_data : ResearchData)
  : list (pystr * pyval) :=
  [ (u8 "processing_time_seconds", VFloat processing_time);
    (u8 "processing_time_formatted", VStr formatted);
    (u8 "analysis_engine", VStr (u8 "ARQV30 Enhanced v2.0"));
    (u8 "analysis_engine", VStr (u8 "Emergency Fallback v2.0"));
    (u8 "generated_at", VStr (isoformat now));
    (u8 "quality_score", VFloat quality_score);
    (u8 "data_sources_used",
     VInt (Z.of_nat (List.length (sources research_data))));
    (u8 "ai_models_used",
     VInt (if ai_manager (systems_enabled self) then 1 else 0)) ].

(** The body of the [try]. *)
Definition pipeline (self : EnhancedAnalysisEngine) (data : dict)
  (session_id : option pystr) (start_time : float) : M W dict :=
  research_data <- _collect_comprehensive_data self data session_id ;;
  ai_analysis <-
    _perform_comprehensive_ai_analysis self data research_data ;;
  final_analysis <-
    _consolidate_comprehensive_analysis data research_data ai_analysis ;;
  end_time <- reading (time_time rt) ;;
  let processing_time := (end_time - start_time)%float in
  formatted <- of_res (processing_time_formatted processing_time) ;;
  now <- reading (datetime_utcnow rt) ;;
  quality_score <-
    of_res (if truthy (VDict final_analysis)
            then _calculate_quality_score final_analysis
            else Ok 0%float) ;;
  ret (Dict.set final_analysis (u8 "metadata")
         (VDict (Dict.literal
            (metadata_items self processing_time formatted now
               quality_score research_data)))).

Definition generate_comprehensive_analysis (self : EnhancedAnalysisEngine)
  (data : dict) (session_id : option pystr) : M W dict :=
  start_time <- reading (time_time rt) ;;
  try_except
    (pipeline self data session_id start_time)
    (fun e => _generate_fallback_analysis data (exn_str e)).

End Engine.

(* ================================================================== *)
(** ** The collection with failures isolated item by item *)

(** The collection as the specification words it, for comparison with
    [_collect_comprehensive_data]: a failure of the extraction of one
    URL, or of the search for one query, is caught at that call and
    counts as no content, or no results; the other items are processed. *)
Section PerItem.

Variable W : Type.
Variable rt : Runtime W.

Definition extract_one_isolated (context_query : option pystr)
  (result : SearchResult) : M (collecting W) unit :=
  try_except (extract_one rt context_query result) log_and_continue.

Definition multi_provider_search_isolated (query : pyval)
  : M (collecting W) unit :=
  try_except
    (results <- on_snd (multi_search rt query 8) ;;
     update (set_search_results results) ;;;
     for_each (firstn 15 results) (extract_one_isolated None) ;;;
     update (set_sources (map source_of results)))
    log_and_continue.

Definition contextual_search_isolated (query : pystr)
  : M (collecting W) unit :=
  try_except
    (context_results <- on_snd (search rt query 5) ;;
     update (extend_search_results context_results) ;;;
     for_each (firstn 3 context_results)
       (extract_one_isolated (Some query)))
    log_and_continue.

Definition collect_body_per_item (self : EnhancedAnalysisEngine)
  (data : dict) : M (collecting W) unit :=
  (if search_manager (systems_enabled self)
      && truthy (Dict.get_default data (u8 "query") VNone)
   then multi_provider_search_isolated
          (Dict.get_default data (u8 "query") VNone)
   else ret tt) ;;;
  (if search_manager (systems_enabled self)
      && truthy (Dict.get_default data (u8 "segmento") VNone)
   then for_each
          (contextual_queries rt
             (Dict.get_default data (u8 "segmento") VNone))
          contextual_search_isolated
   else ret tt).

Definition collect_per_item (self : EnhancedAnalysisEngine)
  (data : dict) (session_id : option pystr) : M W ResearchData :=
  fun w =>
    match collect_body_per_item self data (empty_research_data, w) with
    | (Ok _, (research_data, w')) => (Ok research_data, w')
    | (Raise e, (_, w')) => (Raise e, w')
    end.

End PerItem.

(* ================================================================== *)
(** ** A decoder for a fragment of JSON *)

(** The runtime of the examples needs a [json.loads].  This decoder reads
    the fragment of JSON made of objects, arrays, strings without escape
    sequences, integers, [true], [false] and [null]; a text outside the
    fragment is reported as a decoding error, and the text of the error
    is not modelled.  The theorems hold for every decoder: this one is
    used by the examples only. *)
Module Json.

Definition decode_error : exn :=
  {| exn_cls := JSONDecodeError;
     exn_str := u8 "Expecting value: line 1 column 1 (char 0)" |}.

Definition is_ws (c : char) : bool :=
  ((c =? 32) || (c =? 9) || (c =? 10) || (c =? 13))%N.

Fixpoint skip_ws (s : pystr) : pystr :=
  match s with
  | c :: s' => if is_ws c then skip_ws s' else s
  | [] => []
  end.

Definition is_digit (c : char) : bool := ((48 <=? c) && (c <=? 57))%N.

(** The characters of a string up to its closing quote. *)
Fixpoint string_body (s : pystr) : option (pystr * pystr) :=
  match s with
  | [] => None
  | c :: s' =>
      if (c =? 34)%N then Some ([], s')
      else if (c =? 92)%N || (c <? 32)%N then None
      else match string_body s' with
           | Some (body, rest) => Some (c :: body, rest)
           | None => None
           end
  end.

Fixpoint digits (s : pystr) (acc : Z) : Z * pystr :=
  match s with
  | c :: s' =>
      if is_digit c then digits s' (10 * acc + (Z.of_N c - 48))
      else (acc, s)
  | [] => (acc, [])
  end.

(** An integer: an optional sign, then [0] or digits that do not start
    with [0]; a fraction or an exponent is outside the fragment. *)
Definition integer (s : pystr) : option (Z * pystr) :=
  let (negative, s1) :=
    match s with
    | 45%N :: s' => (true, s')
    | _ => (false, s)
    end in
  match s1 with
  | c :: s2 =>
      if is_digit c then
        let (n, rest) :=
          if (c =? 48)%N then (0, s2) else digits s1 0 in
        match rest with
        | d :: _ =>
            if is_digit d || (d =? 46)%N || (d =? 101)%N || (d =? 69)%N
            then None
            else Some (if negative then - n else n, rest)
        | [] => Some (if negative then - n else n, rest)
        end
      else None
  | [] => None
  end.

Fixpoint value (fuel : nat) (s : pystr) : option (pyval * pystr) :=
  match fuel with
  | O => None
  | S fuel' =>
      match skip_ws s with
      | 110%N :: 117%N :: 108%N :: 108%N :: rest => Some (VNone, rest)
      | 116%N :: 114%N :: 117%N :: 101%N :: rest => Some (VBool true, rest)
      | 102%N :: 97%N :: 108%N :: 115%N :: 101%N :: rest =>
          Some (VBool false, rest)
      | 34%N :: rest =>
          match string_body rest with
          | Some (body, rest') => Some (VStr body, rest')
          | None => None
          end
      | 91%N :: rest =>
          match skip_ws rest with
          | 93%N :: rest' => Some (VList [], rest')
          | _ => elements fuel' rest []
          end
      | 123%N :: rest =>
          match skip_ws rest with
          | 125%N :: rest' => Some (VDict [], rest')
          | _ => members fuel' rest []
          end
      | s' =>
          match integer s' with
          | Some (n, rest) => Some (VInt n, rest)
          | None => None
          end
      end
  end
with elements (fuel : nat) (s : pystr) (acc : list pyval)
  : option (pyval * pystr) :=
  match fuel with
  | O => None
  | S fuel' =>
      match value fuel' s with
      | Some (v, rest) =>
          match skip_ws rest with
          | 44%N :: rest' => elements fuel' rest' (acc ++ [v])
          | 93%N :: rest' => Some (VList (acc ++ [v]), rest')
          | _ => None
          end
      | None => None
      end
  end
with members (fuel : nat) (s : pystr) (acc : dict)
  : option (pyval * pystr) :=
  match fuel with
  | O => None
  | S fuel' =>
      match skip_ws s with
      | 34%N :: s1 =>
          match string_body s1 with
          | Some (key, s2) =>
              match skip_ws s2 with
              | 58%N :: s3 =>
                  match value fuel' s3 with
                  | Some (v, rest) =>
                      match skip_ws rest with
                      | 44%N :: rest' =>
                          members fuel' rest' (Dict.set acc key v)
                      | 125%N :: rest' =>
                          Some (VDict (Dict.set acc key v), rest')
                      | _ => None
                      end
                  | None => None
                  end
              | _ => None
              end
          | None => None
          end
      | _ => None
      end
  end.

Definition loads (s : pystr) : res pyval :=
  match value (S (2 * List.length s)) s with
  | Some (v, rest) =>
      match skip_ws rest with
      | [] => Ok v
      | _ => Raise decode_error
      end
  | None => Raise decode_error
  end.

End Json.

(* ================================================================== *)
(** ** A runtime for the examples *)

(** A small world on which the engine can be run: its state is the
    wall clock, frozen at one instant; the collaborators are fixed
    functions.  The variants differ by the behaviour of one
    collaborator. *)
Module Demo.

Definition world := datetime.

Definition morning : world :=
  {| year := 2024; month := 5; day := 17;
     hour := 9; minute := 30; second := 0; microsecond := 0 |}.

Definition a_minute_later : world :=
  {| year := 2024; month := 5; day := 17;
     hour := 9; minute := 31; second := 0; microsecond := 0 |}.

Definition result_a : SearchResult :=
  {| sr_url := u8 "https://moda.example/tendencias";
     sr_title := u8 "Tendências";
     sr_snippet := u8 "Moda sustentável cresce";
     sr_source := u8 "google" |}.

Definition result_b : SearchResult :=
  {| sr_url := u8 "https://dados.example/mercado";
     sr_title := u8 "Mercado";
     sr_snippet := u8 "Dados do setor";
     sr_source := u8 "bing" |}.

Definition result_c : SearchResult :=
  {| sr_url := u8 "https://estudo.example/crescimento";
     sr_title := u8 "Crescimento";
     sr_snippet := u8 "Estatísticas";
     sr_source := u8 "bing" |}.

Definition search_everywhere (query : pyval) (n : Z)
  : M world (list SearchResult) := ret [result_a; result_b].

Definition search_once (query : pystr) (n : Z) : M world (list SearchResult) :=
  ret [result_c].

Definition page_text : pystr := u8 "Texto da página".

(** An extractor that always succeeds. *)
Definition extract_page (url : pystr) : M world (option pystr) :=
  ret (Some page_text).

Definition connection_error : exn :=
  {| exn_cls := OtherError (u8 "ConnectionError");
     exn_str := u8 "connection reset" |}.

(** An extractor that raises on the first page of the free-text search
    and succeeds on every other one. *)
Definition extract_page_flaky (url : pystr) : M world (option pystr) :=
  if PyStr.eqb url (sr_url result_a) then raise connection_error
  else ret (Some page_text).

(** A well-formed answer of the model, in a JSON fence. *)
Definition answer : pystr :=
  u8q "```json
{@escopo@: {@nicho@: @moda@}, @insights_exclusivos@: [@um@, @dois@]}
```".

Definition generate_answer (prompt : pystr) (max_tokens : Z)
  : M world (option pystr) := ret (Some answer).

(** A model that answers with a JSON array. *)
Definition generate_array (prompt : pystr) (max_tokens : Z)
  : M world (option pystr) := ret (Some (u8 "[]")).

Definition timeout_error : exn :=
  {| exn_cls := OtherError (u8 "TimeoutError");
     exn_str := u8 "timed out" |}.

(** A model whose every call raises. *)
Definition generate_raising (prompt : pystr) (max_tokens : Z)
  : M world (option pystr) := raise timeout_error.

Definition ai_status : provider_status :=
  [ (u8 "gemini", {| available := true; details := [] |});
    (u8 "huggingface", {| available := false; details := [] |}) ].

Definition search_status : provider_status :=
  [ (u8 "google", {| available := true; details := [] |});
    (u8 "bing", {| available := true; details := [] |}) ].

(** What any call on [ai_manager] does when the name is bound to
    [None]. *)
Definition none_has_no (attribute : string) : exn :=
  {| exn_cls := OtherError (u8 "AttributeError");
     exn_str := u8 "'NoneType' object has no attribute '"
                ++ u8 attribute ++ u8 "'" |}.

(** Seconds since midnight, as [time.time()] of the examples. *)
Definition seconds (w : world) : float :=
  float_of_Z (Z.of_N (hour w * 3600 + minute w * 60 + second w)).

(** The runtime, given the model collaborator and the extractor.  The
    float operations are those of 0 <= x < y, where the frozen clock
    puts them: [x // y] is [0.0] and [x % y] is [x].  [repr] is never
    called, the fields of the requests of the examples being strings. *)
Definition make (ai_present : bool)
  (generate : pystr -> Z -> M world (option pystr))
  (ai_provider_status : M world provider_status)
  (extract : pystr -> M world (option pystr)) : Runtime world :=
  {| ai_manager_bool := ai_present;
     search_manager_bool := true;
     content_extractor_bool := true;
     multi_search := search_everywhere;
     search := search_once;
     search_get_provider_status := ret search_status;
     extract_content := extract;
     generate_analysis := generate;
     ai_get_provider_status := ai_provider_status;
     json_loads := Json.loads;
     py_repr := fun _ => [];
     time_time := fun w => (seconds w, w);
     datetime_now := fun w => (w, w);
     datetime_utcnow := fun w => (w, w);
     float_floordiv := fun _ _ => 0%float;
     float_mod := fun x _ => x |}.

(** Everything works. *)
Definition runtime : Runtime world :=
  make true generate_answer (ret ai_status) extract_page.

(** The extraction of one page raises. *)
Definition runtime_flaky : Runtime world :=
  make true generate_answer (ret ai_status) extract_page_flaky.

(** The model answers with a JSON array. *)
Definition runtime_array : Runtime world :=
  make true generate_array (ret ai_status) extract_page.

(** The model raises on every call. *)
Definition runtime_raising : Runtime world :=
  make true generate_raising (ret ai_status) extract_page.

(** No model collaborator: [ai_manager] is [None]. *)
Definition runtime_without_ai : Runtime world :=
  make false
    (fun _ _ => raise (none_has_no "generate_analysis"))
    (raise (none_has_no "get_provider_status"))
    extract_page.

(** A bundle with two results and one page. *)
Definition bundle : ResearchData :=
  {| search_results := [result_a; result_b];
     extracted_content :=
       [ {| ep_url := sr_url result_a; ep_title := sr_title result_a;
            ep_content := page_text; ep_source := sr_source result_a;
            ep_context_query := None |} ];
     market_intelligence := [];
     sources := [source_of result_a; source_of result_b];
     total_content_length := PyStr.len page_text |}.

(** The spec's scenario request, and one without a free-text query. *)
Definition request : dict :=
  Dict.literal
    [ (u8 "segmento", VStr (u8 "moda"));
      (u8 "query", VStr (u8 "moda sustentável Brasil")) ].

Definition request_segment_only : dict :=
  Dict.literal [ (u8 "segmento", VStr (u8 "moda")) ].

(** The same brief with a field the prompt does not read. *)
Definition request_with_session : dict :=
  Dict.literal
    [ (u8 "segmento", VStr (u8 "moda"));
      (u8 "query", VStr (u8 "moda sustentável Brasil"));
      (u8 "session", VStr (u8 "abc")) ].

(** The results of [bundle] as another provider would report them, at
    other addresses, and its page as a contextual search would store
    it. *)
Definition result_a_mirror : SearchResult :=
  {| sr_url := u8 "https://espelho.example/a";
     sr_title := sr_title result_a;
     sr_snippet := sr_snippet result_a;
     sr_source := u8 "duckduckgo" |}.

Definition result_b_mirror : SearchResult :=
  {| sr_url := u8 "https://espelho.example/b";
     sr_title := sr_title result_b;
     sr_snippet := sr_snippet result_b;
     sr_source := u8 "duckduckgo" |}.

Definition bundle_mirror : ResearchData :=
  {| search_results := [result_a_mirror; result_b_mirror];
     extracted_content :=
       [ {| ep_url := sr_url result_a;
            ep_title := sr_title result_a;
            ep_content := page_text; ep_source := u8 "duckduckgo";
            ep_context_query := Some (u8 "moda Brasil 2024") |} ];
     market_intelligence := [];
     sources := [];
     total_content_length := 0 |}.

(** An answer of the model whose insights are a text, not a list. *)
Definition answer_text_insights : pystr :=
  u8q "{@escopo@: {@nicho@: @moda@}, @insights_exclusivos@: @um insight@}".

Definition generate_text_insights (prompt : pystr) (max_tokens : Z)
  : M world (option pystr) := ret (Some answer_text_insights).

Definition runtime_text_insights : Runtime world :=
  make true generate_text_insights (ret ai_status) extract_page.

(** A text of 12000 characters. *)
Definition long_text : pystr := repeat 97%N (Z.to_nat 12000).

(** An extractor that finds nothing at the first page of the free-text
    search and an empty text at the page of the contextual searches. *)
Definition extract_page_sparse (url : pystr)
  : M world (option pystr) :=
  if PyStr.eqb url (sr_url result_a) then ret None
  else if PyStr.eqb url (sr_url result_c) then ret (Some [])
  else ret (Some page_text).

(** Two of the three pages have no content. *)
Definition runtime_sparse : Runtime world :=
  make true generate_answer (ret ai_status) extract_page_sparse.

(** The same minute of the same morning. *)
Definition five_seconds_later : world :=
  {| year := 2024; month := 5; day := 17;
     hour := 9; minute := 30; second := 5; microsecond := 250000 |}.

End Demo.

(* ================================================================== *)
(** ** What the properties are stated with *)

(** The points of the quality score as the specification counts them:
    15 for each of the four named sections that is present and filled,
    10 for each of the two research keys that is present, and 20, 15, 10
    or 0 for [n] insights, at most 100 in all. *)
Definition filled_sections (analysis : dict) : Z :=
  Z.of_nat (List.length (filter (section_filled analysis) main_sections)).

Definition research_keys (analysis : dict) : Z :=
  (if Dict.mem (u8 "pesquisa_web_detalhada") analysis then 1 else 0)
  + (if Dict.mem (u8 "pesquisa_profunda") analysis then 1 else 0).

Definition insight_points (n : Z) : Z :=
  if 5 <=? n then 20 else if 3 <=? n then 15 else if 1 <=? n then 10 else 0.

Definition quality_points (analysis : dict) (n : Z) : Z :=
  Z.min 100
    (15 * filled_sections analysis + 10 * research_keys analysis
     + insight_points n).

(** The value the score reads as the insight list. *)
Definition insights_entry (analysis : dict) : pyval :=
  Dict.get_default analysis (u8 "insights_exclusivos") (VList []).


(** A property of the dictionary under construction, as a property of
    the state of the collection. *)
Definition on_data {W} (P : ResearchData -> Prop) (s : collecting W) : Prop :=
  P (fst s).

(** A float between 0 and 100. *)
Definition in_0_100 (q : float) : Prop :=
  PrimFloat.leb 0%float q = true /\ PrimFloat.leb q 100%float = true.


(** The ['quality_score'] of the ['metadata'] of a report. *)
Definition quality_score_of (report : dict) : option pyval :=
  match Dict.get report (u8 "metadata") with
  | Some (VDict metadata) => Dict.get metadata (u8 "quality_score")
  | _ => None
  end.

(** An entry of a block of a report: [report[block][key]]. *)
Definition entry (report : dict) (block key : string) : option pyval :=
  match Dict.get report (u8 block) with
  | Some (VDict d) => Dict.get d (u8 key)
  | _ => None
  end.

(** The fields of the brief the prompt prints. *)
Definition brief_keys : list string :=
  [ "segmento"; "produto"; "publico"; "preco"; "objetivo_receita";
    "orcamento_marketing"; "prazo_lancamento"; "concorrentes";
    "dados_adicionais" ]%string.

Definition same_brief (data1 data2 : dict) : Prop :=
  forall key, In key brief_keys ->
    Dict.get data1 (u8 key) = Dict.get data2 (u8 key).

(** The exclusive insights in the order of the derivation rules: the
    search insight when there are results, the content insight when
    there are pages, the diversity insight when the results span more
    than five domains, then the two insights that are always there. *)
Definition ordered_insights (rd : ResearchData)
  (ai_status search_status : provider_status) : list pystr :=
  (if negb (Nat.eqb (List.length (search_results rd)) 0)
   then [insight_search rd] else [])
  ++ (if negb (Nat.eqb (List.length (extracted_content rd)) 0)
      then [insight_content rd] else [])
  ++ (if negb (Nat.eqb (List.length (search_results rd)) 0)
         && (5 <? count_distinct (domains_of (search_results rd)))
      then [insight_domains
              (count_distinct (domains_of (search_results rd)))]
      else [])
  ++ [insight_systems ai_status search_status; insight_quality].

(** A collaborator call that returns in every state of the world. *)
Definition never_raises {W A} (m : M W A) : Prop :=
  forall w, is_ok (fst (m w)) = true.

(* ================================================================== *)
(** * Definitions of the further properties *)

(** The characters of the contents of a list of pages. *)
Definition content_chars (pages : list ExtractedPage) : Z :=
  fold_right (fun p total => PyStr.len (ep_content p) + total) 0 pages.

(** The page [extract_one] appends for a result and a content. *)
Definition page_of (context_query : option pystr) (result : SearchResult)
  (content : pystr) : ExtractedPage :=
  {| ep_url := sr_url result;
     ep_title := sr_title result;
     ep_content := content;
     ep_source := sr_source result;
     ep_context_query := context_query |}.



(** The four ways the method updates the dictionary. *)
Definition kept_by_updates (P : ResearchData -> Prop) : Prop :=
  (forall l rd, P rd -> P (set_search_results l rd))
  /\ (forall l rd, P rd -> P (extend_search_results l rd))
  /\ (forall l rd, P rd -> P (set_sources l rd))
  /\ (forall cq r content rd,
        content <> [] -> P rd -> P (append_page (page_of cq r content) rd)).

(** The pages are at most [n], and the search results are [results]. *)
Definition pages_within {W} (results : list SearchResult) (n : nat)
  (s : collecting W) : Prop :=
  (List.length (extracted_content (fst s)) <= n)%nat
  /\ search_results (fst s) = results.

(** The pages are at most [n] and no more than the search results. *)
Definition pages_bounded {W} (n : nat) (s : collecting W) : Prop :=
  (List.length (extracted_content (fst s)) <= n)%nat
  /\ (List.length (extracted_content (fst s))
      <= List.length (search_results (fst s)))%nat.


(** What the research context shows of a page and of a search result. *)
Definition page_view (p : ExtractedPage) : pystr * pystr * pystr :=
  (ep_title p, ep_url p, PyStr.prefix 1500 (ep_content p)).

Definition result_view (r : SearchResult) : pystr * pystr :=
  (sr_title r, PyStr.prefix 200 (sr_snippet r)).

(** The number of slashes of a URL. *)
Definition slashes (url : pystr) : nat :=
  List.length (filter (fun c => (c =? 47)%N) url).

(** The keys the consolidation writes. *)
Definition consolidation_keys : list pystr :=
  [ u8 "dados_pesquisa_real"; u8 "conteudo_extraido_real";
    u8 "insights_exclusivos"; u8 "sistemas_utilizados" ].

(** The keys the scorer reads. *)
Definition scored_keys : list pystr :=
  [ u8 "avatar_ultra_detalhado"; u8 "escopo";
    u8 "estrategia_palavras_chave"; u8 "insights_exclusivos";
    u8 "pesquisa_web_detalhada"; u8 "pesquisa_profunda" ].

(** The insights of the model's answer the consolidation starts from:
    those under ['insights_exclusivos'], or, when that entry is missing
    or empty, those under ['insights_exclusivos_ultra']. *)
Definition model_insights (ai_analysis : dict) : pyval :=
  let existing :=
    Dict.get_default ai_analysis (u8 "insights_exclusivos") (VList []) in
  if truthy existing then existing
  else Dict.get_default ai_analysis (u8 "insights_exclusivos_ultra")
         (VList []).

(* ================================================================== *)
(** * The collection, item by item *)

(** The bundle of [_collect_comprehensive_data] described from what the
    collaborators return, one item after the other, for comparison
    with the method.  Unlike [collect_per_item], which isolates every
    call, an exception here ends the phase it occurs in. *)
Section ItemByItem.

Variable W : Type.
Variable rt : Runtime W.

(** What the extraction of one URL comes to: a page is kept when the
    collaborator returned a non-empty content, the URL is dropped when
    it returned an empty content or [None], and the call may raise. *)
Inductive outcome : Type :=
| Kept (content : pystr)
| Dropped
| Failed (e : exn).

Definition outcome_of (returned : res (option pystr)) : outcome :=
  match returned with
  | Ok (Some (c :: content)) => Kept (c :: content)
  | Ok (Some []) => Dropped
  | Ok None => Dropped
  | Raise e => Failed e
  end.

(** The pages of a list of search results, taken one after the other:
    a result that is dropped contributes nothing and the next one is
    tried; a result whose extraction raises ends the list.  The boolean
    tells whether the list was ended by an exception. *)
Fixpoint pages_of_items (context_query : option pystr)
  (items : list SearchResult) (w : W) : list ExtractedPage * bool * W :=
  match items with
  | [] => ([], false, w)
  | item :: items' =>
      let (returned, w1) := extract_content rt (sr_url item) w in
      match outcome_of returned with
      | Kept content =>
          let '(pages, cut, w2) := pages_of_items context_query items' w1 in
          ({| ep_url := sr_url item;
              ep_title := sr_title item;
              ep_content := content;
              ep_source := sr_source item;
              ep_context_query := context_query |} :: pages, cut, w2)
      | Dropped => pages_of_items context_query items' w1
      | Failed _ => ([], true, w1)
      end
  end.

(** The bundle after the free-text phase: the results of the
    multi-provider search, the pages of the first 15 of them and, when
    no call raised, one source for each result.  A search that raises
    leaves the empty bundle. *)
Definition free_text_phase (query : pyval) (w : W) : ResearchData * W :=
  match multi_search rt query 8 w with
  | (Raise _, w1) => (empty_research_data, w1)
  | (Ok results, w1) =>
      let '(pages, cut, w2) := pages_of_items None (firstn 15 results) w1 in
      ({| search_results := results;
          extracted_content := pages;
          market_intelligence := [];
          sources := if cut then [] else map source_of results;
          total_content_length := content_chars pages |}, w2)
  end.

(** The bundle after the contextual phase: for each query in turn, its
    results are appended to the search results and the pages of the
    first 3 of them to the pages; the sources are left as they are.  A
    call that raises ends the phase: the queries that remain are not
    searched. *)
Fixpoint contextual_phase (queries : list pystr) (rd : ResearchData)
  (w : W) : ResearchData * W :=
  match queries with
  | [] => (rd, w)
  | query :: queries' =>
      match search rt query 5 w with
      | (Raise _, w1) => (rd, w1)
      | (Ok results, w1) =>
          let '(pages, cut, w2) :=
            pages_of_items (Some query) (firstn 3 results) w1 in
          let rd' :=
            {| search_results := search_results rd ++ results;
               extracted_content := extracted_content rd ++ pages;
               market_intelligence := market_intelligence rd;
               sources := sources rd;
               total_content_length :=
                 total_content_length rd + content_chars pages |} in
          if cut then (rd', w2) else contextual_phase queries' rd' w2
      end
  end.

(** The bundle of the free-text phase of a request: the empty bundle
    when the request does not start the phase. *)
Definition free_text_bundle (self : EnhancedAnalysisEngine) (data : dict)
  (w : W) : ResearchData * W :=
  if search_manager (systems_enabled self)
     && truthy (Dict.get_default data (u8 "query") VNone)
  then free_text_phase (Dict.get_default data (u8 "query") VNone) w
  else (empty_research_data, w).

(** The bundle of a request, item by item: the contextual phase goes on
    from the bundle of the free-text phase. *)
Definition collected_item_by_item (self : EnhancedAnalysisEngine)
  (data : dict) (w : W) : ResearchData * W :=
  let (rd, w1) := free_text_bundle self data w in
  if search_manager (systems_enabled self)
     && truthy (Dict.get_default data (u8 "segmento") VNone)
  then contextual_phase
         (contextual_queries rt
            (Dict.get_default data (u8 "segmento") VNone)) rd w1
  else (rd, w1).

(** The results the contextual phase appends: those of each query in
    turn, up to the call that ends the phase. *)
Fixpoint contextual_results (queries : list pystr) (w : W)
  : list SearchResult :=
  match queries with
  | [] => []
  | query :: queries' =>
      match search rt query 5 w with
      | (Raise _, _) => []
      | (Ok results, w1) =>
          let '(_, cut, w2) :=
            pages_of_items (Some query) (firstn 3 results) w1 in
          if cut then results else results ++ contextual_results queries' w2
      end
  end.

(** The results the contextual phase of a request appends, from the
    world [w]: none when the request does not start the phase. *)
Definition contextual_results_of (self : EnhancedAnalysisEngine)
  (data : dict) (w : W) : list SearchResult :=
  if search_manager (systems_enabled self)
     && truthy (Dict.get_default data (u8 "segmento") VNone)
  then contextual_results
         (contextual_queries rt
            (Dict.get_default data (u8 "segmento") VNone)) w
  else [].

End ItemByItem.

(** Two readings of the clock in the same minute. *)
Definition same_minute (d1 d2 : datetime) : Prop :=
  year d1 = year d2 /\ month d1 = month d2 /\ day d1 = day d2
  /\ hour d1 = hour d2 /\ minute d1 = minute d2.

(* ================================================================== *)
(** * Properties *)

(** ** Strings and dictionaries *)

Module PyStrFacts.

Lemma eqb_spec (a b : pystr) : reflect (a = b) (PyStr.eqb a b).
Proof.
  revert b; induction a as [|x a IH]; intros [|y b]; simpl;
    try (constructor; congruence).
  destruct (N.eqb_spec x y) as [->|ne]; simpl.
  - destruct (IH b) as [->|ne]; constructor; congruence.
  - constructor; congruence.
Qed.

Lemma eqb_refl (a : pystr) : PyStr.eqb a a = true.
Proof. destruct (eqb_spec a a); congruence. Qed.

Lemma eqb_eq (a b : pystr) : PyStr.eqb a b = true <-> a = b.
Proof. destruct (eqb_spec a b); split; congruence. Qed.

Lemma eqb_neq (a b : pystr) : PyStr.eqb a b = false <-> a <> b.
Proof. destruct (eqb_spec a b); split; congruence. Qed.

Lemma prefix_length (n : Z) (s : pystr) :
  0 <= n -> PyStr.len (PyStr.prefix n s) <= n.
Proof.
  intros Hn. unfold PyStr.len, PyStr.prefix.
  pose proof (firstn_le_length (Z.to_nat n) s). lia.
Qed.

End PyStrFacts.

Module DictFacts.

Lemma get_set_same (d : dict) k v : Dict.get (Dict.set d k v) k = Some v.
Proof.
  induction d as [|[k' v'] d IH]; simpl.
  - now rewrite PyStrFacts.eqb_refl.
  - destruct (PyStr.eqb k' k) eqn:E; simpl; now rewrite E.
Qed.

Lemma get_set_other (d : dict) k k' v :
  k <> k' -> Dict.get (Dict.set d k v) k' = Dict.get d k'.
Proof.
  intros ne; induction d as [|[k0 v0] d IH]; simpl.
  - apply PyStrFacts.eqb_neq in ne. now rewrite ne.
  - destruct (PyStr.eqb k0 k) eqn:E; simpl.
    + apply PyStrFacts.eqb_eq in E; subst k0.
      apply PyStrFacts.eqb_neq in ne. now rewrite ne.
    + destruct (PyStr.eqb k0 k'); auto.
Qed.

Lemma mem_set_same (d : dict) k v : Dict.mem k (Dict.set d k v) = true.
Proof. unfold Dict.mem. now rewrite get_set_same. Qed.

Lemma mem_set_other (d : dict) k k' v :
  k <> k' -> Dict.mem k' (Dict.set d k v) = Dict.mem k' d.
Proof. intros ne. unfold Dict.mem. now rewrite get_set_other. Qed.

End DictFacts.

(** ** Arithmetic of the score *)

Module ScoreFacts.

(** A property of the numbers 0 to 100 checked on each of them. *)
Lemma upto_100 (P : Z -> bool) :
  forallb P (map Z.of_nat (seq 0 101)) = true ->
  forall p, 0 <= p <= 100 -> P p = true.
Proof.
  intros H p Hp. rewrite forallb_forall in H. apply H.
  apply in_map_iff. exists (Z.to_nat p). split; [lia|].
  apply in_seq. lia.
Qed.

Lemma float_of_Z_in_0_100 (p : Z) :
  0 <= p <= 100 -> in_0_100 (float_of_Z p).
Proof.
  intros Hp. unfold in_0_100. apply andb_true_iff.
  revert p Hp.
  apply (upto_100 (fun p => PrimFloat.leb 0 (float_of_Z p)
                            && PrimFloat.leb (float_of_Z p) 100)).
  vm_compute. reflexivity.
Qed.

Lemma float_of_Z_monotone (p q : Z) :
  0 <= p <= q -> q <= 100 ->
  PrimFloat.leb (float_of_Z p) (float_of_Z q) = true.
Proof.
  intros Hp Hq.
  assert (H : forallb (fun d => PrimFloat.leb (float_of_Z p) (float_of_Z (p + d)))
                (map Z.of_nat (seq 0 101)) = true).
  { assert (Hp' : 0 <= p <= 100) by lia. clear Hp Hq. revert p Hp'.
    apply (upto_100
             (fun p => forallb
                         (fun d => PrimFloat.leb (float_of_Z p)
                                     (float_of_Z (p + d)))
                         (map Z.of_nat (seq 0 101)))).
    vm_compute. reflexivity. }
  replace q with (p + (q - p)) by lia.
  apply (upto_100 _ H). lia.
Qed.

Lemma insight_points_range n : 0 <= insight_points n <= 20.
Proof. unfold insight_points. repeat destruct (_ <=? n); lia. Qed.


Lemma filled_sections_range analysis : 0 <= filled_sections analysis <= 4.
Proof.
  unfold filled_sections.
  pose proof (filter_length_le (section_filled analysis) main_sections) as H.
  change (List.length main_sections) with 4%nat in H. lia.
Qed.

Lemma research_keys_range analysis : 0 <= research_keys analysis <= 2.
Proof. unfold research_keys. repeat destruct (Dict.mem _ _); lia. Qed.

Lemma quality_points_range analysis n : 0 <= quality_points analysis n <= 100.
Proof.
  unfold quality_points.
  pose proof (filled_sections_range analysis).
  pose proof (research_keys_range analysis).
  pose proof (insight_points_range n). lia.
Qed.

(** The float the code accumulates is the float of the points. *)
Lemma score_points analysis n :
  float_min
    (insights_score n (research_score analysis (sections_score analysis)))
    100%float
  = float_of_Z (quality_points analysis n).
Proof.
  unfold quality_points, filled_sections, research_keys, insight_points,
    insights_score, research_score, sections_score.
  cbv beta iota delta [main_sections fold_left filter].
  generalize (section_filled analysis (u8 "avatar_ultra_detalhado")).
  generalize (section_filled analysis (u8 "escopo")).
  generalize (section_filled analysis (u8 "estrategia_palavras_chave")).
  generalize (section_filled analysis (u8 "insights_exclusivos")).
  generalize (Dict.mem (u8 "pesquisa_web_detalhada") analysis).
  generalize (Dict.mem (u8 "pesquisa_profunda") analysis).
  intros b1 b2 b3 b4 b5 b6.
  destruct (5 <=? n), (3 <=? n), (1 <=? n), b1, b2, b3, b4, b5, b6;
    vm_compute; reflexivity.
Qed.




Lemma score_of analysis n :
  py_len (insights_entry analysis) = Ok n ->
  _calculate_quality_score analysis
  = Ok (float_of_Z (quality_points analysis n)).
Proof.
  intros H. unfold _calculate_quality_score.
  fold (insights_entry analysis). rewrite H. now rewrite score_points.
Qed.





End ScoreFacts.

(** ** The quality score *)




(** Every score that is returned lies between 0 and 100. *)
Lemma quality_score_in_range (analysis : dict) (q : float) :
  _calculate_quality_score analysis = Ok q -> in_0_100 q.
Proof.
  intros H.
  destruct (py_len (insights_entry analysis)) as [n|e] eqn:E.
  - rewrite (@ScoreFacts.score_of _ _ E) in H. inversion H; subst.
    apply ScoreFacts.float_of_Z_in_0_100, ScoreFacts.quality_points_range.
  - unfold _calculate_quality_score in H.
    fold (insights_entry analysis) in H. rewrite E in H. discriminate.
Qed.

Lemma insights_key_is_a_section : In (u8 "insights_exclusivos") main_sections.
Proof. simpl. auto. Qed.




(** ** Computations *)

Module RunFacts.

Section WithState.
Context {S : Type}.

Lemma try_except_ok {A} (m : M S A) (h : exn -> M S A) (s : S) :
  is_ok (fst (m s)) = true -> try_except m h s = m s.
Proof.
  unfold try_except. destruct (m s) as [[a|e] s']; simpl;
    [reflexivity | discriminate].
Qed.

(** A handler that only logs turns every outcome into a return. *)
Lemma logged_returns (m : M S unit) (s : S) :
  try_except m log_and_continue s = (Ok tt, snd (m s)).
Proof.
  unfold try_except, log_and_continue, ret.
  destruct (m s) as [[[]|e] s']; reflexivity.
Qed.

Lemma bind_ok {A B} (m : M S A) (k : A -> M S B) (s : S) :
  is_ok (fst (m s)) = true ->
  (forall a s', is_ok (fst (k a s')) = true) ->
  is_ok (fst (bind m k s)) = true.
Proof.
  unfold bind. destruct (m s) as [[a|e] s']; simpl; intros H Hk;
    [apply Hk | discriminate].
Qed.

Lemma for_each_ok {X} (body : X -> M S unit) (xs : list X) :
  (forall x s, is_ok (fst (body x s)) = true) ->
  forall s, is_ok (fst (for_each xs body s)) = true.
Proof.
  intros Hb. induction xs as [|x xs IH]; intros s; simpl.
  - reflexivity.
  - apply bind_ok; auto.
Qed.

Lemma for_each_ext {X} (f g : X -> M S unit) (xs : list X) :
  (forall x s, f x s = g x s) ->
  forall s, for_each xs f s = for_each xs g s.
Proof.
  intros H. induction xs as [|x xs IH]; intros s; simpl.
  - reflexivity.
  - unfold bind. rewrite H. destruct (g x s) as [[[]|e] s']; auto.
Qed.

(** A property of the state that every run of the body keeps is kept
    by the loop, whether it ends or raises. *)
Lemma for_each_keeps {X} (P : S -> Prop) (body : X -> M S unit) :
  (forall x s, P s -> P (snd (body x s))) ->
  forall xs s, P s -> P (snd (for_each xs body s)).
Proof.
  intros Hb xs. induction xs as [|x xs IH]; intros s Hs; simpl.
  - exact Hs.
  - unfold bind. specialize (Hb x s Hs).
    destruct (body x s) as [[[]|e] s']; simpl in *; auto.
Qed.

Lemma bind_keeps {A B} (P : S -> Prop) (m : M S A) (k : A -> M S B) s :
  P (snd (m s)) -> (forall a s', P s' -> P (snd (k a s'))) ->
  P (snd (bind m k s)).
Proof.
  unfold bind. destruct (m s) as [[a|e] s']; simpl; auto.
Qed.

End WithState.

End RunFacts.

(** ** Research collection *)

Module CollectFacts.

Section WithRuntime.
Variable W : Type.
Variable rt : Runtime W.

Lemma extract_one_keeps (P : ResearchData -> Prop) cq r :
  (forall p rd, P rd -> P (append_page p rd)) ->
  forall s, on_data P s -> on_data P (snd (extract_one rt cq r s)).
Proof.
  intros Hp [rd w] Hs. unfold extract_one, bind, on_snd, on_data in *.
  simpl in *.
  destruct (extract_content rt (sr_url r) w) as [[c|e] w']; simpl; auto.
  destruct (content_truthy c); simpl; auto.
Qed.

Lemma contextual_search_keeps (P : ResearchData -> Prop) query :
  (forall p rd, P rd -> P (append_page p rd)) ->
  (forall l rd, P rd -> P (extend_search_results l rd)) ->
  forall s, on_data P s -> on_data P (snd (contextual_search rt query s)).
Proof.
  intros Hp He [rd w] Hs. unfold contextual_search.
  apply RunFacts.bind_keeps.
  - unfold on_snd, on_data in *. simpl.
    destruct (search rt query 5 w) as [[c|e] w']; simpl; auto.
  - intros results s' Hs'. apply RunFacts.bind_keeps.
    + destruct s' as [rd' w']. unfold on_data in *. simpl. auto.
    + intros _ s'' Hs''.
      apply (RunFacts.for_each_keeps (on_data P)); auto.
      intros x s0. now apply extract_one_keeps.
Qed.

Lemma contextual_searches_keep (P : ResearchData -> Prop) segmento :
  (forall p rd, P rd -> P (append_page p rd)) ->
  (forall l rd, P rd -> P (extend_search_results l rd)) ->
  forall s, on_data P s -> on_data P (snd (contextual_searches rt segmento s)).
Proof.
  intros Hp He s Hs. unfold contextual_searches.
  apply (RunFacts.for_each_keeps (on_data P)); auto.
  intros x s0. now apply contextual_search_keeps.
Qed.

(** The method returns, whatever the collaborators do. *)
Lemma collect_body_returns self data s :
  fst (collect_body rt self data s) = Ok tt.
Proof.
  unfold collect_body, bind.
  destruct (search_manager (systems_enabled self) && truthy _).
  - rewrite RunFacts.logged_returns.
    destruct (search_manager (systems_enabled self) && truthy _).
    + now rewrite RunFacts.logged_returns.
    + reflexivity.
  - unfold ret at 1.
    destruct (search_manager (systems_enabled self) && truthy _).
    + now rewrite RunFacts.logged_returns.
    + reflexivity.
Qed.

Lemma collect_returns self data session_id w :
  exists research_data w',
    _collect_comprehensive_data rt self data session_id w
    = (Ok research_data, w').
Proof.
  unfold _collect_comprehensive_data.
  pose proof (collect_body_returns self data (empty_research_data, w)) as H.
  destruct (collect_body rt self data (empty_research_data, w))
    as [[[]|e] [rd w']]; simpl in H; [eauto | discriminate].
Qed.

(** Without a free-text query the list of sources stays empty. *)
Lemma collect_without_query_has_no_sources self data session_id w rd w' :
  truthy (Dict.get_default data (u8 "query") VNone) = false ->
  _collect_comprehensive_data rt self data session_id w = (Ok rd, w') ->
  sources rd = [].
Proof.
  intros Hq. unfold _collect_comprehensive_data.
  assert (H : on_data (fun rd => sources rd = [])
                (snd (collect_body rt self data (empty_research_data, w)))).
  { unfold collect_body. rewrite Hq, andb_false_r.
    unfold bind, ret at 1.
    destruct (search_manager (systems_enabled self) && truthy _).
    - rewrite RunFacts.logged_returns. simpl.
      apply contextual_searches_keep; auto. reflexivity.
    - reflexivity. }
  destruct (collect_body rt self data (empty_research_data, w))
    as [[[]|e] [rd0 w0]]; intros E; inversion E; subst; exact H.
Qed.

(** When the extractor never raises, catching around one extraction
    changes nothing. *)
Lemma extract_one_returns cq r :
  (forall url, never_raises (extract_content rt url)) ->
  forall s, is_ok (fst (extract_one rt cq r s)) = true.
Proof.
  intros Hx [rd w]. unfold extract_one, bind, on_snd. simpl.
  specialize (Hx (sr_url r) w).
  destruct (extract_content rt (sr_url r) w) as [[c|e] w']; simpl in *;
    [|discriminate].
  destruct (content_truthy c); reflexivity.
Qed.

Lemma extract_one_isolated_same cq r :
  (forall url, never_raises (extract_content rt url)) ->
  forall s, extract_one_isolated rt cq r s = extract_one rt cq r s.
Proof.
  intros Hx s. unfold extract_one_isolated.
  apply RunFacts.try_except_ok. now apply extract_one_returns.
Qed.

Lemma contextual_search_returns query :
  (forall url, never_raises (extract_content rt url)) ->
  (forall q n, never_raises (search rt q n)) ->
  forall s, is_ok (fst (contextual_search rt query s)) = true.
Proof.
  intros Hx Hs [rd w]. unfold contextual_search.
  apply RunFacts.bind_ok.
  - unfold on_snd. simpl. specialize (Hs query 5 w).
    destruct (search rt query 5 w) as [[c|e] w']; simpl in *; auto.
  - intros results s'. apply RunFacts.bind_ok; [reflexivity|].
    intros _ s''. apply RunFacts.for_each_ok.
    intros x s0. now apply extract_one_returns.
Qed.

Lemma contextual_search_isolated_same query :
  (forall url, never_raises (extract_content rt url)) ->
  (forall q n, never_raises (search rt q n)) ->
  forall s, contextual_search_isolated rt query s
            = contextual_search rt query s.
Proof.
  intros Hx Hs s. unfold contextual_search_isolated.
  rewrite RunFacts.try_except_ok.
  - unfold contextual_search, bind.
    destruct (on_snd (search rt query 5) s) as [[results|e] s1]; auto.
    destruct (update _ s1) as [[[]|e] s2]; auto.
    apply RunFacts.for_each_ext. intros x s0.
    now apply extract_one_isolated_same.
  - pose proof (contextual_search_returns query Hx Hs s) as H.
    unfold contextual_search, bind in *.
    destruct (on_snd (search rt query 5) s) as [[results|e] s1]; auto.
    destruct (update _ s1) as [[[]|e] s2]; auto.
    rewrite (RunFacts.for_each_ext _ (extract_one rt (Some query))); auto.
    intros x s0. now apply extract_one_isolated_same.
Qed.

Lemma collect_body_per_item_same self data :
  (forall url, never_raises (extract_content rt url)) ->
  (forall q n, never_raises (search rt q n)) ->
  forall s, collect_body rt self data s = collect_body_per_item rt self data s.
Proof.
  intros Hx Hs s. unfold collect_body, collect_body_per_item, bind.
  assert (H1 : forall query s,
             try_except (multi_provider_search rt query) log_and_continue s
             = multi_provider_search_isolated rt query s).
  { intros query s0.
    unfold multi_provider_search_isolated, multi_provider_search,
      try_except, bind.
    destruct (on_snd (multi_search rt query 8) s0) as [[results|e] s1]; auto.
    destruct (update _ s1) as [[[]|e] s2]; auto.
    rewrite (RunFacts.for_each_ext (extract_one_isolated rt None)
               (extract_one rt None)); auto.
    intros x s3. now apply extract_one_isolated_same. }
  assert (H2 : forall segmento s,
             try_except (contextual_searches rt segmento) log_and_continue s
             = for_each (contextual_queries rt segmento)
                 (contextual_search_isolated rt) s).
  { intros segmento s0. unfold contextual_searches.
    rewrite RunFacts.try_except_ok.
    - apply RunFacts.for_each_ext. intros x s1. symmetry.
      now apply contextual_search_isolated_same.
    - apply RunFacts.for_each_ok. intros x s1.
      now apply contextual_search_returns. }
  destruct (search_manager (systems_enabled self) && truthy _).
  - rewrite H1.
    destruct (multi_provider_search_isolated rt _ s) as [[[]|e] s1]; auto.
    destruct (search_manager (systems_enabled self) && truthy _); auto.
  - unfold ret at 1 3.
    destruct (search_manager (systems_enabled self) && truthy _); auto.
Qed.

End WithRuntime.

End CollectFacts.

(** ** The collection described item by item *)

Module ItemFacts.

Section WithRuntime.
Variable W : Type.
Variable rt : Runtime W.

(** One run of the body of an extraction loop. *)
Lemma extract_one_step cq item (rd : ResearchData) (w : W) :
  extract_one rt cq item (rd, w)
  = match outcome_of (fst (extract_content rt (sr_url item) w)) with
    | Kept content =>
        (Ok tt,
         (append_page
            {| ep_url := sr_url item; ep_title := sr_title item;
               ep_content := content; ep_source := sr_source item;
               ep_context_query := cq |} rd,
          snd (extract_content rt (sr_url item) w)))
    | Dropped => (Ok tt, (rd, snd (extract_content rt (sr_url item) w)))
    | Failed e => (Raise e, (rd, snd (extract_content rt (sr_url item) w)))
    end.
Proof.
  unfold extract_one, bind, on_snd. cbn [fst snd].
  destruct (extract_content rt (sr_url item) w) as [[[[|c s]|]|e] w1];
    reflexivity.
Qed.

(** The extraction loop of the code, from a bundle [rd]: it stores the
    pages of the items one after the other, and raises exactly when the
    list of items was ended by an exception. *)
Lemma extraction_loop_described cq items (rd : ResearchData) (w : W) :
  snd (for_each items (extract_one rt cq) (rd, w))
  = ({| search_results := search_results rd;
        extracted_content :=
          extracted_content rd
          ++ fst (fst (pages_of_items rt cq items w));
        market_intelligence := market_intelligence rd;
        sources := sources rd;
        total_content_length :=
          total_content_length rd
          + content_chars (fst (fst (pages_of_items rt cq items w))) |},
     snd (pages_of_items rt cq items w))
  /\ is_ok (fst (for_each items (extract_one rt cq) (rd, w)))
     = negb (snd (fst (pages_of_items rt cq items w))).
Proof.
  revert rd w. induction items as [|item items IH]; intros rd w.
  - simpl. rewrite app_nil_r, Z.add_0_r. destruct rd; split; reflexivity.
  - cbn [for_each pages_of_items]. unfold bind at 1 2.
    rewrite extract_one_step.
    destruct (extract_content rt (sr_url item) w) as [returned w1].
    cbn [fst snd].
    destruct (outcome_of returned) as [content| |e].
    + specialize (IH (append_page
                        {| ep_url := sr_url item; ep_title := sr_title item;
                           ep_content := content;
                           ep_source := sr_source item;
                           ep_context_query := cq |} rd) w1).
      destruct (pages_of_items rt cq items w1) as [[pages cut] w2].
      cbn [fst snd] in *. destruct IH as [IH1 IH2].
      split; [|exact IH2].
      rewrite IH1. unfold append_page.
      cbn [extracted_content total_content_length search_results
           market_intelligence sources ep_content].
      rewrite <- app_assoc. cbn [app].
      f_equal. f_equal. unfold content_chars. cbn [fold_right ep_content].
      lia.
    + apply IH.
    + cbn [fst snd]. rewrite app_nil_r. cbn [content_chars fold_right].
      rewrite Z.add_0_r. destruct rd; split; reflexivity.
Qed.

(** The free-text phase of the code, from the empty bundle. *)
Lemma free_text_phase_described query (w : W) :
  snd (multi_provider_search rt query (empty_research_data, w))
  = free_text_phase rt query w.
Proof.
  unfold multi_provider_search, free_text_phase, bind at 1, on_snd.
  cbn [fst snd].
  destruct (multi_search rt query 8 w) as [[results|e] w1]; [|reflexivity].
  unfold bind at 1, update at 1, modify. cbn [fst snd].
  unfold bind.
  destruct (extraction_loop_described None (firstn 15 results)
              (set_search_results results empty_research_data) w1)
    as [Hs Hok].
  destruct (for_each (firstn 15 results) (extract_one rt None)
              (set_search_results results empty_research_data, w1))
    as [[[]|e] s1]; cbn [fst snd is_ok] in *; subst s1;
    destruct (pages_of_items rt None (firstn 15 results) w1)
      as [[pages cut] w2]; cbn [fst snd negb] in *;
    destruct cut; try discriminate; reflexivity.
Qed.

(** The contextual phase of the code, from any bundle. *)
Lemma contextual_phase_described queries (rd : ResearchData) (w : W) :
  snd (for_each queries (contextual_search rt) (rd, w))
  = contextual_phase rt queries rd w.
Proof.
  revert rd w. induction queries as [|query queries IH]; intros rd w.
  - reflexivity.
  - cbn [for_each contextual_phase]. unfold bind at 1.
    unfold contextual_search at 1. unfold bind at 1, on_snd.
    cbn [fst snd].
    destruct (search rt query 5 w) as [[results|e] w1]; [|reflexivity].
    unfold bind at 1, update at 1, modify. cbn [fst snd].
    destruct (extraction_loop_described (Some query) (firstn 3 results)
                (extend_search_results results rd) w1) as [Hs Hok].
    destruct (for_each (firstn 3 results) (extract_one rt (Some query))
                (extend_search_results results rd, w1))
      as [[[]|e] s1]; cbn [fst snd is_ok] in *; subst s1;
      destruct (pages_of_items rt (Some query) (firstn 3 results) w1)
        as [[pages cut] w2]; cbn [fst snd negb] in *;
      destruct cut; try discriminate.
    + apply IH.
    + reflexivity.
Qed.

(** The whole method is the item-by-item description. *)
Lemma collect_described self data session_id (w : W) :
  _collect_comprehensive_data rt self data session_id w
  = (Ok (fst (collected_item_by_item rt self data w)),
     snd (collected_item_by_item rt self data w)).
Proof.
  unfold _collect_comprehensive_data, collect_body, collected_item_by_item,
    free_text_bundle, bind.
  destruct (search_manager (systems_enabled self)
            && truthy (Dict.get_default data (u8 "query") VNone)).
  - rewrite RunFacts.logged_returns, free_text_phase_described.
    destruct (free_text_phase rt (Dict.get_default data (u8 "query") VNone)
                w) as [rd w1].
    destruct (search_manager (systems_enabled self)
              && truthy (Dict.get_default data (u8 "segmento") VNone)).
    + rewrite RunFacts.logged_returns. unfold contextual_searches.
      rewrite contextual_phase_described.
      destruct (contextual_phase rt _ rd w1); reflexivity.
    + reflexivity.
  - unfold ret at 1.
    destruct (search_manager (systems_enabled self)
              && truthy (Dict.get_default data (u8 "segmento") VNone)).
    + rewrite RunFacts.logged_returns. unfold contextual_searches.
      rewrite contextual_phase_described.
      destruct (contextual_phase rt _ empty_research_data w); reflexivity.
    + reflexivity.
Qed.

(** An extractor that never raises never ends a list of items. *)
Lemma pages_never_cut cq items (w : W) :
  (forall url, never_raises (extract_content rt url)) ->
  snd (fst (pages_of_items rt cq items w)) = false.
Proof.
  intros Hx. revert w. induction items as [|item items IH]; intros w.
  - reflexivity.
  - cbn [pages_of_items]. specialize (Hx (sr_url item) w).
    destruct (extract_content rt (sr_url item) w) as [[returned|e] w1];
      [|discriminate Hx].
    destruct (outcome_of (Ok returned)) as [content| |e] eqn:E.
    + specialize (IH w1).
      destruct (pages_of_items rt cq items w1) as [[pages cut] w2].
      exact IH.
    + apply IH.
    + destruct returned as [[|c r]|]; discriminate E.
Qed.

(** The contextual phase leaves the sources as they are. *)
Lemma contextual_phase_sources queries (rd : ResearchData) (w : W) :
  sources (fst (contextual_phase rt queries rd w)) = sources rd.
Proof.
  revert rd w. induction queries as [|query queries IH]; intros rd w.
  - reflexivity.
  - cbn [contextual_phase].
    destruct (search rt query 5 w) as [[results|e] w1]; [|reflexivity].
    destruct (pages_of_items rt (Some query) (firstn 3 results) w1)
      as [[pages cut] w2].
    destruct cut; [reflexivity|]. now rewrite IH.
Qed.

(** The contextual phase appends its results to the search results. *)
Lemma contextual_phase_results queries (rd : ResearchData) (w : W) :
  search_results (fst (contextual_phase rt queries rd w))
  = search_results rd ++ contextual_results rt queries w.
Proof.
  revert rd w. induction queries as [|query queries IH]; intros rd w.
  - cbn. now rewrite app_nil_r.
  - cbn [contextual_phase contextual_results].
    destruct (search rt query 5 w) as [[results|e] w1].
    + destruct (pages_of_items rt (Some query) (firstn 3 results) w1)
        as [[pages cut] w2].
      destruct cut; [reflexivity|].
      rewrite IH. cbn [search_results]. now rewrite app_assoc.
    + cbn. now rewrite app_nil_r.
Qed.

(** The sources and the search results of the whole method. *)
Lemma collected_sources_and_results self data (w : W) :
  sources (fst (collected_item_by_item rt self data w))
  = sources (fst (free_text_bundle rt self data w))
  /\ search_results (fst (collected_item_by_item rt self data w))
     = search_results (fst (free_text_bundle rt self data w))
       ++ contextual_results_of rt self data
            (snd (free_text_bundle rt self data w)).
Proof.
  unfold collected_item_by_item, contextual_results_of.
  destruct (free_text_bundle rt self data w) as [rd w1]. cbn [fst snd].
  destruct (search_manager (systems_enabled self)
            && truthy (Dict.get_default data (u8 "segmento") VNone)).
  - split; [apply contextual_phase_sources
           | apply contextual_phase_results].
  - cbn [fst]. now rewrite app_nil_r.
Qed.

(** The sources of the free-text phase. *)
Lemma free_text_sources self data (w : W) :
  sources (fst (free_text_bundle rt self data w))
  = if search_manager (systems_enabled self)
       && truthy (Dict.get_default data (u8 "query") VNone)
    then match multi_search rt (Dict.get_default data (u8 "query") VNone)
                 8 w with
         | (Ok results, w1) =>
             if snd (fst (pages_of_items rt None (firstn 15 results) w1))
             then [] else map source_of results
         | (Raise _, _) => []
         end
    else [].
Proof.
  unfold free_text_bundle, free_text_phase.
  destruct (search_manager (systems_enabled self)
            && truthy (Dict.get_default data (u8 "query") VNone));
    [|reflexivity].
  destruct (multi_search rt _ 8 w) as [[results|e] w1]; [|reflexivity].
  destruct (pages_of_items rt None (firstn 15 results) w1)
    as [[pages cut] w2].
  reflexivity.
Qed.

End WithRuntime.

End ItemFacts.

(** C2, as the code has it: the collection never raises, and its bundle
    is the one accumulated item by item.  A URL for which the extractor
    returns [None] or an empty content is dropped and the URLs after it
    are processed; a query whose search returns no result adds nothing
    and the queries after it are searched.  An exception of the
    extractor or of the search is not caught at the call: it leaves the
    loop, with the items that remain, and is caught by the [try] of its
    phase, which keeps what was stored before. *)
Theorem collect_never_raises_and_drops_empty_items
  (W : Type) (rt : Runtime W) (self : EnhancedAnalysisEngine)
  (data : dict) (session_id : option pystr) (w : W) :
  (exists research_data w',
      _collect_comprehensive_data rt self data session_id w
      = (Ok research_data, w'))
  /\ _collect_comprehensive_data rt self data session_id w
     = (Ok (fst (collected_item_by_item rt self data w)),
        snd (collected_item_by_item rt self data w))
  /\ (forall context_query item items rd w0,
        fst (extract_content rt (sr_url item) w0) = Ok None
        \/ fst (extract_content rt (sr_url item) w0) = Ok (Some []) ->
        for_each (item :: items) (extract_one rt context_query) (rd, w0)
        = for_each items (extract_one rt context_query)
            (rd, snd (extract_content rt (sr_url item) w0)))
  /\ (forall query queries rd w0 w1,
        search rt query 5 w0 = (Ok [], w1) ->
        for_each (query :: queries) (contextual_search rt) (rd, w0)
        = for_each queries (contextual_search rt) (rd, w1))
  /\ (forall context_query item items rd w0 e,
        fst (extract_content rt (sr_url item) w0) = Raise e ->
        for_each (item :: items) (extract_one rt context_query) (rd, w0)
        = (Raise e, (rd, snd (extract_content rt (sr_url item) w0))))
  /\ (forall query queries rd w0 w1 e,
        search rt query 5 w0 = (Raise e, w1) ->
        for_each (query :: queries) (contextual_search rt) (rd, w0)
        = (Raise e, (rd, w1))).
Proof.
  split; [apply CollectFacts.collect_returns|].
  split; [apply ItemFacts.collect_described|].
  split; [|split; [|split]].
  - intros cq item items rd w0 H. cbn [for_each]. unfold bind at 1.
    rewrite ItemFacts.extract_one_step.
    destruct H as [-> | ->]; reflexivity.
  - intros query queries rd w0 w1 H. cbn [for_each]. unfold bind at 1.
    unfold contextual_search at 1. unfold bind at 1, on_snd.
    cbn [fst snd]. rewrite H.
    unfold bind, update, modify, extend_search_results, set_search_results.
    cbn [firstn for_each fst snd]. unfold ret at 1.
    rewrite app_nil_r. destruct rd; reflexivity.
  - intros cq item items rd w0 e H. cbn [for_each]. unfold bind at 1.
    rewrite ItemFacts.extract_one_step. rewrite H. reflexivity.
  - intros query queries rd w0 w1 e H. cbn [for_each]. unfold bind at 1.
    unfold contextual_search at 1. unfold bind at 1, on_snd.
    cbn [fst snd]. rewrite H. reflexivity.
Qed.

(** C2, the claim as stated fails: the extractor raises on the first of
    the two pages of the free-text search; the second page, which it
    would extract, is not in the bundle, and the list of sources is not
    filled, while the three pages of the contextual phase are there.
    Item by item, the second page is there too. *)
Lemma one_failed_extraction_ends_the_phase :
  fst (extract_content Demo.runtime_flaky (sr_url Demo.result_b)
         Demo.morning)
  = Ok (Some Demo.page_text)
  /\ (exists rd,
        result (_collect_comprehensive_data Demo.runtime_flaky
                  (init Demo.runtime_flaky) Demo.request None) Demo.morning
        = Ok rd
        /\ existsb (fun p => PyStr.eqb (ep_url p) (sr_url Demo.result_b))
              (extracted_content rd) = false
        /\ sources rd = []
        /\ List.length (extracted_content rd) = 3%nat)
  /\ (exists rd,
        result (collect_per_item Demo.runtime_flaky
                  (init Demo.runtime_flaky) Demo.request None) Demo.morning
        = Ok rd
        /\ existsb (fun p => PyStr.eqb (ep_url p) (sr_url Demo.result_b))
              (extracted_content rd) = true
        /\ List.length (sources rd) = 2%nat).
Proof.
  split; [reflexivity|]. split.
  - eexists. split; [vm_compute; reflexivity|].
    repeat split; vm_compute; reflexivity.
  - eexists. split; [vm_compute; reflexivity|].
    split; vm_compute; reflexivity.
Qed.

Lemma collect_never_raises_and_drops_empty_items_witness :
  fst (extract_content Demo.runtime_sparse (sr_url Demo.result_a)
         Demo.morning) = Ok None
  /\ exists rd,
       _collect_comprehensive_data Demo.runtime_sparse
         (init Demo.runtime_sparse) Demo.request None Demo.morning
       = (Ok rd, Demo.morning)
       /\ map ep_url (extracted_content rd) = [sr_url Demo.result_b]
       /\ search_results rd
          = [Demo.result_a; Demo.result_b; Demo.result_c; Demo.result_c;
             Demo.result_c]
       /\ sources rd = [source_of Demo.result_a; source_of Demo.result_b]
       /\ total_content_length rd = PyStr.len Demo.page_text.
Proof.
  split; [reflexivity|].
  eexists. split.
  - exact (proj1 (proj2
             (collect_never_raises_and_drops_empty_items
                Demo.runtime_sparse (init Demo.runtime_sparse)
                Demo.request None Demo.morning))).
  - repeat split; vm_compute; reflexivity.
Defined.

(** ** The prompt *)

Module PromptFacts.

Lemma brief_field_same W (rt : Runtime W) data1 data2 key :
  In key brief_keys -> same_brief data1 data2 ->
  brief_field rt data1 key = brief_field rt data2 key.
Proof.
  intros Hk H. unfold brief_field, Dict.get_default. now rewrite (H key Hk).
Qed.

Lemma prompt_text_same W (rt : Runtime W) data1 data2 ctx now :
  same_brief data1 data2 ->
  prompt_text rt data1 ctx now = prompt_text rt data2 ctx now.
Proof.
  intros H. unfold prompt_text.
  rewrite !(@brief_field_same W rt data1 data2) by (simpl; tauto || exact H).
  reflexivity.
Qed.

End PromptFacts.

Module ClockFacts.

Lemma strftime_same_minute d1 d2 :
  same_minute d1 d2 -> strftime_dmY_HM d1 = strftime_dmY_HM d2.
Proof.
  intros (Hy & Hm & Hd & Hh & Hmi). unfold strftime_dmY_HM.
  now rewrite Hy, Hm, Hd, Hh, Hmi.
Qed.

Lemma prompt_text_same_minute W (rt : Runtime W) data ctx now1 now2 :
  same_minute now1 now2 ->
  prompt_text rt data ctx now1 = prompt_text rt data ctx now2.
Proof.
  intros H. unfold prompt_text.
  now rewrite (strftime_same_minute H).
Qed.

End ClockFacts.

(** C3, as the code has it: the prompt is a function of the fields of
    the brief it prints, of the research context and of the minute of
    the reading of [datetime.now()] it embeds: two calls whose readings
    of the clock fall in the same minute give the same prompt.  Building
    it always returns, and changes nothing but what reading the clock
    changes. *)
Theorem prompt_is_determined_by_brief_context_and_clock
  (W : Type) (rt : Runtime W) (data1 data2 : dict) (search_context : pystr)
  (w1 w2 : W) :
  same_brief data1 data2 ->
  same_minute (fst (datetime_now rt w1)) (fst (datetime_now rt w2)) ->
  (exists prompt,
      result (_build_comprehensive_analysis_prompt rt data1 search_context) w1
      = Ok prompt
      /\ result (_build_comprehensive_analysis_prompt rt data2 search_context)
           w2
         = Ok prompt)
  /\ snd (_build_comprehensive_analysis_prompt rt data1 search_context w1)
     = snd (datetime_now rt w1).
Proof.
  intros Hb Hc.
  unfold _build_comprehensive_analysis_prompt, result, bind, reading, ret.
  destruct (datetime_now rt w1) as [now1 w1'].
  destruct (datetime_now rt w2) as [now2 w2']. cbn [fst snd] in *.
  split; [|reflexivity].
  exists (prompt_text rt data1 search_context now1). split; [reflexivity|].
  rewrite (PromptFacts.prompt_text_same rt search_context now1 Hb).
  now rewrite (ClockFacts.prompt_text_same_minute rt data2 search_context Hc).
Qed.

(** C3, the claim as stated fails: the same request and the same
    context give two different prompts when the clock has moved to the
    next minute. *)
Lemma prompt_changes_with_the_clock :
  result (_build_comprehensive_analysis_prompt Demo.runtime Demo.request
            (u8 "contexto")) Demo.morning
  <> result (_build_comprehensive_analysis_prompt Demo.runtime Demo.request
               (u8 "contexto")) Demo.a_minute_later.
Proof.
  intros H.
  assert (E : PyStr.eqb
                (prompt_text Demo.runtime Demo.request (u8 "contexto")
                   Demo.morning)
                (prompt_text Demo.runtime Demo.request (u8 "contexto")
                   Demo.a_minute_later) = true).
  { apply PyStrFacts.eqb_eq.
    unfold _build_comprehensive_analysis_prompt, result, bind, reading, ret
      in H.
    simpl in H. now inversion H. }
  vm_compute in E. discriminate.
Qed.

Lemma prompt_is_determined_by_brief_context_and_clock_witness :
  same_brief Demo.request Demo.request_with_session
  /\ same_minute (fst (datetime_now Demo.runtime Demo.morning))
       (fst (datetime_now Demo.runtime Demo.five_seconds_later))
  /\ Demo.morning <> Demo.five_seconds_later
  /\ exists prompt,
       result (_build_comprehensive_analysis_prompt Demo.runtime
                 Demo.request (u8 "contexto")) Demo.morning
       = Ok prompt
       /\ result (_build_comprehensive_analysis_prompt Demo.runtime
                    Demo.request_with_session (u8 "contexto"))
            Demo.five_seconds_later
          = Ok prompt.
Proof.
  assert (Hb : same_brief Demo.request Demo.request_with_session).
  { intros key Hk. simpl in Hk.
    repeat (destruct Hk as [<-|Hk]; [vm_compute; reflexivity|]).
    destruct Hk. }
  assert (Hm : same_minute (fst (datetime_now Demo.runtime Demo.morning))
                 (fst (datetime_now Demo.runtime
                         Demo.five_seconds_later)))
    by (repeat split).
  split; [exact Hb|]. split; [exact Hm|]. split; [discriminate|].
  exact (proj1 (prompt_is_determined_by_brief_context_and_clock
                  Demo.runtime (u8 "contexto") Demo.morning
                  Demo.five_seconds_later Hb Hm)).
Defined.

(** ** Recovery of the model's answer *)

Module RecoverFacts.

Section WithRuntime.
Variable W : Type.
Variable rt : Runtime W.

(** The reduced result keeps the first 1000 characters of the answer. *)
Lemma raw_ai_response_kept text data :
  Dict.get (_extract_structured_analysis rt text data) (u8 "raw_ai_response")
  = Some (VStr (PyStr.prefix 1000 text))
  /\ PyStr.len (PyStr.prefix 1000 text) <= 1000.
Proof.
  split; [reflexivity|]. apply PyStrFacts.prefix_length. lia.
Qed.

(** What the method does, by what [json.loads] does on the text between
    the fences: a decoded object is returned with ['metadata_ai'] set; a
    decoding error gives the reduced result; a decoded value that is not
    an object makes the assignment raise [TypeError]; any other exception
    of the decoder goes through. *)
Lemma process_ai_response_cases ai_response data w :
  match json_loads rt (clean_text ai_response) with
  | Ok (VDict d) =>
      _process_ai_response rt ai_response data w
      = (Ok (Dict.set d (u8 "metadata_ai")
               (metadata_ai (fst (datetime_now rt w)))),
         snd (datetime_now rt w))
  | Ok _ =>
      exists e,
        _process_ai_response rt ai_response data w
        = (Raise e, snd (datetime_now rt w))
        /\ exn_cls e = TypeError
  | Raise e =>
      match exn_cls e with
      | JSONDecodeError =>
          _process_ai_response rt ai_response data w
          = (Ok (_extract_structured_analysis rt ai_response data), w)
      | _ => _process_ai_response rt ai_response data w = (Raise e, w)
      end
  end.
Proof.
  unfold _process_ai_response, try_except_json, bind, of_res, reading, ret.
  destruct (json_loads rt (clean_text ai_response)) as [v|e].
  - destruct (datetime_now rt w) as [now w']. simpl.
    destruct v; simpl; try reflexivity; eexists; split; reflexivity.
  - destruct (exn_cls e); reflexivity.
Qed.

End WithRuntime.

End RecoverFacts.

(** C4, where the code departs from the claim: the model answers with
    the JSON array [[]], which [json.loads] decodes; the assignment of
    ['metadata_ai'] raises [TypeError], which the handler of
    [json.JSONDecodeError] does not catch. *)
Theorem process_ai_response_raises_on_a_json_array :
  json_loads Demo.runtime (clean_text (u8 "[]")) = Ok (VList [])
  /\ result (_process_ai_response Demo.runtime (u8 "[]") Demo.request)
       Demo.morning
     = Raise (type_error
                (u8 "list indices must be integers or slices, not str")).
Proof. split; vm_compute; reflexivity. Qed.

(** ** The analysis stage *)


(** The model raises on every call: the basic analysis is returned. *)
Example analysis_with_a_raising_model :
  result (_perform_comprehensive_ai_analysis Demo.runtime_raising
            (init Demo.runtime_raising) Demo.request empty_research_data)
    Demo.morning
  = Ok (_generate_basic_analysis Demo.runtime_raising Demo.request).
Proof. vm_compute. reflexivity. Qed.

(** ** Consolidation *)

Module ConsolidateFacts.

Lemma research_insights_ordered rd sa ss :
  research_insights rd ++ [insight_systems sa ss; insight_quality]
  = ordered_insights rd sa ss.
Proof.
  unfold research_insights, ordered_insights.
  destruct (search_results rd) as [|r results];
    destruct (extracted_content rd) as [|p pages]; simpl;
    try reflexivity;
    destruct (5 <? count_distinct _); reflexivity.
Qed.

Lemma ordered_insights_length rd sa ss :
  (List.length (ordered_insights rd sa ss) <= 5)%nat.
Proof.
  unfold ordered_insights. rewrite !length_app.
  destruct (negb (Nat.eqb (List.length (search_results rd)) 0));
    destruct (negb (Nat.eqb (List.length (extracted_content rd)) 0));
    simpl; try destruct (5 <? count_distinct _); simpl; lia.
Qed.

Lemma ordered_insights_not_empty rd sa ss : ordered_insights rd sa ss <> [].
Proof.
  unfold ordered_insights. intros H.
  apply (f_equal (@List.length _)) in H. rewrite !length_app in H.
  simpl in H. lia.
Qed.

Section WithRuntime.
Variable W : Type.
Variable rt : Runtime W.

(** The method reads the two snapshots and returns the ordered list. *)
Lemma exclusive_insights_run data rd ai w :
  _generate_real_exclusive_insights rt data rd ai w
  = match ai_get_provider_status rt w with
    | (Ok sa, w1) =>
        match search_get_provider_status rt w1 with
        | (Ok ss, w2) => (Ok (ordered_insights rd sa ss), w2)
        | (Raise e, w2) => (Raise e, w2)
        end
    | (Raise e, w1) => (Raise e, w1)
    end.
Proof.
  unfold _generate_real_exclusive_insights, bind, ret.
  destruct (ai_get_provider_status rt w) as [[sa|e] w1]; [|reflexivity].
  destruct (search_get_provider_status rt w1) as [[ss|e] w2]; [|reflexivity].
  replace ((research_insights rd ++ [insight_systems sa ss])
           ++ [insight_quality])
    with (ordered_insights rd sa ss)
    by (rewrite <- app_assoc; symmetry; apply research_insights_ordered).
  rewrite firstn_all2; [reflexivity | apply ordered_insights_length].
Qed.

(** A consolidated analysis ends with the block of the systems used. *)
Lemma consolidate_shape data rd ai w final w' :
  _consolidate_comprehensive_analysis rt data rd ai w = (Ok final, w') ->
  exists consolidated sa ss insights,
    final = Dict.set consolidated (u8 "sistemas_utilizados")
              (sistemas_utilizados rd sa ss)
    /\ Dict.get consolidated (u8 "insights_exclusivos")
       = Some (VList insights).
Proof.
  unfold _consolidate_comprehensive_analysis, bind, of_res, ret.
  rewrite exclusive_insights_run.
  destruct (ai_get_provider_status rt w) as [[sa|e] w1]; [|discriminate].
  destruct (search_get_provider_status rt w1) as [[ss|e] w2];
    [|discriminate].
  pose proof (ordered_insights_not_empty rd sa ss) as Hne.
  unfold with_insights.
  destruct (ordered_insights rd sa ss) as [|i rest]; [congruence|].
  destruct (py_add_list _ _) as [v|e] eqn:Eadd; [|discriminate].
  destruct (ai_get_provider_status rt w2) as [[sa'|e] w3]; [|discriminate].
  destruct (search_get_provider_status rt w3) as [[ss'|e] w4];
    [|discriminate].
  intros H. inversion H; subst.
  unfold py_add_list in Eadd.
  destruct (if negb _ then _ else _); try discriminate.
  inversion Eadd; subst.
  eexists _, sa', ss', _. split; [reflexivity|].
  apply DictFacts.get_set_same.
Qed.

End WithRuntime.

End ConsolidateFacts.

(** C8: the exclusive insights are the entries of the derivation rules in
    their order, at most five, and the list is a function of the bundle
    and of the two provider-status snapshots read: two runs, on any
    requests, analyses, runtimes and states of the world, that read the
    same snapshots for the same bundle return the same list. *)
Theorem exclusive_insights_ordered_capped_and_determined
  (W W' : Type) (rt : Runtime W) (rt' : Runtime W')
  (data data' ai_analysis ai_analysis' : dict) (rd : ResearchData)
  (w : W) (w' : W') (sa ss : provider_status) :
  fst (ai_get_provider_status rt w) = Ok sa ->
  fst (search_get_provider_status rt (snd (ai_get_provider_status rt w)))
  = Ok ss ->
  fst (ai_get_provider_status rt' w') = Ok sa ->
  fst (search_get_provider_status rt' (snd (ai_get_provider_status rt' w')))
  = Ok ss ->
  result (_generate_real_exclusive_insights rt data rd ai_analysis) w
  = Ok (ordered_insights rd sa ss)
  /\ result (_generate_real_exclusive_insights rt' data' rd ai_analysis') w'
     = Ok (ordered_insights rd sa ss)
  /\ (List.length (ordered_insights rd sa ss) <= 5)%nat.
Proof.
  intros H1 H2 H1' H2'. unfold result.
  rewrite !ConsolidateFacts.exclusive_insights_run.
  destruct (ai_get_provider_status rt w) as [[a|e] w1];
    simpl in *; [|discriminate].
  destruct (search_get_provider_status rt w1) as [[s|e] w2];
    simpl in *; [|discriminate].
  destruct (ai_get_provider_status rt' w') as [[a'|e] w1'];
    simpl in *; [|discriminate].
  destruct (search_get_provider_status rt' w1') as [[s'|e] w2'];
    simpl in *; [|discriminate].
  inversion H1; inversion H2; inversion H1'; inversion H2'; subst.
  split; [reflexivity|]. split; [reflexivity|].
  apply ConsolidateFacts.ordered_insights_length.
Qed.

Lemma exclusive_insights_ordered_capped_and_determined_witness :
  result (_generate_real_exclusive_insights Demo.runtime Demo.request
            Demo.bundle []) Demo.morning
  = Ok (ordered_insights Demo.bundle Demo.ai_status Demo.search_status)
  /\ result (_generate_real_exclusive_insights Demo.runtime_flaky
               Demo.request_segment_only Demo.bundle
               (_generate_basic_analysis Demo.runtime Demo.request))
       Demo.a_minute_later
     = Ok (ordered_insights Demo.bundle Demo.ai_status Demo.search_status)
  /\ (List.length (ordered_insights Demo.bundle Demo.ai_status
                     Demo.search_status) <= 5)%nat.
Proof.
  apply (@exclusive_insights_ordered_capped_and_determined
           Demo.world Demo.world Demo.runtime Demo.runtime_flaky);
    reflexivity.
Defined.

(** ** The pipeline *)

Module PipelineFacts.

Section WithRuntime.
Variable W : Type.
Variable rt : Runtime W.

(** What a run of the body of the [try] that ends well went through. *)
Lemma pipeline_shape self data session_id start_time w report w' :
  pipeline rt self data session_id start_time w = (Ok report, w') ->
  exists rd w1 ai w2 final w3 processing_time formatted now q,
    _collect_comprehensive_data rt self data session_id w = (Ok rd, w1)
    /\ _perform_comprehensive_ai_analysis rt self data rd w1 = (Ok ai, w2)
    /\ _consolidate_comprehensive_analysis rt data rd ai w2 = (Ok final, w3)
    /\ (if truthy (VDict final) then _calculate_quality_score final
        else Ok 0%float) = Ok q
    /\ report
       = Dict.set final (u8 "metadata")
           (VDict (Dict.literal
              (metadata_items self processing_time formatted now q rd))).
Proof.
  unfold pipeline, bind, of_res, reading, ret.
  destruct (_collect_comprehensive_data rt self data session_id w)
    as [[rd|e] w1] eqn:E1; [|discriminate].
  destruct (_perform_comprehensive_ai_analysis rt self data rd w1)
    as [[ai|e] w2] eqn:E2; [|discriminate].
  destruct (_consolidate_comprehensive_analysis rt data rd ai w2)
    as [[final|e] w3] eqn:E3; [|discriminate].
  destruct (time_time rt w3) as [end_time w4].
  destruct (processing_time_formatted rt _) as [formatted|e];
    [|discriminate].
  destruct (datetime_utcnow rt w4) as [now w5].
  destruct (if truthy (VDict final) then _ else _) as [q|e] eqn:Eq;
    [|discriminate].
  intros H. inversion H; subst.
  exists rd, w1, ai, w2, final, w3,
    (end_time - start_time)%float, formatted, now, q.
  repeat split; try reflexivity; assumption.
Qed.

Lemma metadata_entry_engine self pt formatted now q rd :
  Dict.get (Dict.literal (metadata_items self pt formatted now q rd))
    (u8 "analysis_engine")
  = Some (VStr (u8 "Emergency Fallback v2.0")).
Proof. reflexivity. Qed.

Lemma metadata_entry_score self pt formatted now q rd :
  Dict.get (Dict.literal (metadata_items self pt formatted now q rd))
    (u8 "quality_score")
  = Some (VFloat q).
Proof. reflexivity. Qed.

Lemma metadata_entry_sources self pt formatted now q rd :
  Dict.get (Dict.literal (metadata_items self pt formatted now q rd))
    (u8 "data_sources_used")
  = Some (VInt (Z.of_nat (List.length (sources rd)))).
Proof. reflexivity. Qed.

Lemma sistemas_entry_sources rd sa ss :
  match sistemas_utilizados rd sa ss with
  | VDict d => Dict.get d (u8 "total_sources")
  | _ => None
  end = Some (VInt (Z.of_nat (List.length (sources rd)))).
Proof. reflexivity. Qed.

End WithRuntime.

End PipelineFacts.

(** C9: when the body of the [try] ends well, its report is what the
    entry point returns, and the ['metadata'] of that report names the
    engine ["Emergency Fallback v2.0"]: the dict display writes the key
    ['analysis_engine'] twice, and the second value replaces
    ["ARQV30 Enhanced v2.0"]. *)
Theorem successful_report_names_the_emergency_engine
  (W : Type) (rt : Runtime W) (self : EnhancedAnalysisEngine) (data : dict)
  (session_id : option pystr) (w w' : W) (report : dict) :
  pipeline rt self data session_id (fst (time_time rt w))
    (snd (time_time rt w)) = (Ok report, w') ->
  generate_comprehensive_analysis rt self data session_id w = (Ok report, w')
  /\ entry report "metadata" "analysis_engine"
     = Some (VStr (u8 "Emergency Fallback v2.0"))
  /\ entry report "metadata" "analysis_engine"
     <> Some (VStr (u8 "ARQV30 Enhanced v2.0")).
Proof.
  intros H.
  assert (Hrun : generate_comprehensive_analysis rt self data session_id w
                 = (Ok report, w')).
  { unfold generate_comprehensive_analysis, bind, reading, try_except.
    destruct (time_time rt w) as [start_time w0]. simpl in H.
    now rewrite H. }
  assert (Hengine : entry report "metadata" "analysis_engine"
                    = Some (VStr (u8 "Emergency Fallback v2.0"))).
  { destruct (PipelineFacts.pipeline_shape _ _ _ _ _ _ H)
      as (rd & w1 & ai & w2 & final & w3 & pt & fmt & now & q
          & _ & _ & _ & _ & ->).
    unfold entry. rewrite DictFacts.get_set_same.
    apply PipelineFacts.metadata_entry_engine. }
  split; [exact Hrun|]. split; [exact Hengine|].
  rewrite Hengine. intros E. inversion E.
Qed.

Lemma successful_report_names_the_emergency_engine_witness :
  exists report,
    pipeline Demo.runtime (init Demo.runtime) Demo.request None
      (fst (time_time Demo.runtime Demo.morning))
      (snd (time_time Demo.runtime Demo.morning))
    = (Ok report, Demo.morning)
    /\ generate_comprehensive_analysis Demo.runtime (init Demo.runtime)
         Demo.request None Demo.morning = (Ok report, Demo.morning)
    /\ entry report "metadata" "analysis_engine"
       = Some (VStr (u8 "Emergency Fallback v2.0")).
Proof.
  eexists. 
  assert (H : pipeline Demo.runtime (init Demo.runtime) Demo.request None
                (fst (time_time Demo.runtime Demo.morning))
                (snd (time_time Demo.runtime Demo.morning))
              = (Ok _, Demo.morning)) by (vm_compute; reflexivity).
  split; [exact H|].
  destruct (successful_report_names_the_emergency_engine _ _ _ _ _ H)
    as (H1 & H2 & _).
  split; [exact H1 | exact H2].
Defined.

(** C10: for every request the sources of the bundle are those the
    free-text phase stored: none, or one for each result of the
    multi-provider search (they are all there when no extraction
    raises); the results of the contextual searches are appended to the
    search results and add no source.  So a request without a free-text
    query has no source, whatever the contextual searches return, and a
    report of the body of the [try] counts none, in ['metadata'] and in
    ['sistemas_utilizados']. *)
Theorem sources_come_from_the_free_text_search_only
  (W : Type) (rt : Runtime W) (self : EnhancedAnalysisEngine) (data : dict)
  (session_id : option pystr) :
  (forall w, exists rd w',
      _collect_comprehensive_data rt self data session_id w = (Ok rd, w')
      /\ sources rd = sources (fst (free_text_bundle rt self data w))
      /\ search_results rd
         = search_results (fst (free_text_bundle rt self data w))
           ++ contextual_results_of rt self data
                (snd (free_text_bundle rt self data w))
      /\ (sources rd = []
          \/ exists results w1,
               search_manager (systems_enabled self) = true
               /\ truthy (Dict.get_default data (u8 "query") VNone) = true
               /\ multi_search rt (Dict.get_default data (u8 "query") VNone)
                    8 w = (Ok results, w1)
               /\ sources rd = map source_of results)
      /\ ((forall url, never_raises (extract_content rt url)) ->
          forall results w1,
            search_manager (systems_enabled self) = true ->
            truthy (Dict.get_default data (u8 "query") VNone) = true ->
            multi_search rt (Dict.get_default data (u8 "query") VNone) 8 w
            = (Ok results, w1) ->
            sources rd = map source_of results
            /\ search_results rd
               = results
                 ++ contextual_results_of rt self data
                      (snd (free_text_bundle rt self data w))))
  /\ (truthy (Dict.get_default data (u8 "query") VNone) = false ->
      (forall w rd w',
          _collect_comprehensive_data rt self data session_id w
          = (Ok rd, w') ->
          sources rd = []
          /\ search_results rd = contextual_results_of rt self data w)
      /\ (forall start_time w report w',
            pipeline rt self data session_id start_time w
            = (Ok report, w') ->
            entry report "metadata" "data_sources_used" = Some (VInt 0)
            /\ entry report "sistemas_utilizados" "total_sources"
               = Some (VInt 0))).
Proof.
  split.
  - intros w.
    exists (fst (collected_item_by_item rt self data w)),
           (snd (collected_item_by_item rt self data w)).
    split; [apply ItemFacts.collect_described|].
    destruct (ItemFacts.collected_sources_and_results rt self data w)
      as [Hs Hr].
    split; [exact Hs|]. split; [exact Hr|].
    rewrite Hs, Hr, ItemFacts.free_text_sources.
    unfold free_text_bundle, free_text_phase.
    destruct (search_manager (systems_enabled self)) eqn:Ef;
      cbn [andb]; [|split; [left; reflexivity | discriminate]].
    destruct (truthy (Dict.get_default data (u8 "query") VNone)) eqn:Eq;
      [|split; [left; reflexivity | discriminate]].
    destruct (multi_search rt (Dict.get_default data (u8 "query") VNone)
                8 w) as [[results|e] w1] eqn:Em.
    + split.
      * destruct (snd (fst (pages_of_items rt None (firstn 15 results) w1)));
          [left; reflexivity|].
        right. exists results, w1. repeat split; reflexivity.
      * intros Hx results' w1' _ _ H. inversion H; subst results' w1'.
        rewrite (ItemFacts.pages_never_cut rt None (firstn 15 results) w1 Hx).
        destruct (pages_of_items rt None (firstn 15 results) w1)
          as [[pages cut] w2].
        split; reflexivity.
    + split; [left; reflexivity|]. intros _ results w1' _ _ H.
      discriminate H.
  - intros Hq. split.
    + intros w rd w' H.
      rewrite ItemFacts.collect_described in H. inversion H; subst.
      destruct (ItemFacts.collected_sources_and_results rt self data w)
        as [Hs Hr].
      rewrite Hs, Hr. unfold free_text_bundle.
      rewrite Hq, andb_false_r. split; reflexivity.
    + intros start_time w report w' H.
      destruct (PipelineFacts.pipeline_shape _ _ _ _ _ _ H)
        as (rd & w1 & ai & w2 & final & w3 & pt & fmt & now & q
            & Hc & _ & Hf & _ & ->).
      assert (Hs : sources rd = [])
        by (eapply CollectFacts.collect_without_query_has_no_sources; eauto).
      destruct (ConsolidateFacts.consolidate_shape _ _ _ _ _ Hf)
        as (c & sa & ss & ins & -> & _).
      unfold entry. split.
      * rewrite DictFacts.get_set_same.
        rewrite PipelineFacts.metadata_entry_sources. now rewrite Hs.
      * rewrite DictFacts.get_set_other
          by (apply PyStrFacts.eqb_neq; vm_compute; reflexivity).
        rewrite DictFacts.get_set_same.
        pose proof (PipelineFacts.sistemas_entry_sources rd sa ss) as Ht.
        destruct (sistemas_utilizados rd sa ss); try discriminate.
        rewrite Ht. now rewrite Hs.
Qed.

Lemma sources_come_from_the_free_text_search_only_witness :
  (exists rd,
      _collect_comprehensive_data Demo.runtime (init Demo.runtime)
        Demo.request None Demo.morning = (Ok rd, Demo.morning)
      /\ sources rd = [source_of Demo.result_a; source_of Demo.result_b]
      /\ search_results rd
         = [Demo.result_a; Demo.result_b; Demo.result_c; Demo.result_c;
            Demo.result_c])
  /\ truthy (Dict.get_default Demo.request_segment_only (u8 "query") VNone)
     = false
  /\ exists rd report,
       _collect_comprehensive_data Demo.runtime (init Demo.runtime)
         Demo.request_segment_only None Demo.morning = (Ok rd, Demo.morning)
       /\ List.length (search_results rd) = 3%nat
       /\ sources rd = []
       /\ pipeline Demo.runtime (init Demo.runtime)
            Demo.request_segment_only None 0%float Demo.morning
          = (Ok report, Demo.morning)
       /\ entry report "metadata" "data_sources_used" = Some (VInt 0)
       /\ entry report "sistemas_utilizados" "total_sources"
          = Some (VInt 0).
Proof.
  split.
  - destruct (sources_come_from_the_free_text_search_only Demo.runtime
                (init Demo.runtime) Demo.request None) as [Hall _].
    destruct (Hall Demo.morning) as (rd & w' & Hc & _ & _ & _ & Hfull).
    assert (Hw : snd (_collect_comprehensive_data Demo.runtime
                        (init Demo.runtime) Demo.request None Demo.morning)
                 = Demo.morning) by (vm_compute; reflexivity).
    rewrite Hc in Hw. cbn [snd] in Hw. subst w'.
    exists rd. split; [exact Hc|].
    destruct (Hfull (fun url w => eq_refl) [Demo.result_a; Demo.result_b]
                Demo.morning eq_refl eq_refl eq_refl) as [Hs Hr].
    split; [exact Hs|]. rewrite Hr. reflexivity.
  - assert (Hq : truthy (Dict.get_default Demo.request_segment_only
                           (u8 "query") VNone) = false) by reflexivity.
    split; [exact Hq|].
    destruct (sources_come_from_the_free_text_search_only Demo.runtime
                (init Demo.runtime) Demo.request_segment_only None)
      as [_ Hno].
    destruct (Hno Hq) as [_ Hp].
    eexists _, _.
    split; [vm_compute; reflexivity|].
    split; [reflexivity|]. split; [reflexivity|].
    assert (H : pipeline Demo.runtime (init Demo.runtime)
                  Demo.request_segment_only None 0%float Demo.morning
                = (Ok _, Demo.morning)) by (vm_compute; reflexivity).
    split; [exact H|]. exact (Hp _ _ _ _ H).
Defined.

(** ** The emergency report *)

Module FallbackFacts.

Section WithRuntime.
Variable W : Type.
Variable rt : Runtime W.

Lemma basic_insights data :
  exists insights,
    Dict.get (_generate_basic_analysis rt data) (u8 "insights_exclusivos")
    = Some (VList insights).
Proof. eexists. reflexivity. Qed.

Lemma emergency_score now sa ss :
  match emergency_metadata now sa ss with
  | VDict d => Dict.get d (u8 "quality_score")
  | _ => None
  end = Some (VFloat 25%float).
Proof. reflexivity. Qed.

(** The emergency report is returned when the two status reads return;
    an exception of a status read goes through. *)
Lemma fallback_run data error w :
  exists basic,
    _generate_fallback_analysis rt data error w
    = match ai_get_provider_status rt (snd (datetime_utcnow rt w)) with
      | (Ok sa, w1) =>
          match search_get_provider_status rt w1 with
          | (Ok ss, w2) =>
              (Ok (Dict.set basic (u8 "metadata")
                     (emergency_metadata (fst (datetime_utcnow rt w)) sa ss)),
               w2)
          | (Raise e, w2) => (Raise e, w2)
          end
      | (Raise e, w1) => (Raise e, w1)
      end.
Proof.
  unfold _generate_fallback_analysis.
  destruct (basic_insights data) as [insights Hi].
  unfold bind, of_res, reading, ret.
  unfold py_append_at at 1. rewrite Hi.
  unfold py_append_at. rewrite DictFacts.get_set_same.
  destruct (datetime_utcnow rt w) as [now w0]. cbn [fst snd].
  eexists.
  destruct (ai_get_provider_status rt w0) as [[sa|e] w1]; [|reflexivity].
  destruct (search_get_provider_status rt w1) as [[ss|e] w2]; reflexivity.
Qed.

End WithRuntime.

End FallbackFacts.

(** X24: what stands between the entry point and its contract: when the two
    provider-status reads return in every state of the world, the entry
    point returns a report whose ['metadata'] has a ['quality_score']
    between 0 and 100, on the path of the [try] and on the emergency
    path alike. *)
Lemma report_returned_when_status_is_readable
  (W : Type) (rt : Runtime W) (self : EnhancedAnalysisEngine) (data : dict)
  (session_id : option pystr) (w : W) :
  never_raises (ai_get_provider_status rt) ->
  never_raises (search_get_provider_status rt) ->
  exists report w' q,
    generate_comprehensive_analysis rt self data session_id w
    = (Ok report, w')
    /\ quality_score_of report = Some (VFloat q)
    /\ in_0_100 q.
Proof.
  intros Ha Hs.
  unfold generate_comprehensive_analysis, bind, reading, try_except.
  destruct (time_time rt w) as [start_time w0].
  destruct (pipeline rt self data session_id start_time w0)
    as [[report|e] w1] eqn:Ep.
  - destruct (PipelineFacts.pipeline_shape _ _ _ _ _ _ Ep)
      as (rd & w2 & ai & w3 & final & w4 & pt & fmt & now & q
          & _ & _ & _ & Hq & ->).
    exists (Dict.set final (u8 "metadata")
              (VDict (Dict.literal (metadata_items self pt fmt now q rd)))),
      w1, q.
    split; [reflexivity|]. split.
    + unfold quality_score_of. rewrite DictFacts.get_set_same.
      apply PipelineFacts.metadata_entry_score.
    + destruct (truthy (VDict final)).
      * now apply quality_score_in_range with (analysis := final).
      * inversion Hq; subst. split; reflexivity.
  - destruct (FallbackFacts.fallback_run rt data (exn_str e) w1)
      as [basic ->].
    specialize (Ha (snd (datetime_utcnow rt w1))).
    destruct (ai_get_provider_status rt (snd (datetime_utcnow rt w1)))
      as [[sa|e'] w2]; [|discriminate].
    specialize (Hs w2).
    destruct (search_get_provider_status rt w2) as [[ss|e'] w3];
      [|discriminate].
    eexists _, w3, 25%float. split; [reflexivity|]. split.
    + unfold quality_score_of. rewrite DictFacts.get_set_same.
      pose proof (FallbackFacts.emergency_score
                    (fst (datetime_utcnow rt w1)) sa ss) as H.
      destruct (emergency_metadata _ sa ss); try discriminate. exact H.
    + split; reflexivity.
Qed.

(** C1, where the code departs from the claim: no model collaborator is
    configured ([ai_manager] is [None], so the flag of the engine is
    false); the analysis stage raises, the handler builds the emergency
    report, and the unguarded [ai_manager.get_provider_status()] in it
    raises: the entry point raises instead of returning a report. *)
Theorem entry_point_raises_without_ai_manager :
  ai_manager (systems_enabled (init Demo.runtime_without_ai)) = false
  /\ result (generate_comprehensive_analysis Demo.runtime_without_ai
               (init Demo.runtime_without_ai) Demo.request None)
       Demo.morning
     = Raise (Demo.none_has_no "get_provider_status").
Proof. split; vm_compute; reflexivity. Qed.

(* ================================================================== *)
(** * Further properties of the code *)

Module FenceFacts.

Lemma starts_with_app (p s : pystr) : PyStr.starts_with p (p ++ s) = true.
Proof.
  induction p as [|x p IH]; simpl; [reflexivity|].
  now rewrite N.eqb_refl.
Qed.

Lemma starts_with_short (sub s : pystr) :
  (List.length s < List.length sub)%nat -> PyStr.starts_with sub s = false.
Proof.
  revert s. induction sub as [|x sub IH]; intros [|y s]; simpl; intros H;
    try lia; try reflexivity.
  rewrite IH by lia. apply andb_false_r.
Qed.

Lemma find_at_start (sub s : pystr) :
  PyStr.starts_with sub s = true -> PyStr.find sub s = Some O.
Proof. intros H. destruct s; simpl in *; now rewrite H. Qed.

Lemma rfind_short (sub s : pystr) :
  (List.length s < List.length sub)%nat -> PyStr.rfind sub s = None.
Proof.
  induction s as [|x s IH]; intros H.
  - simpl. now rewrite starts_with_short.
  - cbn [PyStr.rfind]. rewrite IH by (simpl in H; lia).
    now rewrite starts_with_short.
Qed.

(** The highest occurrence of a text that ends with [sub] is its end. *)
Lemma rfind_at_end (sub pre : pystr) :
  sub <> [] -> PyStr.rfind sub (pre ++ sub) = Some (List.length pre).
Proof.
  intros Hne. induction pre as [|x pre IH].
  - destruct sub as [|c t]; [congruence|].
    cbn [app PyStr.rfind List.length]. rewrite rfind_short by (simpl; lia).
    pose proof (starts_with_app (c :: t) []) as H.
    rewrite app_nil_r in H. now rewrite H.
  - cbn [app PyStr.rfind List.length]. now rewrite IH.
Qed.

Lemma rfind_starts (sub s : pystr) (i : nat) :
  PyStr.rfind sub s = Some i -> PyStr.starts_with sub (skipn i s) = true.
Proof.
  revert i. induction s as [|x s IH]; intros i; cbn [PyStr.rfind].
  - destruct (PyStr.starts_with sub []) eqn:E; intros H; inversion H.
    exact E.
  - destruct (PyStr.rfind sub s) as [j|].
    + intros H; inversion H. simpl. now apply IH.
    + destruct (PyStr.starts_with sub (x :: s)) eqn:E; intros H;
        inversion H. exact E.
Qed.

Lemma rfind_found (sub s : pystr) :
  PyStr.starts_with sub s = true -> exists i, PyStr.rfind sub s = Some i.
Proof.
  intros H. destruct s as [|x s]; cbn [PyStr.rfind].
  - rewrite H. eauto.
  - destruct (PyStr.rfind sub s); [eauto|]. rewrite H. eauto.
Qed.

Lemma contains_later (sub s : pystr) (k : nat) :
  PyStr.starts_with sub (skipn k s) = true -> PyStr.contains sub s = true.
Proof.
  unfold PyStr.contains. revert s.
  induction k as [|k IH]; intros s H.
  - simpl in H. now rewrite find_at_start.
  - destruct s as [|x s].
    + simpl in H. now rewrite find_at_start.
    + simpl in H. specialize (IH s H). cbn [PyStr.find].
      destruct (PyStr.starts_with sub (x :: s)); [reflexivity|].
      destruct (PyStr.find sub s); [reflexivity | discriminate].
Qed.

Lemma slice_middle (a b c : pystr) :
  PyStr.py_slice (Z.of_nat (List.length a))
    (Z.of_nat (List.length (a ++ b))) (a ++ b ++ c) = b.
Proof.
  unfold PyStr.py_slice, PyStr.slice, PyStr.clip.
  rewrite !length_app.
  rewrite (proj2 (Z.ltb_ge (Z.of_nat (List.length a)) 0)) by lia.
  rewrite (proj2 (Z.ltb_ge (Z.of_nat (List.length a + List.length b)) 0))
    by lia.
  rewrite !Nat2Z.id.
  rewrite !Nat.min_l by lia.
  replace (List.length a + List.length b - List.length a)%nat
    with (List.length b) by lia.
  rewrite skipn_app, skipn_all, Nat.sub_diag. simpl.
  rewrite firstn_app, firstn_all, Nat.sub_diag. simpl.
  apply app_nil_r.
Qed.

End FenceFacts.

(** X1: an answer whose stripped text is a fenced block is cut to the
    stripped inside of the block, whatever the inside is: with the
    opening fence [```json], or with the plain opening fence when the
    JSON fence occurs nowhere in the answer. *)
Theorem fenced_answer_is_unwrapped (ai_response opening body : pystr) :
  opening = fence_json
  \/ (opening = fence
      /\ PyStr.contains fence_json (PyStr.strip ai_response) = false) ->
  PyStr.strip ai_response = opening ++ body ++ fence ->
  clean_text ai_response = PyStr.strip body.
Proof.
  intros Hopen Hs. unfold clean_text. rewrite Hs.
  assert (Hstart : PyStr.find_index opening (opening ++ body ++ fence) = 0).
  { unfold PyStr.find_index.
    now rewrite FenceFacts.find_at_start
      by apply FenceFacts.starts_with_app. }
  assert (Hstop : PyStr.rfind_index fence (opening ++ body ++ fence)
                  = Z.of_nat (List.length (opening ++ body))).
  { unfold PyStr.rfind_index. rewrite app_assoc.
    now rewrite FenceFacts.rfind_at_end by discriminate. }
  assert (Hin : PyStr.contains opening (opening ++ body ++ fence) = true).
  { unfold PyStr.contains.
    now rewrite FenceFacts.find_at_start
      by apply FenceFacts.starts_with_app. }
  destruct Hopen as [-> | [-> Hno]].
  - rewrite Hin, Hstart, Hstop.
    change (0 + 7) with (Z.of_nat (List.length fence_json)).
    now rewrite FenceFacts.slice_middle.
  - rewrite <- Hs, Hno, Hs, Hin, Hstart, Hstop.
    change (0 + 3) with (Z.of_nat (List.length fence)).
    now rewrite FenceFacts.slice_middle.
Qed.

Lemma fenced_answer_is_unwrapped_witness :
  (fence_json = fence_json
   \/ (fence_json = fence
       /\ PyStr.contains fence_json (PyStr.strip Demo.answer) = false))
  /\ PyStr.strip Demo.answer
     = fence_json
       ++ (nl ++ u8q "{@escopo@: {@nicho@: @moda@}, @insights_exclusivos@: [@um@, @dois@]}" ++ nl)
       ++ fence
  /\ clean_text Demo.answer
     = PyStr.strip
         (nl ++ u8q "{@escopo@: {@nicho@: @moda@}, @insights_exclusivos@: [@um@, @dois@]}" ++ nl).
Proof.
  assert (H1 : fence_json = fence_json
               \/ (fence_json = fence
                   /\ PyStr.contains fence_json (PyStr.strip Demo.answer)
                      = false)) by (left; reflexivity).
  assert (H2 : PyStr.strip Demo.answer
               = fence_json
                 ++ (nl ++ u8q "{@escopo@: {@nicho@: @moda@}, @insights_exclusivos@: [@um@, @dois@]}" ++ nl)
                 ++ fence) by (vm_compute; reflexivity).
  split; [exact H1|]. split; [exact H2|].
  exact (@fenced_answer_is_unwrapped _ _ _ H1 H2).
Defined.

(** X2: an answer that opens a JSON fence and never closes it is cut to
    the empty text: the last fence found is the opening one, so the text
    between the fences is empty. *)
Theorem unterminated_fence_leaves_nothing (ai_response body : pystr) :
  PyStr.strip ai_response = fence_json ++ body ->
  PyStr.contains fence body = false ->
  clean_text ai_response = [].
Proof.
  intros Hs Hno. unfold clean_text. rewrite Hs.
  assert (Hin : PyStr.contains fence_json (fence_json ++ body) = true).
  { unfold PyStr.contains.
    now rewrite FenceFacts.find_at_start
      by apply FenceFacts.starts_with_app. }
  assert (Hstart : PyStr.find_index fence_json (fence_json ++ body) = 0).
  { unfold PyStr.find_index.
    now rewrite FenceFacts.find_at_start
      by apply FenceFacts.starts_with_app. }
  assert (Hstop : PyStr.rfind_index fence (fence_json ++ body) = 0).
  { unfold PyStr.rfind_index.
    destruct (@FenceFacts.rfind_found fence (fence_json ++ body) eq_refl)
      as [i Hi].
    rewrite Hi. pose proof (@FenceFacts.rfind_starts _ _ _ Hi) as Hat.
    do 7 (destruct i as [|i]; [reflexivity || discriminate Hat|]).
    change (skipn (S (S (S (S (S (S (S i))))))) (fence_json ++ body))
      with (skipn i body) in Hat.
    apply FenceFacts.contains_later in Hat. congruence. }
  rewrite Hin, Hstart, Hstop.
  unfold PyStr.py_slice, PyStr.slice, PyStr.clip. simpl (0 <? 0).
  simpl (0 + 7 <? 0). rewrite Nat.min_0_l. reflexivity.
Qed.

Lemma unterminated_fence_leaves_nothing_witness :
  PyStr.strip (u8 "```json {}") = fence_json ++ u8 " {}"
  /\ PyStr.contains fence (u8 " {}") = false
  /\ clean_text (u8 "```json {}") = [].
Proof.
  assert (H1 : PyStr.strip (u8 "```json {}") = fence_json ++ u8 " {}")
    by (vm_compute; reflexivity).
  assert (H2 : PyStr.contains fence (u8 " {}") = false)
    by (vm_compute; reflexivity).
  split; [exact H1|]. split; [exact H2|].
  exact (@unterminated_fence_leaves_nothing _ _ H1 H2).
Defined.

(** X3: when [json.loads] rejects the text between the fences, the answer
    is kept for debugging and nothing else of it is used: the reduced
    result is returned without reading the clock, its ['raw_ai_response']
    is the first 1000 characters of the answer as received (not
    stripped), it has no ['metadata_ai'], and two answers with the same
    first 1000 characters give the same result. *)
Theorem undecodable_answer_gives_the_reduced_result
  (W : Type) (rt : Runtime W) (ai_response : pystr) (data : dict) (w : W)
  (e : exn) :
  json_loads rt (clean_text ai_response) = Raise e ->
  exn_cls e = JSONDecodeError ->
  exists reduced,
    _process_ai_response rt ai_response data w = (Ok reduced, w)
    /\ Dict.get reduced (u8 "raw_ai_response")
       = Some (VStr (PyStr.prefix 1000 ai_response))
    /\ PyStr.len (PyStr.prefix 1000 ai_response) <= 1000
    /\ Dict.mem (u8 "metadata_ai") reduced = false
    /\ (forall other,
          PyStr.prefix 1000 other = PyStr.prefix 1000 ai_response ->
          _extract_structured_analysis rt other data = reduced).
Proof.
  intros Hj Hc.
  pose proof (RecoverFacts.process_ai_response_cases rt ai_response data w)
    as H.
  rewrite Hj, Hc in H.
  exists (_extract_structured_analysis rt ai_response data).
  split; [exact H|].
  split; [reflexivity|].
  split; [apply PyStrFacts.prefix_length; lia|].
  split; [reflexivity|].
  intros other Ho. unfold _extract_structured_analysis. now rewrite Ho.
Qed.

Lemma undecodable_answer_gives_the_reduced_result_witness :
  json_loads Demo.runtime (clean_text (u8 "Desculpe, sem JSON."))
  = Raise Json.decode_error
  /\ exn_cls Json.decode_error = JSONDecodeError
  /\ exists reduced,
       _process_ai_response Demo.runtime (u8 "Desculpe, sem JSON.")
         Demo.request Demo.morning = (Ok reduced, Demo.morning)
       /\ Dict.get reduced (u8 "raw_ai_response")
          = Some (VStr (PyStr.prefix 1000 (u8 "Desculpe, sem JSON."))).
Proof.
  assert (H1 : json_loads Demo.runtime
                 (clean_text (u8 "Desculpe, sem JSON."))
               = Raise Json.decode_error) by (vm_compute; reflexivity).
  split; [exact H1|]. split; [reflexivity|].
  destruct (@undecodable_answer_gives_the_reduced_result
              _ Demo.runtime _ Demo.request Demo.morning _ H1 eq_refl)
    as (reduced & Hr & Hraw & _).
  exists reduced. split; [exact Hr | exact Hraw].
Defined.

(** X4: when [json.loads] returns an object, the object is returned with
    ['metadata_ai'] set to the block stamped with the clock reading, every
    other key as decoded; a ['metadata_ai'] the model supplied is
    replaced. *)
Theorem decoded_object_keeps_its_keys
  (W : Type) (rt : Runtime W) (ai_response : pystr) (data : dict) (w : W)
  (decoded : dict) :
  json_loads rt (clean_text ai_response) = Ok (VDict decoded) ->
  exists analysis,
    _process_ai_response rt ai_response data w
    = (Ok analysis, snd (datetime_now rt w))
    /\ Dict.get analysis (u8 "metadata_ai")
       = Some (metadata_ai (fst (datetime_now rt w)))
    /\ (forall key, key <> u8 "metadata_ai" ->
          Dict.get analysis key = Dict.get decoded key).
Proof.
  intros Hj.
  pose proof (RecoverFacts.process_ai_response_cases rt ai_response data w)
    as H.
  rewrite Hj in H.
  eexists. split; [exact H|]. split.
  - apply DictFacts.get_set_same.
  - intros key Hk. apply DictFacts.get_set_other. congruence.
Qed.

Lemma decoded_object_keeps_its_keys_witness :
  exists decoded analysis,
    json_loads Demo.runtime (clean_text Demo.answer) = Ok (VDict decoded)
    /\ Dict.get decoded (u8 "escopo")
       = Some (VDict [(u8 "nicho", VStr (u8 "moda"))])
    /\ _process_ai_response Demo.runtime Demo.answer Demo.request
         Demo.morning
       = (Ok analysis, Demo.morning)
    /\ Dict.get analysis (u8 "metadata_ai")
       = Some (metadata_ai Demo.morning)
    /\ Dict.get analysis (u8 "escopo") = Dict.get decoded (u8 "escopo").
Proof.
  eexists.
  assert (H1 : json_loads Demo.runtime (clean_text Demo.answer)
               = Ok (VDict _)) by (vm_compute; reflexivity).
  destruct (@decoded_object_keeps_its_keys
              _ Demo.runtime _ Demo.request Demo.morning _ H1)
    as (analysis & Hr & Hm & Hk).
  exists analysis.
  split; [exact H1|]. split; [vm_compute; reflexivity|].
  split; [exact Hr|]. split; [exact Hm|].
  apply Hk. apply PyStrFacts.eqb_neq. vm_compute. reflexivity.
Defined.

Module LoopFacts.
Section WithState.
Context {S : Type}.


(** A quantity that each run of the body raises by at most [step] is
    raised by the loop by at most [step] for each element. *)
Lemma for_each_grows {X} (P : nat -> S -> Prop) (step : nat)
  (body : X -> M S unit) (xs : list X) :
  (forall n s, P n s -> P (Datatypes.S n) s) ->
  (forall x n s, In x xs -> P n s -> P (n + step)%nat (snd (body x s))) ->
  forall n s, P n s ->
    P (n + step * List.length xs)%nat (snd (for_each xs body s)).
Proof.
  intros Hmono.
  assert (Hm : forall k n s, P n s -> P (n + k)%nat s).
  { induction k as [|k IHk]; intros n s H.
    - now rewrite Nat.add_0_r.
    - rewrite Nat.add_succ_r. apply Hmono, IHk, H. }
  induction xs as [|x xs IH]; intros Hb n s Hs; simpl.
  - rewrite Nat.mul_0_r, Nat.add_0_r. exact Hs.
  - unfold bind.
    assert (H : P (n + step)%nat (snd (body x s)))
      by (apply Hb; simpl; auto).
    destruct (body x s) as [[[]|e] s']; simpl in *.
    + replace (n + step * Datatypes.S (List.length xs))%nat
        with ((n + step) + step * List.length xs)%nat by lia.
      apply IH; [|exact H]. intros y m s0 Hy. apply Hb. simpl. auto.
    + replace (n + step * Datatypes.S (List.length xs))%nat
        with ((n + step) + step * List.length xs)%nat by lia.
      now apply Hm.
Qed.

End WithState.
End LoopFacts.

Module BundleFacts.
Section WithRuntime.
Variable W : Type.
Variable rt : Runtime W.

Lemma content_truthy_some c s : content_truthy c = Some s -> s <> [].
Proof.
  destruct c as [[|x c]|]; simpl; intros H; inversion H. discriminate.
Qed.

(** What one extraction does to the dictionary: nothing, or it appends
    the page of the result with a content that is not empty. *)
Lemma extract_one_state cq r (s : collecting W) :
  fst (snd (extract_one rt cq r s)) = fst s
  \/ exists content,
       content <> []
       /\ fst (snd (extract_one rt cq r s))
          = append_page (page_of cq r content) (fst s).
Proof.
  destruct s as [rd w]. unfold extract_one, bind, on_snd. simpl.
  destruct (extract_content rt (sr_url r) w) as [[c|e] w']; simpl; auto.
  destruct (content_truthy c) as [content|] eqn:E; simpl; auto.
  right. exists content. split; [|reflexivity].
  now apply content_truthy_some in E.
Qed.

Lemma extract_one_keeps_good (P : ResearchData -> Prop) cq r :
  kept_by_updates P ->
  forall s, on_data P s -> on_data P (snd (extract_one rt cq r s)).
Proof.
  intros (_ & _ & _ & Hp) s Hs. unfold on_data in *.
  destruct (extract_one_state cq r s) as [-> | (c & Hc & ->)]; auto.
Qed.

Lemma collect_body_keeps (P : ResearchData -> Prop) self data :
  kept_by_updates P ->
  forall s, on_data P s -> on_data P (snd (collect_body rt self data s)).
Proof.
  intros HP s Hs. pose proof HP as (Hset & Hext & Hsrc & Hp).
  assert (Hloop : forall cq xs s,
             on_data P s ->
             on_data P (snd (for_each xs (extract_one rt cq) s))).
  { intros cq xs s0 Hs0. apply (RunFacts.for_each_keeps (on_data P)); auto.
    intros x s1. now apply extract_one_keeps_good. }
  unfold collect_body. apply RunFacts.bind_keeps.
  - destruct (_ && _); [|exact Hs].
    rewrite RunFacts.logged_returns. cbn [snd].
    unfold multi_provider_search. apply RunFacts.bind_keeps.
    + destruct s as [rd w]. unfold on_snd, on_data in *. simpl.
      destruct (multi_search rt _ 8 w) as [[c|e] w']; simpl; auto.
    + intros results [rd1 w1] H1. apply RunFacts.bind_keeps.
      * unfold on_data in *. simpl. auto.
      * intros _ s2 H2. apply RunFacts.bind_keeps; auto.
        intros _ [rd3 w3] H3. unfold on_data in *. simpl. auto.
  - intros _ s1 Hs1. destruct (_ && _); [|exact Hs1].
    rewrite RunFacts.logged_returns. cbn [snd].
    unfold contextual_searches.
    apply (RunFacts.for_each_keeps (on_data P)); auto.
    intros query s2 Hs2. unfold contextual_search.
    apply RunFacts.bind_keeps.
    + destruct s2 as [rd w]. unfold on_snd, on_data in *. simpl.
      destruct (search rt query 5 w) as [[c|e] w']; simpl; auto.
    + intros results [rd3 w3] H3. apply RunFacts.bind_keeps; auto.
      unfold on_data in *. simpl. auto.
Qed.

Lemma collect_keeps (P : ResearchData -> Prop) self data session_id w rd w' :
  kept_by_updates P -> P empty_research_data ->
  _collect_comprehensive_data rt self data session_id w = (Ok rd, w') ->
  P rd.
Proof.
  intros HP H0. unfold _collect_comprehensive_data.
  pose proof (@collect_body_keeps P self data HP (empty_research_data, w) H0)
    as H.
  destruct (collect_body rt self data (empty_research_data, w))
    as [[[]|e] [rd0 w0]]; intros E; inversion E; subst; exact H.
Qed.

Lemma content_chars_app pages p :
  content_chars (pages ++ [p])
  = content_chars pages + PyStr.len (ep_content p).
Proof.
  unfold content_chars. induction pages as [|q pages IH]; simpl; lia.
Qed.

Lemma pages_within_more results n (s : collecting W) :
  pages_within results n s -> pages_within results (S n) s.
Proof. intros [H1 H2]. split; [lia | exact H2]. Qed.

Lemma extract_one_within results cq r n (s : collecting W) :
  pages_within results n s ->
  pages_within results (n + 1) (snd (extract_one rt cq r s)).
Proof.
  intros [H1 H2]. unfold pages_within.
  destruct (extract_one_state cq r s) as [-> | (c & Hc & ->)].
  - split; [lia | exact H2].
  - simpl. rewrite length_app. simpl. split; [lia | exact H2].
Qed.

(** A loop of extractions over [xs] adds at most one page for each
    element, and leaves the search results alone. *)
Lemma extraction_loop_within results cq xs n (s : collecting W) :
  pages_within results n s ->
  pages_within results (n + List.length xs)
    (snd (for_each xs (extract_one rt cq) s)).
Proof.
  intros H.
  pose proof (@LoopFacts.for_each_grows _ _ (pages_within results) 1
                (extract_one rt cq) xs (@pages_within_more results)) as G.
  rewrite Nat.mul_1_l in G. apply G; auto.
  intros x m s0 _. apply extract_one_within.
Qed.

Lemma pages_bounded_more n (s : collecting W) : pages_bounded n s -> pages_bounded (S n) s.
Proof. intros [H1 H2]. split; [lia | exact H2]. Qed.

Lemma multi_provider_search_bounded query (s : collecting W) :
  extracted_content (fst s) = [] ->
  pages_bounded 15 (snd (multi_provider_search rt query s)).
Proof.
  destruct s as [rd w]. cbn [fst]. intros Hp.
  unfold multi_provider_search, bind, on_snd. cbn [fst snd].
  destruct (multi_search rt query 8 w) as [[results|e] w1].
  2: { unfold pages_bounded. cbn [fst snd]. rewrite Hp. simpl. lia. }
  unfold update at 1, modify. cbn [fst snd].
  assert (H : pages_within results
                (0 + List.length (firstn 15 results))
                (snd (for_each (firstn 15 results) (extract_one rt None)
                        (set_search_results results rd, w1)))).
  { apply extraction_loop_within.
    split; cbn [fst]; [simpl; rewrite Hp; simpl; lia | reflexivity]. }
  assert (Hle : (List.length (firstn 15 results) <= 15)%nat
                /\ (List.length (firstn 15 results)
                    <= List.length results)%nat)
    by (rewrite length_firstn; lia).
  remember (firstn 15 results) as top eqn:Etop. clear Etop.
  destruct (for_each top (extract_one rt None)
              (set_search_results results rd, w1)) as [[[]|e] [rd2 w2]];
    destruct H as [H1 H2]; cbn [fst snd] in *; unfold pages_bounded;
    unfold update, modify; cbn [fst snd];
    cbn [set_sources extracted_content search_results];
    rewrite ?H2; lia.
Qed.

Lemma contextual_search_bounded query n (s : collecting W) :
  pages_bounded n s ->
  pages_bounded (n + 3) (snd (contextual_search rt query s)).
Proof.
  destruct s as [rd w]. intros [H1 H2]. cbn [fst] in *.
  unfold contextual_search, bind, on_snd. cbn [fst snd].
  destruct (search rt query 5 w) as [[results|e] w1].
  2: { unfold pages_bounded. cbn [fst snd]. lia. }
  unfold update at 1, modify. cbn [fst snd].
  assert (H : pages_within (search_results rd ++ results)
                (List.length (extracted_content rd)
                 + List.length (firstn 3 results))
                (snd (for_each (firstn 3 results)
                        (extract_one rt (Some query))
                        (extend_search_results results rd, w1)))).
  { apply extraction_loop_within.
    split; cbn [fst]; [simpl; lia | reflexivity]. }
  assert (Hle : (List.length (firstn 3 results) <= 3)%nat
                /\ (List.length (firstn 3 results)
                    <= List.length results)%nat)
    by (rewrite length_firstn; lia).
  remember (firstn 3 results) as top eqn:Etop. clear Etop.
  destruct (for_each top (extract_one rt (Some query))
              (extend_search_results results rd, w1))
    as [[[]|e] [rd2 w2]];
    destruct H as [H3 H4]; cbn [fst snd] in *; unfold pages_bounded;
    cbn [fst snd]; rewrite ?H4, ?length_app; lia.
Qed.

Lemma contextual_searches_bounded segmento n (s : collecting W) :
  pages_bounded n s ->
  pages_bounded (n + 9) (snd (contextual_searches rt segmento s)).
Proof.
  intros H. unfold contextual_searches.
  pose proof (@LoopFacts.for_each_grows _ _ pages_bounded 3
                (contextual_search rt) (contextual_queries rt segmento)
                pages_bounded_more) as G.
  apply G; auto. intros x m s0 _. apply contextual_search_bounded.
Qed.

Lemma collect_body_bounded self data w :
  pages_bounded
    ((if truthy (Dict.get_default data (u8 "query") VNone) then 15 else 0)
     + (if truthy (Dict.get_default data (u8 "segmento") VNone)
        then 9 else 0))
    (snd (collect_body rt self data (empty_research_data, w))).
Proof.
  unfold collect_body, bind.
  pose proof (@multi_provider_search_bounded
                (Dict.get_default data (u8 "query") VNone)
                (empty_research_data, w) eq_refl) as H1.
  assert (H0 : pages_bounded 0 (empty_research_data, w))
    by (split; simpl; lia).
  destruct (search_manager (systems_enabled self));
    destruct (truthy (Dict.get_default data (u8 "query") VNone));
    destruct (truthy (Dict.get_default data (u8 "segmento") VNone));
    cbn [andb]; cbv iota;
    rewrite ?RunFacts.logged_returns; unfold ret; cbn [snd];
    rewrite ?RunFacts.logged_returns; cbn [snd];
    try (split; simpl; lia).
  - now apply contextual_searches_bounded.
  - rewrite Nat.add_0_r. exact H1.
  - now apply (@contextual_searches_bounded _ 0).
Qed.







End WithRuntime.
End BundleFacts.

(** X5: the running total of the bundle is the number of characters of
    the contents of its pages, and no page has an empty content, also
    when a phase was cut short by an exception. *)
Theorem bundle_total_is_the_sum_of_its_pages
  (W : Type) (rt : Runtime W) (self : EnhancedAnalysisEngine) (data : dict)
  (session_id : option pystr) (w : W) :
  exists rd w',
    _collect_comprehensive_data rt self data session_id w = (Ok rd, w')
    /\ total_content_length rd = content_chars (extracted_content rd)
    /\ Forall (fun p => ep_content p <> []) (extracted_content rd)
    /\ Z.of_nat (List.length (extracted_content rd))
       <= total_content_length rd.
Proof.
  destruct (CollectFacts.collect_returns rt self data session_id w)
    as (rd & w' & H).
  exists rd, w'. split; [exact H|].
  assert (HP : total_content_length rd = content_chars (extracted_content rd)
               /\ Forall (fun p => ep_content p <> [])
                    (extracted_content rd)).
  { apply (@BundleFacts.collect_keeps W rt
             (fun rd => total_content_length rd
                        = content_chars (extracted_content rd)
                        /\ Forall (fun p => ep_content p <> [])
                             (extracted_content rd))
             self data session_id w rd w'); [ | | exact H].
    - split; [|split; [|split]]; try (intros l rd0 H0; exact H0).
      intros cq r c rd0 Hc [Ht Hf]. simpl. split.
      + rewrite BundleFacts.content_chars_app. simpl. lia.
      + apply Forall_app. split; auto.
    - split; [reflexivity | constructor]. }
  destruct HP as [Ht Hf]. split; [exact Ht|]. split; [exact Hf|].
  rewrite Ht. clear Ht H. induction Hf as [|p pages Hp Hf IH]; simpl.
  - lia.
  - assert (1 <= PyStr.len (ep_content p)).
    { unfold PyStr.len. destruct (ep_content p); [congruence | simpl; lia]. }
    unfold content_chars in *. simpl. lia.
Qed.

(** X6: the extraction work is bounded: at most 15 pages come from the
    free-text search and at most 9 from the contextual searches (none
    from a phase the request does not start), and the bundle never holds
    more pages than search results. *)
Theorem extraction_is_bounded
  (W : Type) (rt : Runtime W) (self : EnhancedAnalysisEngine) (data : dict)
  (session_id : option pystr) (w : W) :
  exists rd w',
    _collect_comprehensive_data rt self data session_id w = (Ok rd, w')
    /\ (List.length (extracted_content rd)
        <= (if truthy (Dict.get_default data (u8 "query") VNone)
            then 15 else 0)
           + (if truthy (Dict.get_default data (u8 "segmento") VNone)
              then 9 else 0))%nat
    /\ (List.length (extracted_content rd) <= 24)%nat
    /\ (List.length (extracted_content rd)
        <= List.length (search_results rd))%nat.
Proof.
  destruct (CollectFacts.collect_returns rt self data session_id w)
    as (rd & w' & H).
  exists rd, w'. split; [exact H|].
  pose proof (BundleFacts.collect_body_bounded rt self data w) as [H1 H2].
  unfold _collect_comprehensive_data in H.
  destruct (collect_body rt self data (empty_research_data, w))
    as [[[]|e] [rd0 w0]]; inversion H; subst; simpl in *.
  split; [exact H1|]. split; [|exact H2].
  destruct (truthy (Dict.get_default data (u8 "query") VNone)),
    (truthy (Dict.get_default data (u8 "segmento") VNone)); lia.
Qed.


Module ContextFacts.

Lemma render_pages_view i pages1 pages2 :
  map page_view pages1 = map page_view pages2 ->
  render_pages i pages1 = render_pages i pages2.
Proof.
  revert i pages2.
  induction pages1 as [|p pages1 IH]; intros i [|q pages2] H;
    try discriminate; [reflexivity|].
  simpl in H. inversion H as [[Ht Hu Hc Hrest]].
  cbn [render_pages]. rewrite Ht, Hu, Hc. now rewrite (IH _ _ Hrest).
Qed.

Lemma render_results_view results1 results2 :
  map result_view results1 = map result_view results2 ->
  render_results results1 = render_results results2.
Proof.
  revert results2.
  induction results1 as [|p results1 IH]; intros [|q results2] H;
    try discriminate; [reflexivity|].
  simpl in H. inversion H as [[Ht Hs Hrest]].
  cbn [render_results]. rewrite Ht, Hs. now rewrite (IH _ Hrest).
Qed.

Lemma map_firstn_nil {A B} (f : A -> B) (n : nat) (l1 l2 : list A) :
  map f (firstn (S n) l1) = map f (firstn (S n) l2) ->
  (l1 = [] <-> l2 = []).
Proof.
  destruct l1, l2; simpl; intros H; try discriminate;
    split; intros E; congruence.
Qed.

End ContextFacts.

(** X8: the research context is empty exactly for a bundle without pages
    and without search results, and this is when the prompt reports no
    source consulted. *)
Theorem context_is_empty_exactly_for_an_empty_bundle (rd : ResearchData) :
  (search_context_of rd = []
   <-> extracted_content rd = [] /\ search_results rd = [])
  /\ (fontes_consultadas (search_context_of rd) = 0
      <-> extracted_content rd = [] /\ search_results rd = []).
Proof.
  assert (H : search_context_of rd = []
              <-> extracted_content rd = [] /\ search_results rd = []).
  { unfold search_context_of.
    destruct (extracted_content rd) as [|p pages];
      destruct (search_results rd) as [|r results]; simpl;
      split; try tauto; try (intros [? ?]; discriminate);
      intros E; discriminate. }
  split; [exact H|].
  rewrite <- H. unfold fontes_consultadas.
  destruct (search_context_of rd) as [|c ctx]; [tauto|].
  unfold PyStr.split_count. split; [lia | discriminate].
Qed.

(** X9: the research context shows only the first 10 pages (title, URL
    and the first 1500 characters of the content), the first 15 search
    results (title and the first 200 characters of the snippet) and the
    number of search results: two bundles that agree on these have the
    same context. *)
Theorem context_shows_a_bounded_view (rd1 rd2 : ResearchData) :
  map page_view (firstn 10 (extracted_content rd1))
  = map page_view (firstn 10 (extracted_content rd2)) ->
  map result_view (firstn 15 (search_results rd1))
  = map result_view (firstn 15 (search_results rd2)) ->
  List.length (search_results rd1) = List.length (search_results rd2) ->
  search_context_of rd1 = search_context_of rd2.
Proof.
  intros Hp Hr Hn. unfold search_context_of.
  pose proof (ContextFacts.map_firstn_nil _ _ _ _ Hp) as Ep.
  pose proof (ContextFacts.map_firstn_nil _ _ _ _ Hr) as Er.
  apply ContextFacts.render_pages_view with (i := 1) in Hp.
  apply ContextFacts.render_results_view in Hr.
  f_equal.
  - revert Hp Ep.
    destruct (extracted_content rd1) as [|p1 l1];
      destruct (extracted_content rd2) as [|p2 l2]; intros Hp Ep; auto.
    + destruct Ep as [Ep _]. specialize (Ep eq_refl). discriminate.
    + destruct Ep as [_ Ep]. specialize (Ep eq_refl). discriminate.
    + now rewrite Hp.
  - revert Hr Er Hn.
    destruct (search_results rd1) as [|p1 l1];
      destruct (search_results rd2) as [|p2 l2]; intros Hr Er Hn; auto.
    + destruct Er as [Er _]. specialize (Er eq_refl). discriminate.
    + destruct Er as [_ Er]. specialize (Er eq_refl). discriminate.
    + now rewrite Hr, Hn.
Qed.

Module UrlFacts.

Lemma split1_not_empty sep s : PyStr.split1 sep s <> [].
Proof.
  induction s as [|c s IH]; simpl; [discriminate|].
  destruct (c =? sep)%N; [discriminate|].
  destruct (PyStr.split1 sep s); discriminate.
Qed.

Lemma split1_no_sep sep s :
  ~ In sep s -> PyStr.split1 sep s = [s].
Proof.
  induction s as [|c s IH]; intros H; simpl; [reflexivity|].
  destruct (N.eqb_spec c sep) as [->|ne]; [exfalso; apply H; now left|].
  rewrite IH by (intros Hin; apply H; now right). reflexivity.
Qed.

Lemma split1_at_sep sep a b :
  ~ In sep a -> PyStr.split1 sep (a ++ sep :: b) = a :: PyStr.split1 sep b.
Proof.
  induction a as [|c a IH]; intros H; simpl.
  - now rewrite N.eqb_refl.
  - destruct (N.eqb_spec c sep) as [->|ne]; [exfalso; apply H; now left|].
    rewrite IH by (intros Hin; apply H; now right). reflexivity.
Qed.

Lemma split1_length s :
  List.length (PyStr.split1 47%N s) = S (slashes s).
Proof.
  unfold slashes. induction s as [|c s IH]; simpl; [reflexivity|].
  destruct (c =? 47)%N; simpl; [now rewrite IH|].
  destruct (PyStr.split1 47%N s) eqn:E; simpl in *; [discriminate | exact IH].
Qed.

End UrlFacts.

Lemma context_shows_a_bounded_view_witness :
  search_context_of Demo.bundle = search_context_of Demo.bundle_mirror.
Proof.
  apply context_shows_a_bounded_view; vm_compute; reflexivity.
Defined.

(** X10: the domain the diversity insight counts is the text between the
    second and the third slash of the URL: for a URL written
    [scheme://host], alone or followed by a path, it is the host. *)
Theorem domain_is_the_host_of_the_url (r : SearchResult)
  (scheme host rest : pystr) :
  ~ In 47%N scheme -> ~ In 47%N host ->
  rest = [] \/ (exists path, rest = 47%N :: path) ->
  sr_url r = scheme ++ u8 "://" ++ host ++ rest ->
  domain_of r = Some host.
Proof.
  intros Hs Hh Hrest Hu. unfold domain_of. rewrite Hu.
  change (u8 "://") with ([58%N] ++ [47%N; 47%N]).
  rewrite <- app_assoc, app_assoc.
  change (([47%N; 47%N] ++ host ++ rest))
    with (47%N :: (47%N :: host ++ rest)).
  rewrite UrlFacts.split1_at_sep.
  2: { intros Hin. apply in_app_or in Hin.
       destruct Hin as [Hin|[Hin|[]]]; [now apply Hs | discriminate]. }
  change (47%N :: host ++ rest) with ([] ++ 47%N :: host ++ rest).
  rewrite UrlFacts.split1_at_sep by (intros []).
  destruct Hrest as [-> | [path ->]].
  - rewrite app_nil_r, UrlFacts.split1_no_sep by assumption. reflexivity.
  - rewrite UrlFacts.split1_at_sep by assumption. reflexivity.
Qed.

Lemma domain_is_the_host_of_the_url_witness :
  domain_of Demo.result_a = Some (u8 "moda.example").
Proof.
  apply (@domain_is_the_host_of_the_url Demo.result_a
           (u8 "https") (u8 "moda.example") (u8 "/tendencias")).
  - vm_compute. intuition discriminate.
  - vm_compute. intuition discriminate.
  - right. exists (u8 "tendencias"). vm_compute; reflexivity.
  - vm_compute; reflexivity.
Defined.

(** X11: a search result has no domain, and is left out of the count of
    the diversity insight, exactly when its URL has fewer than two
    slashes. *)
Theorem url_without_two_slashes_has_no_domain (r : SearchResult) :
  domain_of r = None <-> (slashes (sr_url r) < 2)%nat.
Proof.
  unfold domain_of. rewrite nth_error_None, UrlFacts.split1_length. lia.
Qed.

Module EmbedFacts.

Lemma prefix_nil (n : Z) (s : pystr) :
  0 < n -> (PyStr.prefix n s = [] <-> s = []).
Proof.
  intros Hn. unfold PyStr.prefix.
  destruct (Z.to_nat n) as [|k] eqn:E; [lia|].
  destruct s; simpl; split; intros H; congruence.
Qed.

End EmbedFacts.

(** X12: the prompt carries at most the first 12000 characters of the
    research context, and reads nothing else of it than the number of
    its parts between [---]: two contexts with the same first 12000
    characters and the same number of parts give the same prompt. *)
Theorem prompt_embeds_at_most_12000_characters
  (W : Type) (rt : Runtime W) (data : dict) (context1 context2 : pystr)
  (now : datetime) :
  PyStr.prefix 12000 context1 = PyStr.prefix 12000 context2 ->
  PyStr.split_count (u8 "---") context1
  = PyStr.split_count (u8 "---") context2 ->
  prompt_text rt data context1 now = prompt_text rt data context2 now
  /\ (context1 <> [] ->
      embedded_context context1 = PyStr.prefix 12000 context1)
  /\ PyStr.len (embedded_context context1) <= 12000.
Proof.
  intros Hp Hc.
  assert (He : context1 = [] <-> context2 = []).
  { rewrite <- (@EmbedFacts.prefix_nil 12000 context1) by lia.
    rewrite <- (@EmbedFacts.prefix_nil 12000 context2) by lia.
    rewrite Hp. tauto. }
  split; [|split].
  - unfold prompt_text, embedded_context, fontes_consultadas.
    destruct context1 as [|c1 s1], context2 as [|c2 s2].
    + reflexivity.
    + destruct He as [He _]. discriminate (He eq_refl).
    + destruct He as [_ He]. discriminate (He eq_refl).
    + rewrite Hp, Hc. reflexivity.
  - intros Hne. unfold embedded_context.
    destruct context1; [congruence | reflexivity].
  - unfold embedded_context.
    destruct context1 as [|c1 s1].
    + vm_compute. discriminate.
    + apply PyStrFacts.prefix_length. lia.
Qed.

Lemma prompt_embeds_at_most_12000_characters_witness :
  prompt_text Demo.runtime Demo.request
    (Demo.long_text ++ u8 " e mais") Demo.morning
  = prompt_text Demo.runtime Demo.request
      (Demo.long_text ++ u8 " e ainda mais") Demo.morning.
Proof.
  apply (@prompt_embeds_at_most_12000_characters _ Demo.runtime
           Demo.request (Demo.long_text ++ u8 " e mais")
           (Demo.long_text ++ u8 " e ainda mais") Demo.morning);
    vm_compute; reflexivity.
Defined.

(** X13: without the search collaborator, or for a request with neither a
    query nor a segment, nothing is collected and no collaborator is
    called: the bundle is the empty one and the world is unchanged. *)
Theorem nothing_is_collected_without_search
  (W : Type) (rt : Runtime W) (self : EnhancedAnalysisEngine) (data : dict)
  (session_id : option pystr) (w : W) :
  search_manager (systems_enabled self) = false
  \/ (truthy (Dict.get_default data (u8 "query") VNone) = false
      /\ truthy (Dict.get_default data (u8 "segmento") VNone) = false) ->
  _collect_comprehensive_data rt self data session_id w
  = (Ok empty_research_data, w).
Proof.
  intros H. unfold _collect_comprehensive_data, collect_body.
  destruct H as [-> | [-> ->]]; rewrite ?andb_false_r; reflexivity.
Qed.

Lemma nothing_is_collected_without_search_witness :
  _collect_comprehensive_data Demo.runtime (init Demo.runtime)
    (Dict.literal [ (u8 "produto", VStr (u8 "curso")) ]) None Demo.morning
  = (Ok empty_research_data, Demo.morning).
Proof.
  apply nothing_is_collected_without_search.
  right. split; vm_compute; reflexivity.
Defined.

Module DistinctFacts.

Lemma in_distinct x xs : In x (distinct xs) <-> In x xs.
Proof.
  induction xs as [|y xs IH]; simpl; [tauto|].
  rewrite filter_In, IH.
  destruct (PyStrFacts.eqb_spec y x) as [->|ne]; simpl.
  - split; [intros [?|[? ?]]; auto | auto].
  - split; [intros [?|[? ?]]; auto | intros [?|?]; auto].
Qed.

Lemma nodup_filter {A} (f : A -> bool) l : NoDup l -> NoDup (filter f l).
Proof.
  induction 1 as [|x l Hx Hl IH]; simpl; [constructor|].
  destruct (f x); [constructor|]; auto.
  rewrite filter_In. tauto.
Qed.

Lemma nodup_distinct xs : NoDup (distinct xs).
Proof.
  induction xs as [|y xs IH]; simpl; constructor.
  - rewrite filter_In. intros [_ H].
    now rewrite PyStrFacts.eqb_refl in H.
  - now apply nodup_filter.
Qed.

Lemma filter_length {A} (f : A -> bool) l :
  (List.length (filter f l) <= List.length l)%nat.
Proof.
  induction l as [|x l IH]; simpl; [lia|]. destruct (f x); simpl; lia.
Qed.

Lemma distinct_length xs :
  (List.length (distinct xs) <= List.length xs)%nat.
Proof.
  induction xs as [|y xs IH]; simpl; [lia|].
  pose proof (filter_length (fun z => negb (PyStr.eqb y z)) (distinct xs)).
  lia.
Qed.

Lemma distinct_not_empty xs : xs <> [] -> distinct xs <> [].
Proof. destruct xs; [congruence | discriminate]. Qed.

End DistinctFacts.

(** X14: in the block of the search data of a report, the number of unique
    addresses lies between 1 (for a non-empty list of results) and the
    number of results, and the providers listed are the providers of the
    results, each one once. *)
Theorem search_block_counts_distinct_values (rd : ResearchData) :
  exists d total unique providers,
    dados_pesquisa_real rd = VDict d
    /\ Dict.get d (u8 "total_resultados") = Some (VInt total)
    /\ Dict.get d (u8 "fontes_unicas") = Some (VInt unique)
    /\ Dict.get d (u8 "provedores_utilizados") = Some (strs providers)
    /\ total = Z.of_nat (List.length (search_results rd))
    /\ 0 <= unique <= total
    /\ (search_results rd <> [] -> 1 <= unique)
    /\ NoDup providers
    /\ (forall p, In p providers
                  <-> exists r, In r (search_results rd) /\ sr_source r = p)
    /\ Z.of_nat (List.length providers) <= total.
Proof.
  unfold dados_pesquisa_real.
  eexists _, _, _, (distinct (map sr_source (search_results rd))).
  split; [reflexivity|].
  split; [reflexivity|]. split; [reflexivity|]. split; [reflexivity|].
  split; [reflexivity|].
  pose proof (DistinctFacts.distinct_length (map sr_url (search_results rd)))
    as Hu.
  pose proof (DistinctFacts.distinct_length
                (map sr_source (search_results rd))) as Hp.
  rewrite length_map in Hu, Hp. unfold count_distinct.
  split; [lia|]. split.
  - intros Hne.
    assert (H : distinct (map sr_url (search_results rd)) <> []).
    { apply DistinctFacts.distinct_not_empty.
      destruct (search_results rd); [congruence | discriminate]. }
    destruct (distinct (map sr_url (search_results rd)));
      [congruence | simpl; lia].
  - split; [apply DistinctFacts.nodup_distinct|]. split; [|lia].
    intros p. rewrite DistinctFacts.in_distinct, in_map_iff.
    split; intros [r [H1 H2]]; exists r; tauto.
Qed.

Module MergeFacts.

Lemma with_research_other rd d key :
  key <> u8 "dados_pesquisa_real" -> key <> u8 "conteudo_extraido_real" ->
  Dict.get (with_research rd d) key = Dict.get d key.
Proof.
  intros H1 H2. unfold with_research.
  destruct (extracted_content rd), (search_results rd);
    rewrite ?DictFacts.get_set_other by congruence; reflexivity.
Qed.

Lemma with_research_default rd d key default :
  key <> u8 "dados_pesquisa_real" -> key <> u8 "conteudo_extraido_real" ->
  Dict.get_default (with_research rd d) key default
  = Dict.get_default d key default.
Proof.
  intros H1 H2. unfold Dict.get_default.
  now rewrite with_research_other.
Qed.

(** The insights the consolidation starts from are read after the
    research blocks are stored, which does not change them. *)
Lemma with_insights_model rd ai exclusive :
  exclusive <> [] ->
  with_insights exclusive (with_research rd ai)
  = match py_add_list (model_insights ai) (map VStr exclusive) with
    | Ok v => Ok (Dict.set (with_research rd ai)
                    (u8 "insights_exclusivos") v)
    | Raise e => Raise e
    end.
Proof.
  intros Hne. unfold with_insights, model_insights.
  destruct exclusive as [|i rest]; [congruence|].
  rewrite !with_research_default by (intros H; discriminate H).
  destruct (truthy (Dict.get_default ai (u8 "insights_exclusivos")
                      (VList []))); reflexivity.
Qed.

Section WithRuntime.
Variable W : Type.
Variable rt : Runtime W.

(** The whole of a consolidation, given what the four status reads
    return. *)
Lemma consolidate_run data rd ai w :
  _consolidate_comprehensive_analysis rt data rd ai w
  = match ai_get_provider_status rt w with
    | (Raise e, w1) => (Raise e, w1)
    | (Ok sa, w1) =>
        match search_get_provider_status rt w1 with
        | (Raise e, w2) => (Raise e, w2)
        | (Ok ss, w2) =>
            match py_add_list (model_insights ai)
                    (map VStr (ordered_insights rd sa ss)) with
            | Raise e => (Raise e, w2)
            | Ok v =>
                match ai_get_provider_status rt w2 with
                | (Raise e, w3) => (Raise e, w3)
                | (Ok sa', w3) =>
                    match search_get_provider_status rt w3 with
                    | (Raise e, w4) => (Raise e, w4)
                    | (Ok ss', w4) =>
                        (Ok (Dict.set
                               (Dict.set (with_research rd ai)
                                  (u8 "insights_exclusivos") v)
                               (u8 "sistemas_utilizados")
                               (sistemas_utilizados rd sa' ss')), w4)
                    end
                end
            end
        end
    end.
Proof.
  unfold _consolidate_comprehensive_analysis, bind, of_res, ret.
  rewrite ConsolidateFacts.exclusive_insights_run.
  destruct (ai_get_provider_status rt w) as [[sa|e] w1]; [|reflexivity].
  destruct (search_get_provider_status rt w1) as [[ss|e] w2];
    [|reflexivity].
  rewrite with_insights_model
    by apply ConsolidateFacts.ordered_insights_not_empty.
  destruct (py_add_list _ _) as [v|e]; [|reflexivity].
  destruct (ai_get_provider_status rt w2) as [[sa'|e] w3]; [|reflexivity].
  destruct (search_get_provider_status rt w3) as [[ss'|e] w4]; reflexivity.
Qed.

End WithRuntime.

End MergeFacts.



Module InsightFacts.

Lemma ordered_insights_at_least_two rd sa ss :
  (2 <= List.length (ordered_insights rd sa ss))%nat.
Proof. unfold ordered_insights. rewrite !length_app. simpl. lia. Qed.

Lemma add_list_ok v l r :
  py_add_list v l = Ok r -> exists l0, v = VList l0 /\ r = VList (l0 ++ l).
Proof.
  destruct v; simpl; try discriminate.
  intros H. inversion H. eauto.
Qed.

Lemma add_list_raises v l :
  (forall l0, v <> VList l0) ->
  exists e, py_add_list v l = Raise e /\ exn_cls e = TypeError.
Proof.
  intros H. destruct v; simpl; try (eexists; split; reflexivity).
  now destruct (H l0).
Qed.

End InsightFacts.

(** X16: the insights of a consolidated report are the insights of the
    model's answer (those under ['insights_exclusivos'], or those under
    ['insights_exclusivos_ultra'] when the first are missing or empty)
    followed by the insights derived from the research, between two and
    five of them. *)
Theorem consolidation_appends_the_derived_insights
  (W : Type) (rt : Runtime W) (data : dict) (rd : ResearchData)
  (ai_analysis final : dict) (w w' : W) :
  _consolidate_comprehensive_analysis rt data rd ai_analysis w
  = (Ok final, w') ->
  exists from_model sa ss,
    model_insights ai_analysis = VList from_model
    /\ fst (ai_get_provider_status rt w) = Ok sa
    /\ fst (search_get_provider_status rt
              (snd (ai_get_provider_status rt w))) = Ok ss
    /\ Dict.get final (u8 "insights_exclusivos")
       = Some (VList (from_model ++ map VStr (ordered_insights rd sa ss)))
    /\ (2 <= List.length (ordered_insights rd sa ss) <= 5)%nat.
Proof.
  rewrite MergeFacts.consolidate_run.
  destruct (ai_get_provider_status rt w) as [[sa|e] w1]; [|discriminate].
  cbn [fst snd].
  destruct (search_get_provider_status rt w1) as [[ss|e] w2];
    [|discriminate].
  destruct (py_add_list _ _) as [v|e] eqn:Eadd; [|discriminate].
  destruct (ai_get_provider_status rt w2) as [[sa'|e] w3]; [|discriminate].
  destruct (search_get_provider_status rt w3) as [[ss'|e] w4];
    [|discriminate].
  intros H. inversion H; subst. clear H.
  destruct (InsightFacts.add_list_ok _ _ Eadd) as [l0 [Hm ->]].
  exists l0, sa, ss. repeat split; auto.
  - rewrite DictFacts.get_set_other by discriminate.
    apply DictFacts.get_set_same.
  - apply InsightFacts.ordered_insights_at_least_two.
  - apply ConsolidateFacts.ordered_insights_length.
Qed.

Lemma consolidation_appends_the_derived_insights_witness :
  exists final from_model sa ss,
    _consolidate_comprehensive_analysis Demo.runtime Demo.request
      Demo.bundle
      (Dict.literal
         [ (u8 "insights_exclusivos", VList []);
           (u8 "insights_exclusivos_ultra", strs [u8 "um"; u8 "dois"]) ])
      Demo.morning = (Ok final, Demo.morning)
    /\ from_model = [VStr (u8 "um"); VStr (u8 "dois")]
    /\ Dict.get final (u8 "insights_exclusivos")
       = Some (VList (from_model
                      ++ map VStr (ordered_insights Demo.bundle sa ss))).
Proof.
  eexists.
  assert (H : _consolidate_comprehensive_analysis Demo.runtime Demo.request
                Demo.bundle
                (Dict.literal
                   [ (u8 "insights_exclusivos", VList []);
                     (u8 "insights_exclusivos_ultra",
                      strs [u8 "um"; u8 "dois"]) ])
                Demo.morning = (Ok _, Demo.morning))
    by (vm_compute; reflexivity).
  destruct (consolidation_appends_the_derived_insights _ _ _ _ _ H)
    as (from_model & sa & ss & Hm & _ & _ & Hg & _).
  exists from_model, sa, ss. split; [exact H|]. split; [|exact Hg].
  vm_compute in Hm. inversion Hm. reflexivity.
Defined.

(** X17: when the insights of the model's answer are not a list (a
    non-empty text, a number, an object) and the status reads return,
    the consolidation raises a TypeError: the research cannot be
    appended to them. *)
Theorem consolidation_raises_on_insights_that_are_no_list
  (W : Type) (rt : Runtime W) (data : dict) (rd : ResearchData)
  (ai_analysis : dict) (w : W) :
  (forall l, model_insights ai_analysis <> VList l) ->
  never_raises (ai_get_provider_status rt) ->
  never_raises (search_get_provider_status rt) ->
  exists e,
    result (_consolidate_comprehensive_analysis rt data rd ai_analysis) w
    = Raise e
    /\ exn_cls e = TypeError.
Proof.
  intros Hm Ha Hs. unfold result.
  rewrite MergeFacts.consolidate_run.
  specialize (Ha w).
  destruct (ai_get_provider_status rt w) as [[sa|e] w1]; [|discriminate].
  specialize (Hs w1).
  destruct (search_get_provider_status rt w1) as [[ss|e] w2];
    [|discriminate].
  destruct (InsightFacts.add_list_raises
              (map VStr (ordered_insights rd sa ss)) Hm) as [e [-> He]].
  exists e. split; [reflexivity | exact He].
Qed.

Lemma consolidation_raises_on_insights_that_are_no_list_witness :
  exists e,
    result (_consolidate_comprehensive_analysis Demo.runtime Demo.request
              Demo.bundle
              (Dict.literal
                 [ (u8 "insights_exclusivos", VStr (u8 "um insight")) ]))
      Demo.morning = Raise e
    /\ exn_cls e = TypeError.
Proof.
  apply consolidation_raises_on_insights_that_are_no_list.
  - intros l H. vm_compute in H. discriminate H.
  - intros w. reflexivity.
  - intros w. reflexivity.
Defined.

Module KeyFacts.

Lemma section_filled_set_other a key v section :
  key <> section ->
  section_filled (Dict.set a key v) section = section_filled a section.
Proof.
  intros H. unfold section_filled. now rewrite DictFacts.get_set_other.
Qed.

Lemma not_scored key :
  ~ In key scored_keys ->
  key <> u8 "avatar_ultra_detalhado" /\ key <> u8 "escopo"
  /\ key <> u8 "estrategia_palavras_chave"
  /\ key <> u8 "insights_exclusivos"
  /\ key <> u8 "pesquisa_web_detalhada" /\ key <> u8 "pesquisa_profunda".
Proof.
  unfold scored_keys. cbn [In]. intros H.
  repeat split; intros E; apply H; symmetry in E.
  - left; exact E.
  - right; left; exact E.
  - do 2 right; left; exact E.
  - do 3 right; left; exact E.
  - do 4 right; left; exact E.
  - do 5 right; left; exact E.
Qed.

End KeyFacts.

(** X18: the score reads six keys of the analysis and nothing else: an
    entry stored under any other key (the research blocks, the systems
    used, the metadata) leaves the score as it is. *)
Theorem score_reads_six_keys_only (analysis : dict) (key : pystr)
  (v : pyval) :
  ~ In key scored_keys ->
  _calculate_quality_score (Dict.set analysis key v)
  = _calculate_quality_score analysis.
Proof.
  intros H.
  destruct (KeyFacts.not_scored H) as (H1 & H2 & H3 & H4 & H5 & H6).
  unfold _calculate_quality_score, sections_score, research_score.
  cbv beta iota delta [main_sections fold_left].
  rewrite !KeyFacts.section_filled_set_other by assumption.
  rewrite !DictFacts.mem_set_other by assumption.
  unfold Dict.get_default. rewrite DictFacts.get_set_other by assumption.
  reflexivity.
Qed.

Lemma score_reads_six_keys_only_witness :
  _calculate_quality_score
    (Dict.set (_generate_basic_analysis Demo.runtime Demo.request)
       (u8 "dados_pesquisa_real") (dados_pesquisa_real Demo.bundle))
  = _calculate_quality_score
      (_generate_basic_analysis Demo.runtime Demo.request).
Proof.
  apply score_reads_six_keys_only.
  unfold scored_keys. cbn [In].
  intros [H|[H|[H|[H|[H|[H|[]]]]]]]; vm_compute in H; discriminate H.
Defined.

Module ReportFacts.

Lemma filled_one a section :
  In section main_sections -> section_filled a section = true ->
  1 <= filled_sections a.
Proof.
  intros Hin Hf. unfold filled_sections.
  assert (H : In section (filter (section_filled a) main_sections))
    by (apply filter_In; auto).
  destruct (filter (section_filled a) main_sections); [destruct H|].
  simpl. lia.
Qed.

Lemma insight_points_from n : 1 <= n -> 10 <= insight_points n.
Proof.
  unfold insight_points. intros H.
  destruct (5 <=? n); [lia|]. destruct (3 <=? n); [lia|].
  destruct (1 <=? n) eqn:E; [lia|]. apply Z.leb_gt in E. lia.
Qed.

Lemma insight_points_five n : 5 <= n -> insight_points n = 20.
Proof.
  unfold insight_points. intros H.
  destruct (5 <=? n) eqn:E; [reflexivity|].
  apply Z.leb_gt in E. lia.
Qed.

Section WithRuntime.
Variable W : Type.
Variable rt : Runtime W.

(** A consolidated analysis in the terms of the score: the insight
    entry is a list, the insights of the model followed by at least two
    derived ones; the other keys the score reads are those of the
    analysis of the model. *)
Lemma consolidated_for_the_score data rd ai w final w' :
  _consolidate_comprehensive_analysis rt data rd ai w = (Ok final, w') ->
  exists from_model derived,
    model_insights ai = VList from_model
    /\ (2 <= List.length derived <= 5)%nat
    /\ Dict.get final (u8 "insights_exclusivos")
       = Some (VList (from_model ++ derived))
    /\ (forall key, ~ In key consolidation_keys ->
          Dict.get final key = Dict.get ai key)
    /\ final <> [].
Proof.
  rewrite MergeFacts.consolidate_run.
  destruct (ai_get_provider_status rt w) as [[sa|e] w1]; [|discriminate].
  destruct (search_get_provider_status rt w1) as [[ss|e] w2];
    [|discriminate].
  destruct (py_add_list _ _) as [v|e] eqn:Eadd; [|discriminate].
  destruct (ai_get_provider_status rt w2) as [[sa'|e] w3]; [|discriminate].
  destruct (search_get_provider_status rt w3) as [[ss'|e] w4];
    [|discriminate].
  intros H. inversion H; subst. clear H.
  destruct (InsightFacts.add_list_ok _ _ Eadd) as [l0 [Hm ->]].
  exists l0, (map VStr (ordered_insights rd sa ss)).
  split; [exact Hm|]. rewrite length_map. split; [|split; [|split]].
  - split; [apply InsightFacts.ordered_insights_at_least_two
           | apply ConsolidateFacts.ordered_insights_length].
  - rewrite DictFacts.get_set_other by discriminate.
    apply DictFacts.get_set_same.
  - intros key Hk. unfold consolidation_keys in Hk. cbn [In] in Hk.
    assert (H1 : key <> u8 "dados_pesquisa_real")
      by (intros E; apply Hk; left; symmetry; exact E).
    assert (H2 : key <> u8 "conteudo_extraido_real")
      by (intros E; apply Hk; right; left; symmetry; exact E).
    assert (H3 : u8 "insights_exclusivos" <> key)
      by (intros E; apply Hk; right; right; left; exact E).
    assert (H4 : u8 "sistemas_utilizados" <> key)
      by (intros E; apply Hk; right; right; right; left; exact E).
    rewrite !DictFacts.get_set_other by assumption.
    now apply MergeFacts.with_research_other.
  - intros E. apply (f_equal (fun d => Dict.mem (u8 "sistemas_utilizados") d))
      in E.
    rewrite DictFacts.mem_set_same in E. discriminate E.
Qed.

End WithRuntime.

End ReportFacts.

(** X19: a report of the body of the [try] has a score of at least 25 (its
    insight entry is filled, with at least the two derived insights that
    are always there) and at most 100; it is at most 80 unless the
    report has one of the keys ['pesquisa_web_detalhada'] and
    ['pesquisa_profunda'], which the engine never writes. *)
Theorem report_score_is_at_least_25
  (W : Type) (rt : Runtime W) (self : EnhancedAnalysisEngine) (data : dict)
  (session_id : option pystr) (start_time : float) (w w' : W)
  (report : dict) :
  pipeline rt self data session_id start_time w = (Ok report, w') ->
  exists q,
    quality_score_of report = Some (VFloat q)
    /\ PrimFloat.leb 25 q = true
    /\ PrimFloat.leb q 100 = true
    /\ (Dict.mem (u8 "pesquisa_web_detalhada") report = false ->
        Dict.mem (u8 "pesquisa_profunda") report = false ->
        PrimFloat.leb q 80 = true).
Proof.
  intros Hp.
  destruct (PipelineFacts.pipeline_shape _ _ _ _ _ _ Hp)
    as (rd & w1 & ai & w2 & final & w3 & pt & fmt & now & q
        & _ & _ & Hc & Hq & ->).
  destruct (ReportFacts.consolidated_for_the_score _ _ _ _ _ Hc)
    as (l0 & derived & _ & Hd & Hi & _ & Hne).
  assert (Ht : truthy (VDict final) = true)
    by (destruct final; [congruence | reflexivity]).
  rewrite Ht in Hq.
  set (n := Z.of_nat (List.length (l0 ++ derived))).
  assert (Hn : py_len (insights_entry final) = Ok n).
  { unfold insights_entry, Dict.get_default. rewrite Hi. reflexivity. }
  assert (Hn2 : 2 <= n) by (unfold n; rewrite length_app; lia).
  rewrite (@ScoreFacts.score_of _ _ Hn) in Hq. inversion Hq; subst q.
  assert (Hf : 1 <= filled_sections final).
  { apply ReportFacts.filled_one with (section := u8 "insights_exclusivos").
    - apply insights_key_is_a_section.
    - unfold section_filled. rewrite Hi.
      destruct l0; [|reflexivity].
      destruct derived; [simpl in Hd; lia | reflexivity]. }
  pose proof (ScoreFacts.filled_sections_range final) as Hf4.
  pose proof (ScoreFacts.research_keys_range final) as Hr.
  pose proof (ReportFacts.insight_points_from (n := n)) as Hip.
  pose proof (ScoreFacts.insight_points_range n) as Hip2.
  pose proof (ScoreFacts.quality_points_range final n) as Hrange.
  assert (H25 : 25 <= quality_points final n)
    by (unfold quality_points; lia).
  exists (float_of_Z (quality_points final n)).
  split; [|split; [|split]].
  - unfold quality_score_of. rewrite DictFacts.get_set_same.
    apply PipelineFacts.metadata_entry_score.
  - change 25%float with (float_of_Z 25).
    apply ScoreFacts.float_of_Z_monotone; lia.
  - apply ScoreFacts.float_of_Z_in_0_100. exact Hrange.
  - rewrite !DictFacts.mem_set_other by discriminate.
    intros M1 M2.
    change 80%float with (float_of_Z 80).
    apply ScoreFacts.float_of_Z_monotone; [|lia].
    split; [lia|]. unfold quality_points, research_keys.
    rewrite M1, M2. lia.
Qed.

Lemma report_score_is_at_least_25_witness :
  exists report q,
    pipeline Demo.runtime (init Demo.runtime) Demo.request None
      (Demo.seconds Demo.morning) Demo.morning = (Ok report, Demo.morning)
    /\ quality_score_of report = Some (VFloat q)
    /\ PrimFloat.leb 25 q = true.
Proof.
  eexists.
  assert (H : pipeline Demo.runtime (init Demo.runtime) Demo.request None
                (Demo.seconds Demo.morning) Demo.morning
              = (Ok _, Demo.morning)) by (vm_compute; reflexivity).
  destruct (report_score_is_at_least_25 _ _ _ _ _ _ H)
    as (q & Hq & H25 & _).
  exists q. split; [exact H|]. split; assumption.
Defined.

(** X20: the body of the [try] returns a report only when the flag of the
    model collaborator is set, so the ['ai_models_used'] of the metadata
    of such a report is always 1. *)
Theorem report_of_the_try_body_counts_one_model
  (W : Type) (rt : Runtime W) (self : EnhancedAnalysisEngine) (data : dict)
  (session_id : option pystr) (start_time : float) (w w' : W)
  (report : dict) :
  pipeline rt self data session_id start_time w = (Ok report, w') ->
  ai_manager (systems_enabled self) = true
  /\ entry report "metadata" "ai_models_used" = Some (VInt 1).
Proof.
  intros Hp.
  destruct (PipelineFacts.pipeline_shape _ _ _ _ _ _ Hp)
    as (rd & w1 & ai & w2 & final & w3 & pt & fmt & now & q
        & _ & Ha & _ & _ & ->).
  assert (Hflag : ai_manager (systems_enabled self) = true).
  { unfold _perform_comprehensive_ai_analysis in Ha.
    destruct (ai_manager (systems_enabled self)); [reflexivity|].
    discriminate Ha. }
  split; [exact Hflag|].
  unfold entry. rewrite DictFacts.get_set_same.
  unfold metadata_items. rewrite Hflag. reflexivity.
Qed.

Lemma report_of_the_try_body_counts_one_model_witness :
  exists report,
    pipeline Demo.runtime (init Demo.runtime) Demo.request None
      (Demo.seconds Demo.morning) Demo.morning = (Ok report, Demo.morning)
    /\ entry report "metadata" "ai_models_used" = Some (VInt 1).
Proof.
  eexists.
  assert (H : pipeline Demo.runtime (init Demo.runtime) Demo.request None
                (Demo.seconds Demo.morning) Demo.morning
              = (Ok _, Demo.morning)) by (vm_compute; reflexivity).
  split; [exact H|].
  exact (proj2 (report_of_the_try_body_counts_one_model _ _ _ _ _ _ H)).
Defined.

Module DegradedFacts.

Section WithRuntime.
Variable W : Type.
Variable rt : Runtime W.

Lemma basic_model_insights data :
  exists l, model_insights (_generate_basic_analysis rt data) = VList l
            /\ List.length l = 5%nat.
Proof. eexists. split; [vm_compute; reflexivity | reflexivity]. Qed.

Lemma reduced_model_insights text data :
  exists l, model_insights (_extract_structured_analysis rt text data)
            = VList l
            /\ List.length l = 5%nat.
Proof. eexists. split; [vm_compute; reflexivity | reflexivity]. Qed.

(** The points of a consolidated analysis, from the sections of the
    analysis of the model. *)
Lemma consolidated_points data rd ai w final w' from_model :
  _consolidate_comprehensive_analysis rt data rd ai w = (Ok final, w') ->
  model_insights ai = VList from_model ->
  (5 <= List.length from_model)%nat ->
  exists n,
    py_len (insights_entry final) = Ok n
    /\ quality_points final n
       = Z.min 100
           (15 * ((if section_filled ai (u8 "avatar_ultra_detalhado")
                   then 1 else 0)
                  + (if section_filled ai (u8 "escopo") then 1 else 0)
                  + (if section_filled ai (u8 "estrategia_palavras_chave")
                     then 1 else 0)
                  + 1)
            + 10 * research_keys ai + 20).
Proof.
  intros Hc Hm H5.
  destruct (ReportFacts.consolidated_for_the_score _ _ _ _ _ Hc)
    as (l0 & derived & Hm' & Hd & Hi & Hk & _).
  rewrite Hm in Hm'. inversion Hm'; subst l0. clear Hm'.
  exists (Z.of_nat (List.length (from_model ++ derived))). split.
  - unfold insights_entry, Dict.get_default. rewrite Hi. reflexivity.
  - assert (K : forall key,
               ~ In key consolidation_keys ->
               section_filled final key = section_filled ai key).
    { intros key Hkey. unfold section_filled. now rewrite Hk. }
    assert (M : forall key,
               ~ In key consolidation_keys ->
               Dict.mem key final = Dict.mem key ai).
    { intros key Hkey. unfold Dict.mem. now rewrite Hk. }
    assert (N : forall key : pystr,
               existsb (PyStr.eqb key) consolidation_keys = false ->
               ~ In key consolidation_keys).
    { intros key E Hin.
      assert (X : existsb (PyStr.eqb key) consolidation_keys = true).
      { apply existsb_exists. exists key. split; [exact Hin|].
        apply PyStrFacts.eqb_refl. }
      congruence. }
    unfold quality_points, filled_sections, research_keys.
    cbv beta iota delta [main_sections filter].
    rewrite (K (u8 "avatar_ultra_detalhado"))
      by (apply N; vm_compute; reflexivity).
    rewrite (K (u8 "escopo")) by (apply N; vm_compute; reflexivity).
    rewrite (K (u8 "estrategia_palavras_chave"))
      by (apply N; vm_compute; reflexivity).
    rewrite (M (u8 "pesquisa_web_detalhada"))
      by (apply N; vm_compute; reflexivity).
    rewrite (M (u8 "pesquisa_profunda"))
      by (apply N; vm_compute; reflexivity).
    assert (F : section_filled final (u8 "insights_exclusivos") = true).
    { unfold section_filled. rewrite Hi.
      destruct from_model; [simpl in H5; lia | reflexivity]. }
    rewrite F.
    rewrite ReportFacts.insight_points_five
      by (rewrite length_app; lia).
    destruct (section_filled ai (u8 "avatar_ultra_detalhado")),
      (section_filled ai (u8 "escopo")),
      (section_filled ai (u8 "estrategia_palavras_chave"));
      reflexivity.
Qed.

End WithRuntime.

End DegradedFacts.

(** X21: the analysis built without an answer of the model (the basic
    analysis the analysis stage falls back to), once consolidated, has
    a score of exactly 80, whatever the request and the research. *)
Theorem basic_analysis_scores_80
  (W : Type) (rt : Runtime W) (data : dict) (rd : ResearchData)
  (final : dict) (w w' : W) :
  _consolidate_comprehensive_analysis rt data rd
    (_generate_basic_analysis rt data) w = (Ok final, w') ->
  _calculate_quality_score final = Ok 80%float.
Proof.
  intros Hc.
  destruct (DegradedFacts.basic_model_insights rt data) as (l & Hm & Hl).
  destruct (DegradedFacts.consolidated_points _ _ _ _ _ Hc Hm)
    as (n & Hn & Hp); [lia|].
  rewrite (@ScoreFacts.score_of _ _ Hn), Hp. reflexivity.
Qed.

Lemma basic_analysis_scores_80_witness :
  exists final,
    _consolidate_comprehensive_analysis Demo.runtime Demo.request
      Demo.bundle (_generate_basic_analysis Demo.runtime Demo.request)
      Demo.morning = (Ok final, Demo.morning)
    /\ _calculate_quality_score final = Ok 80%float.
Proof.
  eexists.
  assert (H : _consolidate_comprehensive_analysis Demo.runtime Demo.request
                Demo.bundle
                (_generate_basic_analysis Demo.runtime Demo.request)
                Demo.morning = (Ok _, Demo.morning))
    by (vm_compute; reflexivity).
  split; [exact H|]. exact (@basic_analysis_scores_80 _ _ _ _ _ _ _ H).
Defined.

(** X22: the reduced analysis built from an answer that is not JSON, once
    consolidated, has a score of exactly 50, whatever the answer, the
    request and the research. *)
Theorem reduced_analysis_scores_50
  (W : Type) (rt : Runtime W) (text : pystr) (data : dict)
  (rd : ResearchData) (final : dict) (w w' : W) :
  _consolidate_comprehensive_analysis rt data rd
    (_extract_structured_analysis rt text data) w = (Ok final, w') ->
  _calculate_quality_score final = Ok 50%float.
Proof.
  intros Hc.
  destruct (DegradedFacts.reduced_model_insights rt text data)
    as (l & Hm & Hl).
  destruct (DegradedFacts.consolidated_points _ _ _ _ _ Hc Hm)
    as (n & Hn & Hp); [lia|].
  rewrite (@ScoreFacts.score_of _ _ Hn), Hp. reflexivity.
Qed.

Lemma reduced_analysis_scores_50_witness :
  exists final,
    _consolidate_comprehensive_analysis Demo.runtime Demo.request
      Demo.bundle
      (_extract_structured_analysis Demo.runtime
         (u8 "Desculpe, sem JSON.") Demo.request)
      Demo.morning = (Ok final, Demo.morning)
    /\ _calculate_quality_score final = Ok 50%float.
Proof.
  eexists.
  assert (H : _consolidate_comprehensive_analysis Demo.runtime Demo.request
                Demo.bundle
                (_extract_structured_analysis Demo.runtime
                   (u8 "Desculpe, sem JSON.") Demo.request)
                Demo.morning = (Ok _, Demo.morning))
    by (vm_compute; reflexivity).
  split; [exact H|]. exact (@reduced_analysis_scores_50 _ _ _ _ _ _ _ _ H).
Defined.


Module EmergencyFacts.

Section WithRuntime.
Variable W : Type.
Variable rt : Runtime W.

(** The emergency report, entry by entry, when the two status reads
    return. *)
Lemma fallback_report data error w sa w1 ss w2 :
  ai_get_provider_status rt (snd (datetime_utcnow rt w)) = (Ok sa, w1) ->
  search_get_provider_status rt w1 = (Ok ss, w2) ->
  exists report insights,
    _generate_fallback_analysis rt data error w = (Ok report, w2)
    /\ Dict.get (_generate_basic_analysis rt data)
         (u8 "insights_exclusivos") = Some (VList insights)
    /\ Dict.get report (u8 "insights_exclusivos")
       = Some (VList
                 (insights
                  ++ [ VStr (u8 "⚠️ Erro no processamento: " ++ error);
                       VStr (u8 "🔄 Recomenda-se executar nova análise") ]))
    /\ Dict.get report (u8 "metadata")
       = Some (emergency_metadata (fst (datetime_utcnow rt w)) sa ss)
    /\ (forall key, key <> u8 "insights_exclusivos" ->
                    key <> u8 "metadata" ->
                    Dict.get report key
                    = Dict.get (_generate_basic_analysis rt data) key).
Proof.
  intros Ha Hs.
  destruct (FallbackFacts.basic_insights rt data) as [insights Hi].
  unfold _generate_fallback_analysis, bind, of_res, reading, ret.
  unfold py_append_at at 1. rewrite Hi.
  unfold py_append_at. rewrite DictFacts.get_set_same.
  destruct (datetime_utcnow rt w) as [now w0]. cbn [fst snd] in *.
  rewrite Ha, Hs.
  eexists _, insights. split; [reflexivity|].
  split; [first [exact Hi | reflexivity]|].
  split; [|split].
  - rewrite DictFacts.get_set_other by discriminate.
    rewrite DictFacts.get_set_same, <- app_assoc. reflexivity.
  - apply DictFacts.get_set_same.
  - intros key K1 K2.
    rewrite !DictFacts.get_set_other by congruence. reflexivity.
Qed.

End WithRuntime.

End EmergencyFacts.

(** X23: when the body of the [try] raises and the two status reads of the
    emergency path return, the entry point returns the basic analysis
    with two insights appended, the first carrying the text of the
    exception, and a metadata block that names the engine 'Emergency
    Fallback', a score of 25.0, no processing time, and, of the two
    recommendations written, the second. *)
Theorem emergency_report_carries_the_error
  (W : Type) (rt : Runtime W) (self : EnhancedAnalysisEngine) (data : dict)
  (session_id : option pystr) (w w1 w2 w3 : W) (e : exn)
  (sa ss : provider_status) :
  pipeline rt self data session_id (fst (time_time rt w))
    (snd (time_time rt w)) = (Raise e, w1) ->
  ai_get_provider_status rt (snd (datetime_utcnow rt w1)) = (Ok sa, w2) ->
  search_get_provider_status rt w2 = (Ok ss, w3) ->
  exists report insights,
    generate_comprehensive_analysis rt self data session_id w
    = (Ok report, w3)
    /\ Dict.get (_generate_basic_analysis rt data)
         (u8 "insights_exclusivos") = Some (VList insights)
    /\ Dict.get report (u8 "insights_exclusivos")
       = Some (VList
                 (insights
                  ++ [ VStr (u8 "⚠️ Erro no processamento: " ++ exn_str e);
                       VStr (u8 "🔄 Recomenda-se executar nova análise") ]))
    /\ entry report "metadata" "analysis_engine"
       = Some (VStr (u8 "Emergency Fallback"))
    /\ entry report "metadata" "quality_score" = Some (VFloat 25%float)
    /\ entry report "metadata" "processing_time_seconds" = Some (VInt 0)
    /\ entry report "metadata" "recommendation"
       = Some (VStr (u8 "Execute nova análise com configuração completa")).
Proof.
  intros Hp Ha Hs.
  destruct (EmergencyFacts.fallback_report rt data (exn_str e) _ Ha Hs)
    as (report & insights & Hf & Hi & Hr & Hm & _).
  exists report, insights.
  split.
  - unfold generate_comprehensive_analysis, bind, reading, try_except.
    destruct (time_time rt w) as [start_time w0]. cbn [fst snd] in Hp.
    rewrite Hp. exact Hf.
  - split; [exact Hi|]. split; [exact Hr|].
    unfold entry. rewrite Hm. repeat split; reflexivity.
Qed.

Lemma emergency_report_carries_the_error_witness :
  exists report,
    generate_comprehensive_analysis Demo.runtime_text_insights
      (init Demo.runtime_text_insights) Demo.request None Demo.morning
    = (Ok report, Demo.morning)
    /\ nth_error
         (match Dict.get report (u8 "insights_exclusivos") with
          | Some (VList l) => l
          | _ => []
          end) 5
       = Some (VStr (u8q "⚠️ Erro no processamento: can only concatenate str (not @list@) to str"))
    /\ entry report "metadata" "quality_score" = Some (VFloat 25%float).
Proof.
  assert (Hp : pipeline Demo.runtime_text_insights
                 (init Demo.runtime_text_insights) Demo.request None
                 (fst (time_time Demo.runtime_text_insights
                         Demo.morning))
                 (snd (time_time Demo.runtime_text_insights
                         Demo.morning))
               = (Raise (type_error (u8q "can only concatenate str (not @list@) to str")),
                  Demo.morning))
    by (vm_compute; reflexivity).
  destruct (@emergency_report_carries_the_error _
              Demo.runtime_text_insights
              (init Demo.runtime_text_insights) Demo.request None
              Demo.morning Demo.morning Demo.morning Demo.morning _
              Demo.ai_status Demo.search_status Hp eq_refl eq_refl)
    as (report & insights & Hg & Hi & Hr & _ & Hq & _).
  exists report. split; [exact Hg|]. split; [|exact Hq].
  rewrite Hr. vm_compute in Hi. inversion Hi. subst insights.
  vm_compute. reflexivity.
Defined.

Lemma report_returned_when_status_is_readable_witness :
  exists report w' q,
    generate_comprehensive_analysis Demo.runtime (init Demo.runtime)
      Demo.request None Demo.morning = (Ok report, w')
    /\ quality_score_of report = Some (VFloat q)
    /\ in_0_100 q.
Proof.
  apply (@report_returned_when_status_is_readable _ Demo.runtime);
    intros w; reflexivity.
Defined.
